(** * mapban: the lobby coordinator of the veto server

    A shallow embedding of the socket handlers of the mapban backend
    (the file that owns the [lobbies] store): lobby creation, joining,
    team naming, the FPS and Splatoon pick / ban steps, the mode steps and
    the disconnect handler, followed by the properties of the
    specification that concern them.

    The handlers are imperative: they mutate the lobby object held by the
    store and call [io.to(..).emit(..)].  They are embedded in a small
    monad that threads the process state, collects the emitted events in
    order and records an uncaught exception. *)

From stdpp Require Import base strings list gmap pretty.
From Stdlib Require Import ZArith Lia.

Local Open Scope string_scope.
Local Open Scope Z_scope.

(** ** Data model *)

(** [GameType]: the union type "bo1" | "bo3" | "bo5". *)
Inductive GameType := bo1 | bo3 | bo5.

(** Tokens of a veto pattern: "ban" | "pick" | "decider". *)
Inductive Rule := Ban | Pick | Decider.

(** [Roles]: "member" | "observer" | "test". *)
Inductive Roles := member | observer | test.

#[global] Instance GameType_eq_dec : EqDecision GameType.
Proof. solve_decision. Defined.
#[global] Instance Rule_eq_dec : EqDecision Rule.
Proof. solve_decision. Defined.
#[global] Instance Roles_eq_dec : EqDecision Roles.
Proof. solve_decision. Defined.

(** Entries of [pickedMaps]: the FPS shape [{map, teamName, side,
    sideTeamName}] and the Splatoon shape [{map, teamName, roundNumber}]. *)
Inductive PickedMap :=
| FpsPicked (map teamName side sideTeamName : string)
| SplatoonPicked (map teamName : string) (roundNumber : Z).

(** Entries of [bannedMaps]: [{map, teamName}] and
    [{map, teamName, roundNumber}]. *)
Inductive BannedMap :=
| FpsBanned (map teamName : string)
| SplatoonBanned (map teamName : string) (roundNumber : Z).

Definition picked_map (p : PickedMap) : string :=
  match p with
  | FpsPicked m _ _ _ => m
  | SplatoonPicked m _ _ => m
  end.

Definition banned_map (b : BannedMap) : string :=
  match b with
  | FpsBanned m _ => m
  | SplatoonBanned m _ _ => m
  end.

Definition banned_teamName (b : BannedMap) : string :=
  match b with
  | FpsBanned _ t => t
  | SplatoonBanned _ t _ => t
  end.

(** [ban.roundNumber]: absent ([undefined]) on an FPS entry. *)
Definition banned_roundNumber (b : BannedMap) : option Z :=
  match b with
  | FpsBanned _ _ => None
  | SplatoonBanned _ _ r => Some r
  end.

(** [{mode, teamName, translatedMode}]: an entry of [bannedModes] and the
    value of [pickedMode]; the translation of a picked mode is a bare
    table lookup and may be [undefined]. *)
Record ModeEntry := {
  me_mode : string;
  me_teamName : string;
  me_translatedMode : option string
}.

(** [lobby.rules].  One record carries the fields of both families; the
    fields of the other family do not exist on the object and are never
    read for it (every read is guarded by the game category). *)
Record Rules := {
  gameName : string;
  gameType : GameType;
  mapNames : option (list string);   (* [undefined] when the pool has no such game *)
  mapRulesList : list Rule;
  coinFlip : bool;
  admin : bool;
  knifeDecider : bool;               (* FPS *)
  mapPoolSize : Z;
  modesRulesList : list Rule;        (* Splatoon *)
  activeModes : list string;         (* Splatoon *)
  roundNumber : Z;                   (* Splatoon *)
  modesSize : Z;                     (* Splatoon *)
  lastWinner : option string         (* Splatoon *)
}.

(** A lobby.  [members] and [observers] are JS [Set]s and [teamNames] a JS
    [Map]: insertion-ordered, so they are lists without repeated
    element / key. *)
Record Lobby := {
  lobbyId : string;
  members : list string;
  teamNames : list (string * string);
  observers : list string;
  pickedMaps : list PickedMap;
  bannedMaps : list BannedMap;
  rules : Rules;
  gameStep : Z;
  deciderMap : option string;
  bannedModes : list ModeEntry;      (* Splatoon *)
  pickedMode : option ModeEntry;     (* Splatoon *)
  priorityTeam : option string       (* Splatoon *)
}.

(** *** JS [Set<string>] and [Map<string, string>] *)

Module JsSet.
Definition add (x : string) (s : list string) : list string :=
  if decide (x ∈ s) then s else s ++ [x].
Definition delete (x : string) (s : list string) : list string :=
  filter (λ y, y ≠ x) s.
Definition size (s : list string) : Z := Z.of_nat (length s).
End JsSet.

Module JsMap.
Fixpoint set (k v : string) (m : list (string * string)) : list (string * string) :=
  match m with
  | [] => [(k, v)]
  | (k', v') :: m' => if decide (k' = k) then (k, v) :: m' else (k', v') :: set k v m'
  end.
Definition delete (k : string) (m : list (string * string)) : list (string * string) :=
  filter (λ e, e.1 ≠ k) m.
Definition get (k : string) (m : list (string * string)) : option string :=
  snd <$> List.find (λ e, bool_decide (e.1 = k)) m.
Definition size (m : list (string * string)) : Z := Z.of_nat (length m).
Definition keys (m : list (string * string)) : list string := m.*1.
End JsMap.

(** ** Transport *)

(** [io.to(r)] addresses a room; every socket is alone in the room named
    by its own id, so [io.to(socket.id)] is the same operation.
    [io.emit] reaches every connection. *)
Inductive Target := To (room : string) | Everyone.

Inductive Payload :=
| PNone
| PBool (b : bool)
| PNum (n : Z)
| PStr (s : string)
| PMapNames (names : option (list string))
| PEntries (entries : list (string * string))
| PPicked (picked : list PickedMap)
| PBanned (banned : list BannedMap)
| PSettings (gt : GameType) (poolSize : Z) (knife : bool)
| PModes (banned : list ModeEntry) (active : list string) (size : Z)
| PMode (m : ModeEntry).

Record Emit := { target : Target; event : string; payload : Payload }.

(** [socket.rooms] and [socket.data]. *)
Record Socket := {
  rooms : gset string;
  data_lobbies : list string;                 (* [socket.data.lobbies], a Set *)
  data_pickedMap : option (option string * string)  (* [{map, teamName}] *)
}.

Definition newSocket : Socket :=
  {| rooms := ∅; data_lobbies := []; data_pickedMap := None |}.

(** The process state: the module-level variables and the connections. *)
Record World := {
  lobbies : gmap string Lobby;
  globalCoinFlip : bool;
  mapPool_fps : gmap string (list string);
  mapPool_splatoon : gmap string (list string);
  sockets : gmap string Socket;
  timers : list (nat * Emit)                  (* pending [setTimeout] emissions *)
}.

(** *** Field updates (the handlers mutate the objects in place) *)

Definition set_activeModes (v : list string) (r : Rules) : Rules :=
  {| gameName := gameName r; gameType := gameType r; mapNames := mapNames r;
     mapRulesList := mapRulesList r; coinFlip := coinFlip r; admin := admin r;
     knifeDecider := knifeDecider r; mapPoolSize := mapPoolSize r;
     modesRulesList := modesRulesList r; activeModes := v;
     roundNumber := roundNumber r; modesSize := modesSize r;
     lastWinner := lastWinner r |}.

Definition set_mapNames (v : option (list string)) (r : Rules) : Rules :=
  {| gameName := gameName r; gameType := gameType r; mapNames := v;
     mapRulesList := mapRulesList r; coinFlip := coinFlip r; admin := admin r;
     knifeDecider := knifeDecider r; mapPoolSize := mapPoolSize r;
     modesRulesList := modesRulesList r; activeModes := activeModes r;
     roundNumber := roundNumber r; modesSize := modesSize r;
     lastWinner := lastWinner r |}.

Definition set_members (v : list string) (l : Lobby) : Lobby :=
  {| lobbyId := lobbyId l; members := v; teamNames := teamNames l;
     observers := observers l; pickedMaps := pickedMaps l;
     bannedMaps := bannedMaps l; rules := rules l; gameStep := gameStep l;
     deciderMap := deciderMap l; bannedModes := bannedModes l;
     pickedMode := pickedMode l; priorityTeam := priorityTeam l |}.

Definition set_teamNames (v : list (string * string)) (l : Lobby) : Lobby :=
  {| lobbyId := lobbyId l; members := members l; teamNames := v;
     observers := observers l; pickedMaps := pickedMaps l;
     bannedMaps := bannedMaps l; rules := rules l; gameStep := gameStep l;
     deciderMap := deciderMap l; bannedModes := bannedModes l;
     pickedMode := pickedMode l; priorityTeam := priorityTeam l |}.

Definition set_observers (v : list string) (l : Lobby) : Lobby :=
  {| lobbyId := lobbyId l; members := members l; teamNames := teamNames l;
     observers := v; pickedMaps := pickedMaps l;
     bannedMaps := bannedMaps l; rules := rules l; gameStep := gameStep l;
     deciderMap := deciderMap l; bannedModes := bannedModes l;
     pickedMode := pickedMode l; priorityTeam := priorityTeam l |}.

Definition set_pickedMaps (v : list PickedMap) (l : Lobby) : Lobby :=
  {| lobbyId := lobbyId l; members := members l; teamNames := teamNames l;
     observers := observers l; pickedMaps := v;
     bannedMaps := bannedMaps l; rules := rules l; gameStep := gameStep l;
     deciderMap := deciderMap l; bannedModes := bannedModes l;
     pickedMode := pickedMode l; priorityTeam := priorityTeam l |}.

Definition set_bannedMaps (v : list BannedMap) (l : Lobby) : Lobby :=
  {| lobbyId := lobbyId l; members := members l; teamNames := teamNames l;
     observers := observers l; pickedMaps := pickedMaps l;
     bannedMaps := v; rules := rules l; gameStep := gameStep l;
     deciderMap := deciderMap l; bannedModes := bannedModes l;
     pickedMode := pickedMode l; priorityTeam := priorityTeam l |}.

Definition set_rules (v : Rules) (l : Lobby) : Lobby :=
  {| lobbyId := lobbyId l; members := members l; teamNames := teamNames l;
     observers := observers l; pickedMaps := pickedMaps l;
     bannedMaps := bannedMaps l; rules := v; gameStep := gameStep l;
     deciderMap := deciderMap l; bannedModes := bannedModes l;
     pickedMode := pickedMode l; priorityTeam := priorityTeam l |}.

Definition set_gameStep (v : Z) (l : Lobby) : Lobby :=
  {| lobbyId := lobbyId l; members := members l; teamNames := teamNames l;
     observers := observers l; pickedMaps := pickedMaps l;
     bannedMaps := bannedMaps l; rules := rules l; gameStep := v;
     deciderMap := deciderMap l; bannedModes := bannedModes l;
     pickedMode := pickedMode l; priorityTeam := priorityTeam l |}.

Definition set_deciderMap (v : option string) (l : Lobby) : Lobby :=
  {| lobbyId := lobbyId l; members := members l; teamNames := teamNames l;
     observers := observers l; pickedMaps := pickedMaps l;
     bannedMaps := bannedMaps l; rules := rules l; gameStep := gameStep l;
     deciderMap := v; bannedModes := bannedModes l;
     pickedMode := pickedMode l; priorityTeam := priorityTeam l |}.

Definition set_bannedModes (v : list ModeEntry) (l : Lobby) : Lobby :=
  {| lobbyId := lobbyId l; members := members l; teamNames := teamNames l;
     observers := observers l; pickedMaps := pickedMaps l;
     bannedMaps := bannedMaps l; rules := rules l; gameStep := gameStep l;
     deciderMap := deciderMap l; bannedModes := v;
     pickedMode := pickedMode l; priorityTeam := priorityTeam l |}.

Definition set_pickedMode (v : option ModeEntry) (l : Lobby) : Lobby :=
  {| lobbyId := lobbyId l; members := members l; teamNames := teamNames l;
     observers := observers l; pickedMaps := pickedMaps l;
     bannedMaps := bannedMaps l; rules := rules l; gameStep := gameStep l;
     deciderMap := deciderMap l; bannedModes := bannedModes l;
     pickedMode := v; priorityTeam := priorityTeam l |}.

Definition set_priorityTeam (v : option string) (l : Lobby) : Lobby :=
  {| lobbyId := lobbyId l; members := members l; teamNames := teamNames l;
     observers := observers l; pickedMaps := pickedMaps l;
     bannedMaps := bannedMaps l; rules := rules l; gameStep := gameStep l;
     deciderMap := deciderMap l; bannedModes := bannedModes l;
     pickedMode := pickedMode l; priorityTeam := v |}.

Definition set_lobbies (v : gmap string Lobby) (w : World) : World :=
  {| lobbies := v; globalCoinFlip := globalCoinFlip w;
     mapPool_fps := mapPool_fps w; mapPool_splatoon := mapPool_splatoon w;
     sockets := sockets w; timers := timers w |}.

Definition set_sockets (v : gmap string Socket) (w : World) : World :=
  {| lobbies := lobbies w; globalCoinFlip := globalCoinFlip w;
     mapPool_fps := mapPool_fps w; mapPool_splatoon := mapPool_splatoon w;
     sockets := v; timers := timers w |}.

Definition set_timers (v : list (nat * Emit)) (w : World) : World :=
  {| lobbies := lobbies w; globalCoinFlip := globalCoinFlip w;
     mapPool_fps := mapPool_fps w; mapPool_splatoon := mapPool_splatoon w;
     sockets := sockets w; timers := v |}.

(** ** The handler monad *)

(** How a handler ends: it returns, or an exception escapes it. *)
Inductive Completion (A : Type) :=
| Normal (a : A)
| Thrown (e : string).
Arguments Normal {A} a.
Arguments Thrown {A} e.

(** What a handler leaves behind: the state as mutated up to the point
    where it stopped, and the events emitted, oldest first. *)
Record Outcome (A : Type) := {
  completion : Completion A;
  final : World;
  emitted : list Emit
}.
Arguments completion {A} o.
Arguments final {A} o.
Arguments emitted {A} o.

Definition M (A : Type) : Type := World → Outcome A.

#[global] Instance M_ret : MRet M :=
  λ A a w, {| completion := Normal a; final := w; emitted := [] |}.

(** The events of an earlier part of a handler precede those of the rest. *)
Definition after {A} (evs : list Emit) (o : Outcome A) : Outcome A :=
  match o with
  | {| completion := c; final := w; emitted := evs' |} =>
      {| completion := c; final := w; emitted := evs ++ evs' |}
  end.

#[global] Instance M_bind : MBind M :=
  λ A B f m w,
    match m w with
    | {| completion := Normal a; final := w'; emitted := evs |} => after evs (f a w')
    | {| completion := Thrown e; final := w'; emitted := evs |} =>
        {| completion := Thrown e; final := w'; emitted := evs |}
    end.

Definition throw {A} (e : string) : M A :=
  λ w, {| completion := Thrown e; final := w; emitted := [] |}.

Definition gets {A} (f : World → A) : M A :=
  λ w, {| completion := Normal (f w); final := w; emitted := [] |}.

Definition modify (f : World → World) : M unit :=
  λ w, {| completion := Normal tt; final := f w; emitted := [] |}.

(** [io.to(t).emit(e, p)] / [io.emit(e, p)] *)
Definition emit (t : Target) (e : string) (p : Payload) : M unit :=
  λ w, {| completion := Normal tt; final := w;
          emitted := [{| target := t; event := e; payload := p |}] |}.

Definition emitB (room : string) (e : string) (b : bool) : M unit :=
  emit (To room) e (PBool b).

Definition when (b : bool) (m : M unit) : M unit :=
  if b then m else mret tt.

(** [lobbies.get(id)] *)
Definition getLobby (id : string) : M (option Lobby) :=
  gets (λ w, lobbies w !! id).

(** An in-place mutation of the lobby object stored under [id]: the new
    value of the object replaces the old one in the store and is handed
    back for the reads that follow. *)
Definition mutate (id : string) (l : Lobby) : M Lobby :=
  λ w, {| completion := Normal l; final := set_lobbies (<[id := l]> (lobbies w)) w;
          emitted := [] |}.

Definition getSocket (sid : string) (w : World) : Socket :=
  default newSocket (sockets w !! sid).

Definition modifySocket (sid : string) (f : Socket → Socket) : M unit :=
  modify (λ w, set_sockets (<[sid := f (getSocket sid w)]> (sockets w)) w).

(** [setTimeout(() => io.to(room).emit(e, p), ms)] *)
Definition setTimeout (ms : nat) (room : string) (e : string) (p : Payload) : M unit :=
  modify (λ w, set_timers
    (timers w ++ [(ms, {| target := To room; event := e; payload := p |})]) w).

(** ** Code of the repository that lives in other modules *)

(** The handlers call into the game modules ([games/fps-games],
    [games/splatoon]) and the input validation module; these take the
    store (and the socket server) and are parameters here. *)
Record Externals := {
  (** [sanitizeInput] of utils/input-validation *)
  sanitizeInput : string → string;
  (** [String.prototype.toUpperCase] *)
  toUpperCase : string → string;
  (** [FPSGames.mapRulesLists] *)
  fps_mapRulesLists : GameType → list Rule;
  (** [FPSGames.startGame(lobbyId, lobbies)] *)
  fps_startGame : string → M unit;
  (** [Splatoon.startGame(lobbyId, lobbies)] *)
  splatoon_startGame : string → M unit;
  (** [Splatoon.startMapSelectionPhase(lobbyId, lobbies, getGameCategory)] *)
  splatoon_startMapSelectionPhase : string → M unit;
  (** [Splatoon.mapRulesLists[gameType].first[modesSize]] *)
  splatoon_mapRulesFirst : GameType → option Z → list Rule;
  (** [Splatoon.modesRulesLists[gameType].first[modesSize]] *)
  splatoon_modesRulesFirst : GameType → option Z → list Rule;
  (** [Splatoon.gameModes] *)
  splatoon_gameModes : list string;
  (** [Splatoon.modeTranslations] *)
  splatoon_modeTranslations : string → option string
}.

(** ** Helpers shared by the handlers *)

Inductive GameCategory := fps | splatoon.

#[global] Instance GameCategory_eq_dec : EqDecision GameCategory.
Proof. solve_decision. Defined.

Definition getGameCategory (gameName : string) : GameCategory :=
  if decide (gameName = "splatoon") then splatoon else fps.

(** [arr[i]] for a JS number [i]: [undefined] outside the array. *)
Definition jsIndex {A} (arr : list A) (i : Z) : option A :=
  if i <? 0 then None else arr !! Z.to_nat i.

(** A template literal prints an [undefined] value as the word. *)
Definition showOpt (o : option string) : string := default "undefined" o.

(** The recurring loop
    [for (const [id, name] of lobby.teamNames.entries())
       if (name !== teamName) { ...; break; }]:
    the first entry bound to another name. *)
Definition findOther (teamName : option string) (entries : list (string * string))
  : option (string * string) :=
  List.find (λ e, bool_decide (Some e.2 ≠ teamName)) entries.

(** The same loop with [===]: the first entry bound to that name. *)
Definition findTeam (teamName : option string) (entries : list (string * string))
  : option (string * string) :=
  List.find (λ e, bool_decide (Some e.2 = teamName)) entries.

Definition entryId (e : option (string * string)) : string := from_option fst "" e.
Definition entryName (e : option (string * string)) : string := from_option snd "" e.

(** [bannedMaps.filter(ban => ban.roundNumber === rules.roundNumber)
              .filter(ban => ban.teamName === team).length] *)
Definition roundBans (l : Lobby) (team : option string) : nat :=
  length (filter (λ b, Some (banned_teamName b) = team)
            (filter (λ b, banned_roundNumber b = Some (roundNumber (rules l)))
               (bannedMaps l))).

(** The text chosen for a side in a state message. *)
Definition sideText (upper : string → string) (side : string) : string :=
  if decide (side = "t") then "атакующих"
  else if decide (side = "ct") then "обороняющих"
  else upper side.

(** [arr.indexOf(x)] then [arr.splice(i, 1)] when found. *)
Fixpoint removeFirst (x : string) (arr : list string) : list string :=
  match arr with
  | [] => []
  | y :: arr' => if decide (y = x) then arr' else y :: removeFirst x arr'
  end.

(** The decider search
    [let notPickedMap = ""; for (const mapName of mapNames)
       if (!pickedAndBannedMaps.includes(mapName)) notPickedMap = mapName;] *)
Definition notPickedMap (mapNames used : list string) : string :=
  fold_left (λ acc mapName, if decide (mapName ∈ used) then acc else mapName)
    mapNames "".

Definition pickedAndBannedMaps (l : Lobby) : list string :=
  (picked_map <$> pickedMaps l) ++ (banned_map <$> bannedMaps l).

(** ** Payloads of the handlers *)

Record CreateFPSLobbyData := {
  cf_lobbyId : string;
  cf_gameName : string;
  cf_gameType : GameType;
  cf_knifeDecider : bool;
  cf_mapPoolSize : Z;
  cf_customMapPool : option (gmap string (list string));
  cf_coinFlip : option bool;
  cf_admin : option bool
}.

Record CreateSplatoonLobbyData := {
  cs_lobbyId : string;
  cs_gameType : GameType;
  cs_modesSize : option Z;
  cs_coinFlip : option bool;
  cs_admin : option bool
}.

Record TeamNameData := { tn_lobbyId : string; tn_teamName : string }.

Record StartPickData := {
  sp_lobbyId : string; sp_teamName : string; sp_selectedMapIndex : Z
}.

Record PickData := {
  pk_lobbyId : string; pk_map : string; pk_teamName : string;
  pk_side : option string                      (* defaults to the empty string *)
}.

Record BanData := { bn_lobbyId : string; bn_map : string; bn_teamName : string }.

Record ModeData := { md_lobbyId : string; md_mode : string; md_teamName : string }.

Record DeciderData := { dc_lobbyId : string; dc_map : string }.

(** ** The handlers *)

Section Handlers.
Context (ext : Externals).

(** [io.on("connection")]: [socket.data.lobbies = new Set()]. *)
Definition connection (sid : string) : M unit :=
  modify (λ w, set_sockets (<[sid := newSocket]> (sockets w)) w).

(** The lobby object behind a local [lobby] variable after a call into
    another module, which may have mutated it. *)
Definition reread (id : string) (l : Lobby) : M Lobby :=
  gets (λ w, default l (lobbies w !! id)).

Definition startGame (id : string) : M unit :=
  lobby ← getLobby id;
  match lobby with
  | None => mret tt
  | Some lobby =>
      if decide (getGameCategory (gameName (rules lobby)) = splatoon) then
        _ ← splatoon_startGame ext id;
        lobby ← reread id lobby;
        let teamEntries := teamNames lobby in
        let firstSocketId := from_option fst "" (head teamEntries) in
        _ ← when (negb (coinFlip (rules lobby)))
              (emit (To id) "startWithoutCoin" PNone);
        _ ← emitB id "canWorkUpdated" false;
        _ ← emitB id "canModeBan" false;
        _ ← emitB id "canModePick" false;
        _ ← emitB id "canBan" false;
        _ ← emitB id "canPick" false;
        _ ← when (negb (coinFlip (rules lobby))
                   && negb (bool_decide (firstSocketId = "")))
              (_ ← emitB firstSocketId "canWorkUpdated" true;
               setTimeout 100 firstSocketId "canModeBan" (PBool true));
        emit (To id) "modesUpdated"
          (PModes (bannedModes lobby) (activeModes (rules lobby))
             (modesSize (rules lobby)))
      else fps_startGame ext id
  end.

Definition joinLobby (sid : string) (id : string) (role : option Roles) : M unit :=
  let role := default member role in
  _ ← modifySocket sid (λ s,
        {| rooms := {[id]} ∪ rooms s; data_lobbies := data_lobbies s;
           data_pickedMap := data_pickedMap s |});
  lobby ← getLobby id;
  if decide (role = test) then
    emit (To sid)
      (match lobby with Some _ => "lobbyExists" | None => "lobbyUndefined" end)
      (PStr id)
  else
    match lobby with
    | None => emit (To sid) "lobbyUndefined" (PStr id)
    | Some lobby =>
        _ ← when (bool_decide (gameName (rules lobby) = "splatoon"))
              (emit (To sid) "modesSizeUpdated" (PNum (modesSize (rules lobby))));
        _ ← when (bool_decide (getGameCategory (gameName (rules lobby)) = fps))
              (emit (To sid) "fpsLobbySettings"
                 (PSettings (gameType (rules lobby)) (mapPoolSize (rules lobby))
                    (knifeDecider (rules lobby))));
        _ ← emit (To id) "mapNames" (PMapNames (mapNames (rules lobby)));
        _ ← emit (To id) "gameName" (PStr (gameName (rules lobby)));
        lobby ← match role with
                | observer => mutate id (set_observers (JsSet.add sid (observers lobby)) lobby)
                | member => mutate id (set_members (JsSet.add sid (members lobby)) lobby)
                | test => mret lobby
                end;
        _ ← modifySocket sid (λ s,
              {| rooms := rooms s; data_lobbies := JsSet.add id (data_lobbies s);
                 data_pickedMap := data_pickedMap s |});
        _ ← when (bool_decide (role = member))
              (emit (To sid) "teamNamesUpdated" (PEntries (teamNames lobby)));
        _ ← when (bool_decide (0 < length (pickedMaps lobby))%nat)
              (emit (To sid) "pickedUpdated" (PPicked (pickedMaps lobby)));
        when (bool_decide (0 < length (bannedMaps lobby))%nat)
          (emit (To sid) "bannedUpdated" (PBanned (bannedMaps lobby)))
    end.

Definition createFPSLobby (sid : string) (data : CreateFPSLobbyData) : M unit :=
  let id := cf_lobbyId data in
  let gameName := cf_gameName data in
  let gameType := cf_gameType data in
  let mapPoolSize := cf_mapPoolSize data in
  if bool_decide (gameType = bo3 ∨ gameType = bo5) && negb (mapPoolSize =? 7) then
    emit (To sid) "lobbyCreationError"
      (PStr "Для BO3/BO5 размер маппула должен быть 7")
  else
    lobby ← getLobby id;
    match lobby with
    | Some _ => mret tt
    | None =>
        pool ← gets mapPool_fps;
        global ← gets globalCoinFlip;
        let sourceMapPool :=
          match cf_customMapPool data with
          | Some custom => custom !! gameName
          | None => pool !! gameName
          end in
        selectedMapPool ←
          (if mapPoolSize =? 4 then
             match sourceMapPool with
             | Some maps => mret (Some (take 4 maps))
             | None => throw "TypeError: sourceMapPool is undefined"
             end
           else mret sourceMapPool);
        let lobby :=
          {| lobbyId := id; members := []; teamNames := []; observers := [];
             pickedMaps := []; bannedMaps := [];
             rules :=
               {| gameName := gameName; gameType := gameType;
                  mapNames := selectedMapPool;
                  mapRulesList := fps_mapRulesLists ext gameType;
                  coinFlip := default global (cf_coinFlip data);
                  admin := default false (cf_admin data);
                  knifeDecider := cf_knifeDecider data;
                  mapPoolSize := mapPoolSize;
                  modesRulesList := []; activeModes := []; roundNumber := 0;
                  modesSize := 0; lastWinner := None |};
             gameStep := 7 - mapPoolSize;
             deciderMap := None; bannedModes := []; pickedMode := None;
             priorityTeam := None |} in
        _ ← mutate id lobby;
        _ ← emit (To sid) "lobbyCreated" (PStr id);
        emit Everyone "lobbiesUpdated" PNone
    end.

Definition createSplatoonLobby (sid : string) (data : CreateSplatoonLobbyData) : M unit :=
  let id := cs_lobbyId data in
  let gameType := cs_gameType data in
  let modesSize := cs_modesSize data in
  lobby ← getLobby id;
  match lobby with
  | Some _ => mret tt
  | None =>
      global ← gets globalCoinFlip;
      let lobby :=
        {| lobbyId := id; members := []; teamNames := []; observers := [];
           pickedMaps := []; bannedMaps := [];
           rules :=
             {| gameName := "splatoon"; gameType := gameType;
                mapNames := Some [];
                mapRulesList := splatoon_mapRulesFirst ext gameType modesSize;
                coinFlip := default global (cs_coinFlip data);
                admin := default false (cs_admin data);
                knifeDecider := false;
                mapPoolSize := 32;
                modesRulesList := splatoon_modesRulesFirst ext gameType modesSize;
                activeModes :=
                  if bool_decide (modesSize = Some 2) then ["tower"; "zones"]
                  else splatoon_gameModes ext;
                roundNumber := 1;
                modesSize := default 4 modesSize;
                lastWinner := None |};
           gameStep := 0;
           deciderMap := None; bannedModes := []; pickedMode := None;
           priorityTeam := None |} in
      _ ← mutate id lobby;
      _ ← emit (To sid) "lobbyCreated" (PStr id);
      emit Everyone "lobbiesUpdated" PNone
  end.

Definition lobby_teamName (sid : string) (data : TeamNameData) : M unit :=
  let id := tn_lobbyId data in
  let teamName := sanitizeInput ext (tn_teamName data) in
  lobby ← getLobby id;
  match lobby with
  | None => mret tt
  | Some lobby =>
      lobby ← mutate id (set_teamNames (JsMap.set sid teamName (teamNames lobby)) lobby);
      _ ← emit (To id) "teamNamesUpdated" (PEntries (teamNames lobby));
      when (negb (admin (rules lobby)) && (JsMap.size (teamNames lobby) =? 2))
        (startGame id)
  end.

Definition lobby_startPick (sid : string) (data : StartPickData) : M unit :=
  let id := sp_lobbyId data in
  let teamName := sp_teamName data in
  lobby ← getLobby id;
  match lobby with
  | None => mret tt
  | Some lobby =>
      let otherSocketId := entryId (findOther (Some teamName) (teamNames lobby)) in
      mapName ← match mapNames (rules lobby) with
                 | Some maps => mret (jsIndex maps (sp_selectedMapIndex data))
                 | None => throw "TypeError: mapNames is undefined"
                 end;
      _ ← modifySocket sid (λ s,
            {| rooms := rooms s; data_lobbies := data_lobbies s;
               data_pickedMap := Some (mapName, teamName) |});
      let isBo1 := bool_decide (gameType (rules lobby) = bo1) in
      let targetSocket := if isBo1 then sid else otherSocketId in
      let otherSocket := if isBo1 then otherSocketId else sid in
      _ ← emit (To targetSocket) "backend.startPick" (PNum (sp_selectedMapIndex data));
      _ ← emitB otherSocket "canWorkUpdated" false;
      emitB otherSocket "canPick" false
  end.

(** The knife-decider block, written out twice in the source (in the
    pick and in the ban handler) with the same text. *)
Definition knifeDeciderStep (id otherSocketId : string) (lobby : Lobby) : M Lobby :=
  _ ← emitB otherSocketId "canWorkUpdated" false;
  _ ← emitB id "canWorkUpdated" false;
  maps ← match mapNames (rules lobby) with
         | Some maps => mret maps
         | None => throw "TypeError: mapNames is not iterable"
         end;
  let notPicked := notPickedMap maps (pickedAndBannedMaps lobby) in
  lobby ← mutate id (set_pickedMaps
                        (pickedMaps lobby ++ [FpsPicked notPicked "" "DECIDER" ""]) lobby);
  lobby ← mutate id (set_gameStep (gameStep lobby + 1) lobby);
  _ ← emit (To id) "pickedUpdated" (PPicked (pickedMaps lobby));
  _ ← emit (To id) "gameStateUpdated" (PStr ("Десайдер - " ++ notPicked));
  mret lobby.

Definition lobby_pick (sid : string) (data : PickData) : M unit :=
  let id := pk_lobbyId data in
  let map := pk_map data in
  let teamName := pk_teamName data in
  let side := default "" (pk_side data) in
  lobby ← getLobby id;
  match lobby with
  | None => mret tt
  | Some lobby =>
      let sideTeamName := teamName in
      let isFps := bool_decide (getGameCategory (gameName (rules lobby)) = fps) in
      lobby ←
        (if isFps then
           mapTeamName ←
             (if bool_decide (gameType (rules lobby) ≠ bo1) then
                _ ← emit (To id) "gameStateUpdated"
                      (PStr (teamName ++ " выбрали " ++ sideText (toUpperCase ext) side
                               ++ " на карте " ++ map));
                mret (from_option snd teamName
                        (findOther (Some teamName) (teamNames lobby)))
              else mret teamName);
           mutate id (set_pickedMaps
                        (pickedMaps lobby ++ [FpsPicked map mapTeamName side sideTeamName])
                        lobby)
         else
           lobby ← mutate id (set_pickedMaps
                                 (pickedMaps lobby
                                    ++ [SplatoonPicked map teamName
                                          (roundNumber (rules lobby))])
                                 lobby);
           _ ← emitB id "canWorkUpdated" false;
           _ ← emitB id "canBan" false;
           _ ← emitB id "canPick" false;
           _ ← emitB id "canModeBan" false;
           _ ← emitB id "canModePick" false;
           _ ← emitB id "canReportWinner" true;
           mret lobby);
      lobby ← mutate id (set_gameStep (gameStep lobby + 1) lobby);
      s ← gets (getSocket sid);
      _ ← when (bool_decide (is_Some (data_pickedMap s)))
            (modifySocket sid (λ s,
               {| rooms := rooms s; data_lobbies := data_lobbies s;
                  data_pickedMap := None |}));
      let otherSocketId := entryId (findOther (Some teamName) (teamNames lobby)) in
      _ ← emit (To otherSocketId) "endPick" PNone;
      lobby ←
        (if (gameStep lobby <? 7) && isFps then
           _ ← emitB sid "canWorkUpdated" true;
           match jsIndex (mapRulesList (rules lobby)) (gameStep lobby) with
           | Some Pick =>
               _ ← emitB sid "canPick" true;
               _ ← emit (To id) "gameStateUpdated"
                     (PStr (teamName ++ " выбирают карту для пика"));
               mret lobby
           | Some Decider =>
               if knifeDecider (rules lobby) then
                 knifeDeciderStep id otherSocketId lobby
               else
                 _ ← emitB sid "canWorkUpdated" false;
                 _ ← emitB otherSocketId "canWorkUpdated" true;
                 _ ← emitB otherSocketId "canPick" true;
                 _ ← emit (To id) "gameStateUpdated"
                       (PStr (teamName ++ " выбирают карту для пика"));
                 mret lobby
           | Some Ban =>
               _ ← emitB sid "canBan" true;
               _ ← emit (To id) "gameStateUpdated"
                     (PStr (teamName ++ " выбирают карту для бана"));
               mret lobby
           | None => mret lobby
           end
         else
           _ ← emitB id "canWorkUpdated" false;
           mret lobby);
      emit (To id) "pickedUpdated" (PPicked (pickedMaps lobby))
  end.

Definition lobby_decider (sid : string) (data : DeciderData) : M unit :=
  let id := dc_lobbyId data in
  let map := dc_map data in
  lobby ← getLobby id;
  match lobby with
  | None => mret tt
  | Some lobby =>
      lobby ← mutate id (set_deciderMap (Some map) lobby);
      _ ← emit (To id) "gameStateUpdated" (PStr ("Десайдер - " ++ map));
      _ ← emit (To id) "deciderUpdated" (PStr map);
      _ ← mutate id (set_gameStep (gameStep lobby + 1) lobby);
      mret tt
  end.

(** *** The Splatoon part of the ban handler *)

Definition banCount (n : nat) (total : string) : string :=
  " выбирают карту для бана (" ++ pretty (n + 1)%nat ++ "/" ++ total ++ ")".

(** Round 1.  The source has this block twice, once under
    [modesSize === 2] and once in its [else]; the two differ in the
    names of their local variables only. *)
Definition banFirstRound (sid id teamName : string) (lobby : Lobby) : M unit :=
  let isPriorityTeam := bool_decide (Some teamName = priorityTeam lobby) in
  let priorityTeamBans := roundBans lobby (priorityTeam lobby) in
  if isPriorityTeam && bool_decide (priorityTeamBans < 2)%nat then
    _ ← emitB sid "canWorkUpdated" true;
    _ ← emitB sid "canBan" true;
    emit (To id) "gameStateUpdated" (PStr (teamName ++ banCount priorityTeamBans "2"))
  else if negb isPriorityTeam && bool_decide (2 ≤ priorityTeamBans)%nat then
    let otherTeamBans := roundBans lobby (Some teamName) in
    if bool_decide (otherTeamBans < 3)%nat then
      _ ← emitB sid "canWorkUpdated" true;
      _ ← emitB sid "canBan" true;
      emit (To id) "gameStateUpdated" (PStr (teamName ++ banCount otherTeamBans "3"))
    else
      let priorityTeamSocketId :=
        entryId (findTeam (priorityTeam lobby) (teamNames lobby)) in
      _ ← emitB sid "canWorkUpdated" false;
      _ ← emitB sid "canBan" false;
      _ ← emitB priorityTeamSocketId "canWorkUpdated" true;
      _ ← emitB priorityTeamSocketId "canPick" true;
      emit (To id) "gameStateUpdated"
        (PStr (showOpt (priorityTeam lobby) ++ " выбирают карту для игры"))
  else if negb isPriorityTeam && bool_decide (priorityTeamBans < 2)%nat then
    _ ← emitB sid "canWorkUpdated" false;
    _ ← emitB sid "canBan" false;
    emit (To id) "gameStateUpdated"
      (PStr ("Ожидание, пока " ++ showOpt (priorityTeam lobby)
               ++ " завершат свои баны"))
  else if isPriorityTeam && bool_decide (2 ≤ priorityTeamBans)%nat then
    let other := findOther (priorityTeam lobby) (teamNames lobby) in
    _ ← emitB sid "canWorkUpdated" false;
    _ ← emitB sid "canBan" false;
    _ ← emitB (entryId other) "canWorkUpdated" true;
    _ ← emitB (entryId other) "canBan" true;
    emit (To id) "gameStateUpdated"
      (PStr (entryName other ++ " выбирают карту для бана (1/3)"))
  else mret tt.

(** Later rounds, two modes: the winner bans 2, the loser bans 3. *)
Definition banNextRoundTwoModes (sid id teamName : string) (lobby : Lobby) : M unit :=
  let isWinningTeam := bool_decide (Some teamName = lastWinner (rules lobby)) in
  let ownBans := roundBans lobby (Some teamName) in
  if isWinningTeam then
    if bool_decide (ownBans < 2)%nat then
      _ ← emitB sid "canWorkUpdated" true;
      _ ← emitB sid "canBan" true;
      emit (To id) "gameStateUpdated" (PStr (teamName ++ banCount ownBans "2"))
    else
      let losing := findOther (Some teamName) (teamNames lobby) in
      _ ← emitB sid "canWorkUpdated" false;
      _ ← emitB sid "canBan" false;
      _ ← emitB (entryId losing) "canWorkUpdated" true;
      _ ← emitB (entryId losing) "canBan" true;
      emit (To id) "gameStateUpdated"
        (PStr (entryName losing ++ " выбирают карту для бана (1/3)"))
  else
    if bool_decide (ownBans < 3)%nat then
      _ ← emitB sid "canWorkUpdated" true;
      _ ← emitB sid "canBan" true;
      emit (To id) "gameStateUpdated" (PStr (teamName ++ banCount ownBans "3"))
    else
      let winning := findTeam (lastWinner (rules lobby)) (teamNames lobby) in
      _ ← emitB sid "canWorkUpdated" false;
      _ ← emitB sid "canBan" false;
      _ ← emitB (entryId winning) "canWorkUpdated" true;
      _ ← emitB (entryId winning) "canPick" true;
      emit (To id) "gameStateUpdated"
        (PStr (entryName winning ++ " выбирают карту для игры")).

(** Later rounds, four modes: the winner bans 3, the loser picks. *)
Definition banNextRoundFourModes (sid id teamName : string) (lobby : Lobby) : M unit :=
  let isWinningTeam := bool_decide (Some teamName = lastWinner (rules lobby)) in
  let winningTeamBans := roundBans lobby (Some teamName) in
  if isWinningTeam then
    if bool_decide (winningTeamBans < 3)%nat then
      _ ← emitB sid "canWorkUpdated" true;
      _ ← emitB sid "canBan" true;
      emit (To id) "gameStateUpdated" (PStr (teamName ++ banCount winningTeamBans "3"))
    else
      let losing := findOther (Some teamName) (teamNames lobby) in
      _ ← emitB sid "canWorkUpdated" false;
      _ ← emitB sid "canBan" false;
      _ ← emitB (entryId losing) "canWorkUpdated" true;
      _ ← emitB (entryId losing) "canPick" true;
      emit (To id) "gameStateUpdated"
        (PStr (entryName losing ++ " выбирают карту для игры"))
  else mret tt.

Definition banSplatoon (sid id teamName : string) (lobby : Lobby) : M unit :=
  if roundNumber (rules lobby) =? 1 then
    if modesSize (rules lobby) =? 2 then banFirstRound sid id teamName lobby
    else banFirstRound sid id teamName lobby
  else
    if modesSize (rules lobby) =? 2 then banNextRoundTwoModes sid id teamName lobby
    else banNextRoundFourModes sid id teamName lobby.

Definition lobby_ban (sid : string) (data : BanData) : M unit :=
  let id := bn_lobbyId data in
  let map := bn_map data in
  let teamName := bn_teamName data in
  lobby ← getLobby id;
  match lobby with
  | None => mret tt
  | Some lobby =>
      let isSplatoon :=
        bool_decide (getGameCategory (gameName (rules lobby)) = splatoon) in
      lobby ←
        (if isSplatoon then
           lobby ← mutate id (set_bannedMaps
                                 (bannedMaps lobby
                                    ++ [SplatoonBanned map teamName
                                          (roundNumber (rules lobby))])
                                 lobby);
           _ ← emit (To id) "gameStateUpdated"
                 (PStr (teamName ++ " забанили карту " ++ map));
           mret lobby
         else
           mutate id (set_bannedMaps (bannedMaps lobby ++ [FpsBanned map teamName]) lobby));
      lobby ← mutate id (set_gameStep (gameStep lobby + 1) lobby);
      _ ← emit (To id) "bannedUpdated" (PBanned (bannedMaps lobby));
      _ ← emitB sid "canWorkUpdated" false;
      _ ← emitB sid "canBan" false;
      let other := findOther (Some teamName) (teamNames lobby) in
      let otherSocketId := entryId other in
      let otherName := entryName other in
      if isSplatoon then banSplatoon sid id teamName lobby
      else if gameStep lobby <? 7 then
        _ ← emitB otherSocketId "canWorkUpdated" true;
        match jsIndex (mapRulesList (rules lobby)) (gameStep lobby) with
        | Some Pick =>
            _ ← emitB otherSocketId "canPick" true;
            emit (To id) "gameStateUpdated"
              (PStr (otherName ++ " выбирают карту для пика"))
        | Some Decider =>
            if knifeDecider (rules lobby) then
              _ ← knifeDeciderStep id otherSocketId lobby; mret tt
            else
              _ ← emitB sid "canWorkUpdated" false;
              _ ← emitB otherSocketId "canWorkUpdated" true;
              _ ← emitB otherSocketId "canPick" true;
              emit (To id) "gameStateUpdated"
                (PStr (teamName ++ " выбирают карту для пика"))
        | Some Ban =>
            _ ← emitB otherSocketId "canBan" true;
            emit (To id) "gameStateUpdated"
              (PStr (otherName ++ " выбирают карту для бана"))
        | None => mret tt
        end
      else emitB id "canWorkUpdated" false
  end.

(** [Splatoon.modeTranslations[mode] || mode] *)
Definition translatedOr (mode : string) : string :=
  match splatoon_modeTranslations ext mode with
  | Some t => if decide (t = "") then mode else t
  | None => mode
  end.

Definition lobby_modeBan (sid : string) (data : ModeData) : M unit :=
  let id := md_lobbyId data in
  let mode := md_mode data in
  let teamName := md_teamName data in
  lobby ← getLobby id;
  match lobby with
  | None => mret tt
  | Some lobby =>
      if negb (bool_decide (getGameCategory (gameName (rules lobby)) = splatoon))
      then mret tt
      else if modesSize (rules lobby) =? 2 then mret tt
      else
        lobby ← mutate id (set_bannedModes
                              (bannedModes lobby
                                 ++ [{| me_mode := mode; me_teamName := teamName;
                                        me_translatedMode := Some (translatedOr mode) |}])
                              lobby);
        lobby ← mutate id (set_rules
                              (set_activeModes
                                 (removeFirst mode (activeModes (rules lobby)))
                                 (rules lobby))
                              lobby);
        lobby ← mutate id (set_gameStep (gameStep lobby + 1) lobby);
        _ ← emit (To id) "gameStateUpdated"
              (PStr (teamName ++ " забанили режим " ++ translatedOr mode));
        let other := findOther (Some teamName) (teamNames lobby) in
        let otherSocketId := entryId other in
        let otherName := entryName other in
        _ ← emitB sid "canWorkUpdated" false;
        _ ← emitB sid "canModeBan" false;
        _ ← emitB sid "canModePick" false;
        _ ← (if 1 <? roundNumber (rules lobby) then
               when (bool_decide (Some teamName = lastWinner (rules lobby)))
                 (_ ← emitB otherSocketId "canWorkUpdated" true;
                  _ ← emitB otherSocketId "canModePick" true;
                  _ ← emitB otherSocketId "canModeBan" false;
                  emit (To id) "gameStateUpdated"
                    (PStr (otherName ++ " выбирают режим для игры")))
             else if bool_decide (length (bannedModes lobby) = 2%nat) then
               let firstBanTeam := me_teamName <$> head (bannedModes lobby) in
               if bool_decide (firstBanTeam = Some teamName) then
                 _ ← emitB sid "canWorkUpdated" true;
                 _ ← emitB sid "canModePick" true;
                 _ ← emitB sid "canModeBan" false;
                 emit (To id) "gameStateUpdated"
                   (PStr (teamName ++ " выбирают режим для игры"))
               else
                 _ ← emitB sid "canWorkUpdated" false;
                 _ ← emitB sid "canModeBan" false;
                 _ ← emitB otherSocketId "canWorkUpdated" true;
                 _ ← emitB otherSocketId "canModePick" true;
                 _ ← emitB otherSocketId "canModeBan" false;
                 emit (To id) "gameStateUpdated"
                   (PStr (otherName ++ " выбирают режим для игры"))
             else
               _ ← emitB otherSocketId "canWorkUpdated" true;
               _ ← emitB otherSocketId "canModeBan" true;
               _ ← emitB otherSocketId "canModePick" false;
               _ ← emitB sid "canWorkUpdated" false;
               _ ← emitB sid "canModeBan" false;
               emit (To id) "gameStateUpdated"
                 (PStr (otherName ++ " выбирают режим для бана")));
        emit (To id) "modesUpdated"
          (PModes (bannedModes lobby) (activeModes (rules lobby))
             (modesSize (rules lobby)))
  end.

Definition lobby_modePick (sid : string) (data : ModeData) : M unit :=
  let id := md_lobbyId data in
  let mode := md_mode data in
  let teamName := md_teamName data in
  lobby ← getLobby id;
  match lobby with
  | None => mret tt
  | Some lobby =>
      if negb (bool_decide (getGameCategory (gameName (rules lobby)) = splatoon))
      then mret tt
      else
        let picked := {| me_mode := mode; me_teamName := teamName;
                         me_translatedMode := splatoon_modeTranslations ext mode |} in
        lobby ← mutate id (set_pickedMode (Some picked) lobby);
        lobby ← mutate id (set_gameStep (gameStep lobby + 1) lobby);
        pool ← gets mapPool_splatoon;
        lobby ← mutate id (set_rules (set_mapNames (pool !! mode) (rules lobby)) lobby);
        _ ← emit (To id) "gameStateUpdated"
              (PStr (teamName ++ " выбрали режим " ++ translatedOr mode));
        _ ← emit (To id) "availableMaps" (PMapNames (mapNames (rules lobby)));
        _ ← emitB id "canWorkUpdated" false;
        _ ← emitB id "canModeBan" false;
        _ ← emitB id "canModePick" false;
        _ ← emitB id "canBan" false;
        _ ← emitB id "canPick" false;
        _ ← splatoon_startMapSelectionPhase ext id;
        emit (To id) "modePicked" (PMode picked)
  end.

(** One turn of the loop of the disconnect handler. *)
Definition leaveLobby (sid : string) (id : string) : M unit :=
  lobby ← getLobby id;
  match lobby with
  | None => mret tt
  | Some lobby =>
      lobby ← mutate id (set_members (JsSet.delete sid (members lobby)) lobby);
      lobby ← mutate id (set_teamNames (JsMap.delete sid (teamNames lobby)) lobby);
      _ ← emit (To id) "teamNamesUpdated" (PEntries (teamNames lobby));
      if (JsSet.size (members lobby) =? 0) && negb (admin (rules lobby)) then
        _ ← modify (λ w, set_lobbies (delete id (lobbies w)) w);
        emit Everyone "lobbiesUpdated" PNone
      else
        emit (To id) "teamNamesUpdated" (PEntries (teamNames lobby))
  end.

(** [for (const lobbyId of socket.data.lobbies) ...] *)
Fixpoint forEach {A} (f : A → M unit) (xs : list A) : M unit :=
  match xs with
  | [] => mret tt
  | x :: xs' => _ ← f x; forEach f xs'
  end.

(** The disconnect handler; the transport then forgets the socket. *)
Definition disconnect (sid : string) : M unit :=
  s ← gets (getSocket sid);
  _ ← forEach (leaveLobby sid) (data_lobbies s);
  modify (λ w, set_sockets (delete sid (sockets w)) w).

End Handlers.

(** ** What a connection receives *)

(** An emission reaches connection [c] when it is addressed to everyone,
    to the room named by [c]'s id, or to a room [c] has joined. *)
Definition receives (w : World) (c : string) (t : Target) : bool :=
  match t with
  | Everyone => true
  | To room => bool_decide (room = c ∨ room ∈ rooms (getSocket c w))
  end.

Arguments receives : simpl never.

(** The capability events. *)
Definition capabilities : list string :=
  ["canWorkUpdated"; "canBan"; "canPick"; "canModeBan"; "canModePick";
   "canReportWinner"].

(** The value of capability [cap] that an emission carries to [c]. *)
Definition capValue (w : World) (c cap : string) (e : Emit) : option bool :=
  match payload e with
  | PBool b =>
      if receives w c (target e) && bool_decide (event e = cap) then Some b else None
  | _ => None
  end.

(** What a run of events leaves connection [c] with for capability
    [cap]: the last value delivered, [None] when the run carries none. *)
Definition capAfter (w : World) (c cap : string) (evs : list Emit) : option bool :=
  last (omap (capValue w c cap) evs).

(** ** A sample instance of the other modules *)

Definition upperAscii (a : Ascii.ascii) : Ascii.ascii :=
  let n := Ascii.nat_of_ascii a in
  if bool_decide (97 ≤ n ≤ 122)%nat then Ascii.ascii_of_nat (n - 32) else a.

Fixpoint upperString (s : string) : string :=
  match s with
  | EmptyString => EmptyString
  | String a s' => String (upperAscii a) (upperString s')
  end.

(** Modelled from the spec: [fpsPattern], missing from the sources at
    hand.  Scenario 1 gives the BO1 pattern (six bans, then a pick) and
    scenario 2 the BO3 pattern; BO5 is given no pattern there and gets the
    customary one of the same length. *)
Definition specPattern (gt : GameType) : list Rule :=
  match gt with
  | bo1 => [Ban; Ban; Ban; Ban; Ban; Ban; Pick]
  | bo3 => [Ban; Ban; Pick; Pick; Ban; Ban; Decider]
  | bo5 => [Ban; Ban; Pick; Pick; Pick; Pick; Decider]
  end.

(** Modelled from the spec: [FPSGames.startGame], missing from the sources
    at hand, with the coin flip left out: the first-inserted team goes
    first and is granted the capability dictated by [pattern[gameStep]]. *)
Definition specFpsStartGame (id : string) : M unit :=
  lobby ← getLobby id;
  match lobby with
  | None => mret tt
  | Some lobby =>
      let first := from_option fst "" (head (teamNames lobby)) in
      _ ← emitB first "canWorkUpdated" true;
      match jsIndex (mapRulesList (rules lobby)) (gameStep lobby) with
      | Some Ban => emitB first "canBan" true
      | Some Pick => emitB first "canPick" true
      | _ => mret tt
      end
  end.

(** Modelled from the spec: [Splatoon.startGame], missing from the sources
    at hand, with the coin flip left out: the first-joined team gets the
    priority. *)
Definition specSplatoonStartGame (id : string) : M unit :=
  lobby ← getLobby id;
  match lobby with
  | None => mret tt
  | Some lobby =>
      _ ← mutate id (set_priorityTeam (snd <$> head (teamNames lobby)) lobby);
      mret tt
  end.

(** Modelled from the spec: [Splatoon.startMapSelectionPhase], missing
    from the sources at hand: the priority team starts the map bans. *)
Definition specStartMapSelectionPhase (id : string) : M unit :=
  lobby ← getLobby id;
  match lobby with
  | None => mret tt
  | Some lobby =>
      let first := entryId (findTeam (priorityTeam lobby) (teamNames lobby)) in
      _ ← emitB first "canWorkUpdated" true;
      emitB first "canBan" true
  end.

(** Modelled from the spec: the remaining tables and [sanitizeInput]
    (of which the length cap of about 32 characters is kept). *)
Definition specExternals : Externals :=
  {| sanitizeInput := λ s, String.substring 0 32 s;
     toUpperCase := upperString;
     fps_mapRulesLists := specPattern;
     fps_startGame := specFpsStartGame;
     splatoon_startGame := specSplatoonStartGame;
     splatoon_startMapSelectionPhase := specStartMapSelectionPhase;
     splatoon_mapRulesFirst := λ _ _, [Ban; Ban; Ban; Ban; Ban; Pick];
     splatoon_modesRulesFirst :=
       λ _ size, if bool_decide (size = Some 2) then [] else [Ban; Ban; Pick];
     splatoon_gameModes := ["tower"; "zones"; "rainmaker"; "clams"];
     splatoon_modeTranslations := λ _, None |}.

(** The state of a process that has just started, with a seven-map pool
    for one FPS game and a six-map pool for the tower mode. *)
Definition startWorld : World :=
  {| lobbies := ∅;
     globalCoinFlip := true;
     mapPool_fps := {[ "cs2" := ["m1"; "m2"; "m3"; "m4"; "m5"; "m6"; "m7"] ]};
     mapPool_splatoon := {[ "tower" := ["s1"; "s2"; "s3"; "s4"; "s5"; "s6"] ]};
     sockets := ∅;
     timers := [] |}.

(** The world after a series of handler runs, each completed. *)
Definition afterAll (steps : list (M unit)) (w : World) : World :=
  final (forEach id steps w).


(** ** The admin surface, the OBS views and the queries *)

Definition set_globalCoinFlip (v : bool) (w : World) : World :=
  {| lobbies := lobbies w; globalCoinFlip := v;
     mapPool_fps := mapPool_fps w; mapPool_splatoon := mapPool_splatoon w;
     sockets := sockets w; timers := timers w |}.

Definition set_mapPool_fps (v : gmap string (list string)) (w : World) : World :=
  {| lobbies := lobbies w; globalCoinFlip := globalCoinFlip w;
     mapPool_fps := v; mapPool_splatoon := mapPool_splatoon w;
     sockets := sockets w; timers := timers w |}.

(** [mapPool.fps = newMapPool || FPSGames.startMapPool]; the start pool is
    a constant of the FPS module and a parameter here. *)
Definition admin_editFPSMapPool (startMapPool : gmap string (list string))
    (newMapPool : option (gmap string (list string))) : M unit :=
  modify (set_mapPool_fps (default startMapPool newMapPool)).

Definition admin_coinFlipUpdate (coinFlip : bool) : M unit :=
  _ ← modify (set_globalCoinFlip coinFlip);
  emit Everyone "coinFlipUpdated" (PBool coinFlip).

Definition admin_start (ext : Externals) (id : string) : M unit :=
  startGame ext id.

(** The string [getGameCategory] returns. *)
Definition categoryName (c : GameCategory) : string :=
  match c with
  | fps => "fps"
  | splatoon => "splatoon"
  end.

Definition getLobbyGameCategory (sid : string) (id : string) : M unit :=
  lobby ← getLobby id;
  match lobby with
  | Some lobby =>
      emit (To sid) "lobbyGameCategory"
        (PStr (categoryName (getGameCategory (gameName (rules lobby)))))
  | None => emit (To sid) "lobbyNotFound" PNone
  end.

(** One turn of [lobby.members.forEach] in [admin.delete]: a member whose
    socket is still connected leaves the room and forgets the lobby. *)
Definition evict (id : string) (memberId : string) : M unit :=
  memberSocket ← gets (λ w, sockets w !! memberId);
  match memberSocket with
  | Some s =>
      modify (λ w, set_sockets
        (<[memberId := {| rooms := rooms s ∖ {[id]};
                          data_lobbies := JsSet.delete id (data_lobbies s);
                          data_pickedMap := data_pickedMap s |}]> (sockets w)) w)
  | None => mret tt
  end.

Definition admin_delete (id : string) : M unit :=
  lobby ← getLobby id;
  match lobby with
  | None => mret tt
  | Some lobby =>
      _ ← emit (To id) "lobbyDeleted" (PStr id);
      _ ← forEach (evict id) (members lobby);
      _ ← modify (λ w, set_lobbies (delete id (lobbies w)) w);
      emit Everyone "lobbiesUpdated" PNone
  end.

Definition admin_clear_obs (id : string) : M unit :=
  lobby ← getLobby id;
  match lobby with
  | None => mret tt
  | Some lobby =>
      forEach (λ obs, emit (To obs) "backend.clear_obs" PNone) (observers lobby)
  end.

(** What [admin.play_obs] sends to one observer and [admin.setObsLobby] to
    the "obs_views" room: the current lists of the lobby. *)
Definition replayState (ext : Externals) (room : string) (lobby : Lobby) : M unit :=
  if bool_decide (getGameCategory (gameName (rules lobby)) = splatoon) then
    _ ← emit (To room) "bannedUpdated" (PBanned (bannedMaps lobby));
    _ ← emit (To room) "pickedUpdated" (PPicked (pickedMaps lobby));
    _ ← emit (To room) "modesUpdated"
          (PModes (bannedModes lobby) (activeModes (rules lobby))
             (modesSize (rules lobby)));
    match pickedMode lobby with
    | Some picked =>
        emit (To room) "modePicked"
          (PMode {| me_mode := me_mode picked; me_teamName := me_teamName picked;
                    me_translatedMode :=
                      splatoon_modeTranslations ext (me_mode picked) |})
    | None => mret tt
    end
  else
    _ ← emit (To room) "bannedUpdated" (PBanned (bannedMaps lobby));
    emit (To room) "pickedUpdated" (PPicked (pickedMaps lobby)).

Definition admin_play_obs (ext : Externals) (id : string) : M unit :=
  lobby ← getLobby id;
  match lobby with
  | None => mret tt
  | Some lobby => forEach (λ obs, replayState ext obs lobby) (observers lobby)
  end.

Definition joinObsView (sid : string) : M unit :=
  modifySocket sid (λ s,
    {| rooms := {["obs_views"]} ∪ rooms s; data_lobbies := data_lobbies s;
       data_pickedMap := data_pickedMap s |}).

Definition admin_setObsLobby (ext : Externals) (id : string) : M unit :=
  lobby ← getLobby id;
  match lobby with
  | None => mret tt
  | Some lobby =>
      _ ← emit (To "obs_views") "admin.setObsLobby" (PStr id);
      replayState ext "obs_views" lobby
  end.

Definition obs_getCurrentPickedMode (sid : string) (id : string) : M unit :=
  lobby ← getLobby id;
  match lobby with
  | Some lobby =>
      if bool_decide (getGameCategory (gameName (rules lobby)) = splatoon) then
        match pickedMode lobby with
        | Some picked => emit (To sid) "currentPickedMode" (PMode picked)
        | None => emit (To sid) "currentPickedMode" PNone
        end
      else emit (To sid) "currentPickedMode" PNone
  | None => emit (To sid) "currentPickedMode" PNone
  end.

(** [lobby.reportWinner]; [startNextRound] of the Splatoon module is a
    parameter. *)
Definition lobby_reportWinner (startNextRound : string → M unit) (id : string) : M unit :=
  lobby ← getLobby id;
  match lobby with
  | None => mret tt
  | Some lobby =>
      if bool_decide (getGameCategory (gameName (rules lobby)) = splatoon) then
        _ ← startNextRound id;
        lobby ← gets (λ w, default lobby (lobbies w !! id));
        emit (To id) "modesUpdated"
          (PModes (bannedModes lobby) (activeModes (rules lobby))
             (modesSize (rules lobby)))
      else mret tt
  end.

(** * Notions used by the properties *)

Local Open Scope list_scope.

(** The outcome of a handler that returns at once. *)
Definition idle (w : World) : Outcome unit :=
  {| completion := Normal tt; final := w; emitted := [] |}.

(** ** Lobby creation *)

Definition poolSizeError : string := "Для BO3/BO5 размер маппула должен быть 7".

(** The rule validation of [createFPSLobby] rejects the request. *)
Definition rejected (data : CreateFPSLobbyData) : Prop :=
  (cf_gameType data = bo3 ∨ cf_gameType data = bo5) ∧ cf_mapPoolSize data ≠ 7.

(** [customMapPool ? customMapPool[gameName] : mapPool["fps"][gameName]] *)
Definition sourceMapPool (w : World) (data : CreateFPSLobbyData) : option (list string) :=
  match cf_customMapPool data with
  | Some custom => custom !! cf_gameName data
  | None => mapPool_fps w !! cf_gameName data
  end.

(** [mapPoolSize === 4 ? sourceMapPool.slice(0, 4) : sourceMapPool];
    the outer [None] stands for the [TypeError] of slicing [undefined]. *)
Definition selectedMapPool (w : World) (data : CreateFPSLobbyData)
  : option (option (list string)) :=
  if cf_mapPoolSize data =? 4 then
    match sourceMapPool w data with
    | Some maps => Some (Some (take 4 maps))
    | None => None
    end
  else Some (sourceMapPool w data).

(** The lobby object built by [createFPSLobby]. *)
Definition freshFPSLobby (ext : Externals) (w : World) (data : CreateFPSLobbyData)
    (maps : option (list string)) : Lobby :=
  {| lobbyId := cf_lobbyId data; members := []; teamNames := []; observers := [];
     pickedMaps := []; bannedMaps := [];
     rules :=
       {| gameName := cf_gameName data; gameType := cf_gameType data;
          mapNames := maps;
          mapRulesList := fps_mapRulesLists ext (cf_gameType data);
          coinFlip := default (globalCoinFlip w) (cf_coinFlip data);
          admin := default false (cf_admin data);
          knifeDecider := cf_knifeDecider data;
          mapPoolSize := cf_mapPoolSize data;
          modesRulesList := []; activeModes := []; roundNumber := 0;
          modesSize := 0; lastWinner := None |};
     gameStep := 7 - cf_mapPoolSize data;
     deciderMap := None; bannedModes := []; pickedMode := None;
     priorityTeam := None |}.

(** ** Sample requests and states *)

Definition fpsRequest (id : string) (gt : GameType) (size : Z) (adm : bool)
  : CreateFPSLobbyData :=
  {| cf_lobbyId := id; cf_gameName := "cs2"; cf_gameType := gt;
     cf_knifeDecider := true; cf_mapPoolSize := size; cf_customMapPool := None;
     cf_coinFlip := Some false; cf_admin := Some adm |}.

(** Two connections, and a BO3 lobby "L" made by the first. *)
Definition lobbyWorld (adm : bool) : World :=
  afterAll [connection "a"; connection "b";
            createFPSLobby specExternals "a" (fpsRequest "L" bo3 7 adm)]
    startWorld.

(** ** Leaving *)

(** The lobby object after the two deletions of the disconnect handler. *)
Definition leftLobby (sid : string) (l : Lobby) : Lobby :=
  set_teamNames (JsMap.delete sid (teamNames l))
    (set_members (JsSet.delete sid (members l)) l).

(** [lobby.members.size === 0 && !lobby.rules.admin] after the deletions. *)
Definition reaped (sid : string) (l : Lobby) : bool :=
  (JsSet.size (members (leftLobby sid l)) =? 0) && negb (admin (rules l)).

Definition teamNamesUpdated (id : string) (l : Lobby) : Emit :=
  {| target := To id; event := "teamNamesUpdated"; payload := PEntries (teamNames l) |}.

Definition lobbiesUpdated : Emit :=
  {| target := Everyone; event := "lobbiesUpdated"; payload := PNone |}.

(** A lobby with a member and an observer: connection "o" has joined the
    BO3 lobby "L" as an observer after "a" joined it as a member. *)
Definition observedWorld : World :=
  afterAll [connection "o"; joinLobby "a" "L" (Some member);
            joinLobby "o" "L" (Some observer)]
    (lobbyWorld false).

(** What the disconnect handler leaves of a lobby the connection had
    joined: nothing when it is reaped. *)
Definition afterLeave (sid : string) (l : Lobby) : option Lobby :=
  if reaped sid l then None else Some (leftLobby sid l).

(** ** Map actions of the FPS ceremony *)

(** The two team actions on maps, with the payloads the clients send. *)
Inductive MapAction :=
| DoBan (data : BanData)
| DoPick (data : PickData).

Definition actionLobbyId (a : MapAction) : string :=
  match a with
  | DoBan data => bn_lobbyId data
  | DoPick data => pk_lobbyId data
  end.

Definition performMap (ext : Externals) (sid : string) (a : MapAction) : M unit :=
  match a with
  | DoBan data => lobby_ban sid data
  | DoPick data => lobby_pick ext sid data
  end.

(** The team recorded as the one that picked the map: in BO1 the acting
    team, otherwise the first team of [teamNames] with another name (the
    acting team when there is none). *)
Definition mapTeamName (l : Lobby) (data : PickData) : string :=
  if bool_decide (gameType (rules l) ≠ bo1)
  then from_option snd (pk_teamName data)
         (findOther (Some (pk_teamName data)) (teamNames l))
  else pk_teamName data.

Definition fpsPickEntry (l : Lobby) (data : PickData) : PickedMap :=
  FpsPicked (pk_map data) (mapTeamName l data) (default "" (pk_side data))
    (pk_teamName data).

(** An FPS lobby right after the action itself: the entry appended and the
    cursor moved by one. *)
Definition applied (a : MapAction) (l : Lobby) : Lobby :=
  match a with
  | DoBan data =>
      set_gameStep (gameStep l + 1)
        (set_bannedMaps (bannedMaps l ++ [FpsBanned (bn_map data) (bn_teamName data)]) l)
  | DoPick data =>
      set_gameStep (gameStep l + 1)
        (set_pickedMaps (pickedMaps l ++ [fpsPickEntry l data]) l)
  end.



(** The knife-decider block is what the handler runs next on lobby [l]:
    the cursor is inside the seven steps, the pattern says "decider"
    there and the lobby plays the decider by knife round. *)
Definition knifeDeciderNext (l : Lobby) : bool :=
  (gameStep l <? 7)
  && bool_decide (jsIndex (mapRulesList (rules l)) (gameStep l) = Some Decider)
  && knifeDecider (rules l).


Definition capEvent (room cap : string) (b : bool) : Emit :=
  {| target := To room; event := cap; payload := PBool b |}.


Definition pickedUpdated (id : string) (l : Lobby) : Emit :=
  {| target := To id; event := "pickedUpdated"; payload := PPicked (pickedMaps l) |}.



(** The connection addressed as "the other team" by an action sent
    under [teamName]. *)
Definition otherSocketId (teamName : string) (l : Lobby) : string :=
  entryId (findOther (Some teamName) (teamNames l)).

(** ** A BO3 ceremony *)

(** Connections "a" and "b" have joined lobby "L" and named their teams
    "A" and "B"; the second name has started the ceremony. *)
Definition bo3Start : World :=
  afterAll [joinLobby "a" "L" None;
            joinLobby "b" "L" (Some member);
            lobby_teamName specExternals "a" {| tn_lobbyId := "L"; tn_teamName := "A" |};
            lobby_teamName specExternals "b" {| tn_lobbyId := "L"; tn_teamName := "B" |}]
    (lobbyWorld false).

Definition banOf (map team : string) : BanData :=
  {| bn_lobbyId := "L"; bn_map := map; bn_teamName := team |}.

Definition pickOf (map team side : string) : PickData :=
  {| pk_lobbyId := "L"; pk_map := map; pk_teamName := team; pk_side := Some side |}.

Definition startPickOf (team : string) (index : Z) : StartPickData :=
  {| sp_lobbyId := "L"; sp_teamName := team; sp_selectedMapIndex := index |}.

(** Two bans, and "A" has chosen m3: "B" is to pick its side. *)
Definition bo3BeforePick : World :=
  afterAll [lobby_ban "a" (banOf "m1" "A");
            lobby_ban "b" (banOf "m2" "B");
            lobby_startPick "a" (startPickOf "A" 2)]
    bo3Start.

Definition bo3FirstPick : World :=
  afterAll [lobby_pick specExternals "b" (pickOf "m3" "B" "ct")] bo3BeforePick.


(** ** A Splatoon round *)

Definition splatoonPickEntry (l : Lobby) (data : PickData) : PickedMap :=
  SplatoonPicked (pk_map data) (pk_teamName data) (roundNumber (rules l)).

(** The five controls that a Splatoon pick switches off. *)
Definition controls : list string :=
  ["canWorkUpdated"; "canBan"; "canPick"; "canModeBan"; "canModePick"].

Definition modeOf (lobby mode team : string) : ModeData :=
  {| md_lobbyId := lobby; md_mode := mode; md_teamName := team |}.

(** A four-mode Splatoon lobby "S" with members "a" (team "A") and "b"
    (team "B") and an observer "o"; the first round has been played up to
    the last map ban: "A" banned rainmaker, "B" banned clams, "A" picked
    tower, "A" banned two maps and "B" three. *)
Definition splatoonBeforePick : World :=
  afterAll [connection "a"; connection "b"; connection "o";
            createSplatoonLobby specExternals "a"
              {| cs_lobbyId := "S"; cs_gameType := bo3; cs_modesSize := Some 4;
                 cs_coinFlip := Some false; cs_admin := None |};
            joinLobby "a" "S" None;
            joinLobby "b" "S" (Some member);
            joinLobby "o" "S" (Some observer);
            lobby_teamName specExternals "a" {| tn_lobbyId := "S"; tn_teamName := "A" |};
            lobby_teamName specExternals "b" {| tn_lobbyId := "S"; tn_teamName := "B" |};
            lobby_modeBan specExternals "a" (modeOf "S" "rainmaker" "A");
            lobby_modeBan specExternals "b" (modeOf "S" "clams" "B");
            lobby_modePick specExternals "a" (modeOf "S" "tower" "A");
            lobby_ban "a" {| bn_lobbyId := "S"; bn_map := "s1"; bn_teamName := "A" |};
            lobby_ban "a" {| bn_lobbyId := "S"; bn_map := "s2"; bn_teamName := "A" |};
            lobby_ban "b" {| bn_lobbyId := "S"; bn_map := "s3"; bn_teamName := "B" |};
            lobby_ban "b" {| bn_lobbyId := "S"; bn_map := "s4"; bn_teamName := "B" |};
            lobby_ban "b" {| bn_lobbyId := "S"; bn_map := "s5"; bn_teamName := "B" |}]
    startWorld.

Definition splatoonPick : PickData :=
  {| pk_lobbyId := "S"; pk_map := "s6"; pk_teamName := "A"; pk_side := None |}.

(** ** Team actions *)




(** The entry a ban appends, by game category. *)
Definition banEntry (l : Lobby) (data : BanData) : BannedMap :=
  if bool_decide (getGameCategory (gameName (rules l)) = splatoon)
  then SplatoonBanned (bn_map data) (bn_teamName data) (roundNumber (rules l))
  else FpsBanned (bn_map data) (bn_teamName data).

(** The lobby right after the ban itself. *)
Definition banned (l : Lobby) (data : BanData) : Lobby :=
  set_gameStep (gameStep l + 1)
    (set_bannedMaps (bannedMaps l ++ [banEntry l data]) l).




(** ** Histories of joins and team names *)

(** The two events that add a connection to a lobby. *)
Inductive LobbyEvent :=
| EvJoin (sid id : string) (role : option Roles)
| EvTeamName (sid : string) (data : TeamNameData).

Definition sender (ev : LobbyEvent) : string :=
  match ev with
  | EvJoin sid _ _ => sid
  | EvTeamName sid _ => sid
  end.

Definition handle (ext : Externals) (ev : LobbyEvent) : M unit :=
  match ev with
  | EvJoin sid id role => joinLobby sid id role
  | EvTeamName sid data => lobby_teamName ext sid data
  end.

(** The state after a series of events, each handled on the state the
    previous one has left. *)
Definition runEvents (ext : Externals) (evs : list LobbyEvent) (w : World) : World :=
  fold_left (λ w ev, final (handle ext ev w)) evs w.

Definition participants (l : Lobby) : list string * list (string * string) :=
  (members l, teamNames l).

(** A function of another module that leaves the members and the team
    names of every lobby as they are. *)
Definition keepsParticipants (f : string → M unit) : Prop :=
  ∀ (id : string) (w : World) (k : string),
    participants <$> lobbies (final (f id w)) !! k = participants <$> lobbies w !! k.

(** Three connections on an admin lobby "L". *)
Definition crowdedWorld : World :=
  afterAll [connection "a"; connection "b"; connection "c";
            createFPSLobby specExternals "a" (fpsRequest "L" bo1 7 true);
            joinLobby "a" "L" None;
            joinLobby "b" "L" (Some member);
            joinLobby "c" "L" (Some member);
            lobby_teamName specExternals "a" {| tn_lobbyId := "L"; tn_teamName := "A" |};
            lobby_teamName specExternals "b" {| tn_lobbyId := "L"; tn_teamName := "B" |};
            lobby_teamName specExternals "c" {| tn_lobbyId := "L"; tn_teamName := "C" |}]
    startWorld.

(** The lobby object after a [joinLobby] of [sid] with the given role. *)
Definition joined (sid : string) (role : option Roles) (l : Lobby) : Lobby :=
  match default member role with
  | member => set_members (JsSet.add sid (members l)) l
  | observer => set_observers (JsSet.add sid (observers l)) l
  | test => l
  end.

(** The members and the teams of a lobby are connections of [conns],
    each listed once. *)
Definition within (conns : list string) (p : list string * list (string * string)) : Prop :=
  NoDup p.1 ∧ p.1 ⊆ conns ∧ NoDup (JsMap.keys p.2) ∧ JsMap.keys p.2 ⊆ conns.

(** ** More sample states *)

(** A request for a game the map pool does not know. *)
Definition unknownGameRequest (id : string) (gt : GameType) (size : Z)
  : CreateFPSLobbyData :=
  {| cf_lobbyId := id; cf_gameName := "quake"; cf_gameType := gt;
     cf_knifeDecider := true; cf_mapPoolSize := size; cf_customMapPool := None;
     cf_coinFlip := None; cf_admin := None |}.

(** A BO3 lobby "q" for a game the pool does not know, so that its
    [mapNames] is [undefined]; five map actions have been sent. *)
Definition undefinedPoolWorld : World :=
  afterAll [connection "a";
            createFPSLobby specExternals "a" (unknownGameRequest "q" bo3 7);
            lobby_ban "a" {| bn_lobbyId := "q"; bn_map := "m1"; bn_teamName := "A" |};
            lobby_ban "a" {| bn_lobbyId := "q"; bn_map := "m2"; bn_teamName := "B" |};
            lobby_pick specExternals "a"
              {| pk_lobbyId := "q"; pk_map := "m3"; pk_teamName := "A";
                 pk_side := Some "t" |};
            lobby_pick specExternals "a"
              {| pk_lobbyId := "q"; pk_map := "m4"; pk_teamName := "B";
                 pk_side := Some "ct" |};
            lobby_ban "a" {| bn_lobbyId := "q"; bn_map := "m5"; bn_teamName := "A" |}]
    startWorld.

(** The capability a pattern token stands for. *)
Definition tokenCapability (r : Rule) : string :=
  match r with
  | Ban => "canBan"
  | Pick => "canPick"
  | Decider => "canPick"
  end.


(** A BO3 lobby "N" without knife decider, teams "A" and "B", and five
    map actions done: the next one reaches the decider. *)
Definition noKnifeWorld : World :=
  afterAll [connection "a"; connection "b";
            createFPSLobby specExternals "a"
              {| cf_lobbyId := "N"; cf_gameName := "cs2"; cf_gameType := bo3;
                 cf_knifeDecider := false; cf_mapPoolSize := 7;
                 cf_customMapPool := None; cf_coinFlip := Some false;
                 cf_admin := None |};
            joinLobby "a" "N" None;
            joinLobby "b" "N" None;
            lobby_teamName specExternals "a" {| tn_lobbyId := "N"; tn_teamName := "A" |};
            lobby_teamName specExternals "b" {| tn_lobbyId := "N"; tn_teamName := "B" |};
            lobby_ban "a" {| bn_lobbyId := "N"; bn_map := "m1"; bn_teamName := "A" |};
            lobby_ban "b" {| bn_lobbyId := "N"; bn_map := "m2"; bn_teamName := "B" |};
            lobby_pick specExternals "b"
              {| pk_lobbyId := "N"; pk_map := "m3"; pk_teamName := "B";
                 pk_side := Some "ct" |};
            lobby_pick specExternals "a"
              {| pk_lobbyId := "N"; pk_map := "m4"; pk_teamName := "A";
                 pk_side := Some "t" |};
            lobby_ban "a" {| bn_lobbyId := "N"; bn_map := "m5"; bn_teamName := "A" |}]
    startWorld.

(** The four-mode Splatoon lobby "S" at the start of its first map phase:
    "A" has the priority and has picked the tower mode. *)
Definition splatoonMapPhase : World :=
  afterAll [connection "a"; connection "b"; connection "o";
            createSplatoonLobby specExternals "a"
              {| cs_lobbyId := "S"; cs_gameType := bo3; cs_modesSize := Some 4;
                 cs_coinFlip := Some false; cs_admin := None |};
            joinLobby "a" "S" None;
            joinLobby "b" "S" (Some member);
            joinLobby "o" "S" (Some observer);
            lobby_teamName specExternals "a" {| tn_lobbyId := "S"; tn_teamName := "A" |};
            lobby_teamName specExternals "b" {| tn_lobbyId := "S"; tn_teamName := "B" |};
            lobby_modeBan specExternals "a" (modeOf "S" "rainmaker" "A");
            lobby_modeBan specExternals "b" (modeOf "S" "clams" "B");
            lobby_modePick specExternals "a" (modeOf "S" "tower" "A")]
    startWorld.

(** The same lobby before any mode is banned. *)
Definition splatoonModePhase : World :=
  afterAll [connection "a"; connection "b"; connection "o";
            createSplatoonLobby specExternals "a"
              {| cs_lobbyId := "S"; cs_gameType := bo3; cs_modesSize := Some 4;
                 cs_coinFlip := Some false; cs_admin := None |};
            joinLobby "a" "S" None;
            joinLobby "b" "S" (Some member);
            joinLobby "o" "S" (Some observer);
            lobby_teamName specExternals "a" {| tn_lobbyId := "S"; tn_teamName := "A" |};
            lobby_teamName specExternals "b" {| tn_lobbyId := "S"; tn_teamName := "B" |}]
    startWorld.

(** The entry a mode ban appends. *)
Definition modeBanEntry (ext : Externals) (data : ModeData) : ModeEntry :=
  {| me_mode := md_mode data; me_teamName := md_teamName data;
     me_translatedMode := Some (translatedOr ext (md_mode data)) |}.

(** ** The admin surface and the OBS views *)

(** A socket after [leave(id)] and [data.lobbies.delete(id)]. *)
Definition evicted (id : string) (s : Socket) : Socket :=
  {| rooms := rooms s ∖ {[id]}; data_lobbies := JsSet.delete id (data_lobbies s);
     data_pickedMap := data_pickedMap s |}.

Definition lobbyDeleted (id : string) : Emit :=
  {| target := To id; event := "lobbyDeleted"; payload := PStr id |}.

(** The lobby object built by [createSplatoonLobby]. *)
Definition freshSplatoonLobby (ext : Externals) (w : World)
    (data : CreateSplatoonLobbyData) : Lobby :=
  {| lobbyId := cs_lobbyId data; members := []; teamNames := []; observers := [];
     pickedMaps := []; bannedMaps := [];
     rules :=
       {| gameName := "splatoon"; gameType := cs_gameType data;
          mapNames := Some [];
          mapRulesList := splatoon_mapRulesFirst ext (cs_gameType data) (cs_modesSize data);
          coinFlip := default (globalCoinFlip w) (cs_coinFlip data);
          admin := default false (cs_admin data);
          knifeDecider := false;
          mapPoolSize := 32;
          modesRulesList :=
            splatoon_modesRulesFirst ext (cs_gameType data) (cs_modesSize data);
          activeModes :=
            if bool_decide (cs_modesSize data = Some 2) then ["tower"; "zones"]
            else splatoon_gameModes ext;
          roundNumber := 1;
          modesSize := default 4 (cs_modesSize data);
          lastWinner := None |};
     gameStep := 0;
     deciderMap := None; bannedModes := []; pickedMode := None;
     priorityTeam := None |}.

(** The lobby object after [lobby.teamNames.set(socket.id, teamName)]. *)
Definition named (ext : Externals) (sid : string) (data : TeamNameData) (l : Lobby)
  : Lobby :=
  set_teamNames (JsMap.set sid (sanitizeInput ext (tn_teamName data)) (teamNames l)) l.

(** The two lists every replay carries. *)
Definition bannedReplay (room : string) (l : Lobby) : Emit :=
  {| target := To room; event := "bannedUpdated"; payload := PBanned (bannedMaps l) |}.

Definition pickedReplay (room : string) (l : Lobby) : Emit :=
  {| target := To room; event := "pickedUpdated"; payload := PPicked (pickedMaps l) |}.

(** Lobby "L" of [observedWorld] with a second observer "p" that is
    connected, and the member "a" connected as well. *)
Definition watchedWorld : World :=
  afterAll [connection "a"; connection "o"; connection "p";
            createFPSLobby specExternals "a" (fpsRequest "L" bo3 7 true);
            joinLobby "a" "L" None;
            joinLobby "o" "L" (Some observer);
            joinLobby "p" "L" (Some observer);
            lobby_ban "a" (banOf "m1" "A")]
    startWorld.

(** ** The knife decider reached by a pick *)


(** ** Where the numbers and the pool reads of the model are those of JS *)

(** [Number.MAX_SAFE_INTEGER]: up to it, in both directions, the integers
    are JS numbers and their sums and differences are exact. *)
Definition maxSafeInteger : Z := 9007199254740991.

Definition safeInteger (n : Z) : Prop := - maxSafeInteger ≤ n ≤ maxSafeInteger.

(** The members of [Object.prototype]: a property read [pool[name]] of a
    plain object finds them when the object has no own property of that
    name, and finds [undefined] for every other missing name. *)
Definition objectPrototypeNames : list string :=
  ["constructor"; "__proto__"; "hasOwnProperty"; "isPrototypeOf";
   "propertyIsEnumerable"; "toLocaleString"; "toString"; "valueOf";
   "__defineGetter__"; "__defineSetter__"; "__lookupGetter__"; "__lookupSetter__"].
(** * Properties *)

(** Symbolic execution of a handler: the binds are opened and the
    primitive operations run. *)
Tactic Notation "mrun" :=
  repeat progress
  (unfold mbind, M_bind, mret, M_ret;
  cbn [emit emitB gets modify mutate getLobby modifySocket after
       when throw setTimeout completion final emitted app
       set_lobbies set_sockets set_timers lobbies sockets timers globalCoinFlip
       mapPool_fps mapPool_splatoon
       set_members set_teamNames set_observers set_pickedMaps set_bannedMaps
       set_rules set_gameStep set_deciderMap set_bannedModes set_pickedMode
       set_priorityTeam set_activeModes set_mapNames
       lobbyId members teamNames observers pickedMaps bannedMaps rules gameStep
       deciderMap bannedModes pickedMode priorityTeam
       gameName gameType mapNames mapRulesList coinFlip admin knifeDecider
       mapPoolSize modesRulesList activeModes roundNumber modesSize lastWinner]).

Tactic Notation "mrun" "in" hyp(H) :=
  repeat progress
  (unfold mbind, M_bind, mret, M_ret in H;
  cbn [emit emitB gets modify mutate getLobby modifySocket after
       when throw setTimeout completion final emitted app
       set_lobbies set_sockets set_timers lobbies sockets timers globalCoinFlip
       mapPool_fps mapPool_splatoon
       set_members set_teamNames set_observers set_pickedMaps set_bannedMaps
       set_rules set_gameStep set_deciderMap set_bannedModes set_pickedMode
       set_priorityTeam set_activeModes set_mapNames
       lobbyId members teamNames observers pickedMaps bannedMaps rules gameStep
       deciderMap bannedModes pickedMode priorityTeam
       gameName gameType mapNames mapRulesList coinFlip admin knifeDecider
       mapPoolSize modesRulesList activeModes roundNumber modesSize lastWinner] in H).

(** ** Creating an FPS lobby *)

Section Creation.
Context (ext : Externals).

Lemma validation_rejects data :
  rejected data →
  bool_decide (cf_gameType data = bo3 ∨ cf_gameType data = bo5)
    && negb (cf_mapPoolSize data =? 7) = true.
Proof.
  intros [Hgt Hsize]. rewrite bool_decide_eq_true_2 by done.
  apply Z.eqb_neq in Hsize. by rewrite Hsize.
Qed.

(** The run of a request that the rule validation rejects. *)
Lemma createFPSLobby_rejected (w : World) (sid : string) (data : CreateFPSLobbyData) :
  rejected data →
  createFPSLobby ext sid data w =
    {| completion := Normal tt; final := w;
       emitted := [{| target := To sid; event := "lobbyCreationError";
                      payload := PStr poolSizeError |}] |}.
Proof.
  intros Hrej. unfold createFPSLobby.
  rewrite validation_rejects by done. reflexivity.
Qed.

(** A request for an id that is taken changes nothing. *)
Lemma createFPSLobby_taken (w : World) (sid : string) (data : CreateFPSLobbyData)
    (l : Lobby) :
  lobbies w !! cf_lobbyId data = Some l →
  final (createFPSLobby ext sid data w) = w.
Proof.
  intros Hl. unfold createFPSLobby.
  destruct (bool_decide _ && negb _); [reflexivity|].
  mrun. by rewrite Hl.
Qed.

(** C5.  A request for a BO3 or BO5 lobby whose map pool size is not 7
    emits exactly one event, [lobbyCreationError], addressed to the
    requesting connection, and leaves the whole state, the store
    included, as it was. *)
Theorem createFPSLobby_pool_size_error (w : World) (sid : string)
    (data : CreateFPSLobbyData) :
  cf_gameType data = bo3 ∨ cf_gameType data = bo5 →
  cf_mapPoolSize data ≠ 7 →
  createFPSLobby ext sid data w =
    {| completion := Normal tt; final := w;
       emitted := [{| target := To sid; event := "lobbyCreationError";
                      payload := PStr poolSizeError |}] |}.
Proof.
  intros Hgt Hsize. by apply createFPSLobby_rejected.
Qed.

(** C4.  A [createFPSLobby] whose lobby id is already in the store
    leaves the state untouched: the store is equal to the one before,
    so the lobby found there is neither mutated nor replaced. *)
Theorem createFPSLobby_existing_id (w : World) (sid : string)
    (data : CreateFPSLobbyData) (l : Lobby) :
  lobbies w !! cf_lobbyId data = Some l →
  final (createFPSLobby ext sid data w) = w
  ∧ lobbies (final (createFPSLobby ext sid data w)) = lobbies w
  ∧ lobbies (final (createFPSLobby ext sid data w)) !! cf_lobbyId data = Some l.
Proof.
  intros Hl.
  by rewrite (createFPSLobby_taken w sid data l Hl).
Qed.

(** What [createFPSLobby] does on a free lobby id once the validation
    has passed. *)
Lemma createFPSLobby_free_id (w : World) (sid : string) (data : CreateFPSLobbyData) :
  lobbies w !! cf_lobbyId data = None →
  ¬ rejected data →
  createFPSLobby ext sid data w =
    match selectedMapPool w data with
    | None =>
        {| completion := Thrown "TypeError: sourceMapPool is undefined";
           final := w; emitted := [] |}
    | Some maps =>
        {| completion := Normal tt;
           final := set_lobbies
                      (<[cf_lobbyId data := freshFPSLobby ext w data maps]> (lobbies w)) w;
           emitted := [{| target := To sid; event := "lobbyCreated";
                          payload := PStr (cf_lobbyId data) |};
                       {| target := Everyone; event := "lobbiesUpdated";
                          payload := PNone |}] |}
    end.
Proof.
  intros Hfree Hok. unfold createFPSLobby.
  destruct (bool_decide _ && negb _) eqn:Hv.
  { exfalso. apply Hok. apply andb_true_iff in Hv as [Hgt Hsize].
    apply bool_decide_eq_true in Hgt. apply negb_true_iff, Z.eqb_neq in Hsize.
    by split. }
  mrun. rewrite Hfree. fold (sourceMapPool w data). unfold selectedMapPool.
  destruct (cf_mapPoolSize data =? 4); [destruct (sourceMapPool w data)|];
    reflexivity.
Qed.

Lemma rejected_dec (data : CreateFPSLobbyData) : Decision (rejected data).
Proof. unfold rejected. apply _. Defined.

(** C9.  An FPS lobby created with a map pool of size 4 or 7 starts at
    [gameStep = 7 - mapPoolSize]: a lobby that [createFPSLobby] has put
    under an id that was free has that cursor. *)
Theorem createFPSLobby_initial_gameStep (w : World) (sid : string)
    (data : CreateFPSLobbyData) (l : Lobby) :
  cf_mapPoolSize data = 4 ∨ cf_mapPoolSize data = 7 →
  lobbies w !! cf_lobbyId data = None →
  lobbies (final (createFPSLobby ext sid data w)) !! cf_lobbyId data = Some l →
  gameStep l = 7 - cf_mapPoolSize data
  ∧ (cf_mapPoolSize data = 4 → gameStep l = 3)
  ∧ (cf_mapPoolSize data = 7 → gameStep l = 0).
Proof.
  intros Hp Hfree Hl.
  assert (gameStep l = 7 - cf_mapPoolSize data) as Hstep.
  { destruct (rejected_dec data) as [[Hgt Hsize]|Hok].
    - rewrite createFPSLobby_rejected in Hl by done.
      cbn in Hl. congruence.
    - rewrite createFPSLobby_free_id in Hl by done.
      destruct (selectedMapPool w data) as [maps|]; cbn in Hl; [|congruence].
      rewrite lookup_insert_eq in Hl. by injection Hl as <-. }
  split; [done|]. rewrite Hstep. lia.
Qed.

(** The creation does happen: a request that passes the validation, on a
    free id, for a game the pool knows, stores the lobby and returns. *)
Lemma createFPSLobby_creates (w : World) (sid : string)
    (data : CreateFPSLobbyData) (maps : list string) :
  ¬ rejected data →
  lobbies w !! cf_lobbyId data = None →
  sourceMapPool w data = Some maps →
  let o := createFPSLobby ext sid data w in
  completion o = Normal tt
  ∧ ∃ l, lobbies (final o) !! cf_lobbyId data = Some l
         ∧ gameStep l = 7 - cf_mapPoolSize data
         ∧ members l = [] ∧ teamNames l = [] ∧ observers l = [].
Proof.
  intros Hok Hfree Hpool o. subst o.
  rewrite createFPSLobby_free_id by done. unfold selectedMapPool.
  rewrite Hpool. destruct (cf_mapPoolSize data =? 4); cbn;
    (split; [done|]); eexists; (split; [apply lookup_insert_eq|done]).
Qed.

(** Replaying a request changes nothing more, whatever the first run
    did. *)
Lemma createFPSLobby_replay (w : World) (sid sid' : string) (data : CreateFPSLobbyData) :
  let w1 := final (createFPSLobby ext sid data w) in
  lobbies (final (createFPSLobby ext sid' data w1)) = lobbies w1.
Proof.
  intros w1. subst w1.
  destruct (lobbies w !! cf_lobbyId data) as [l|] eqn:Hl.
  { by rewrite (createFPSLobby_taken w sid data l Hl),
       (createFPSLobby_taken w sid' data l Hl). }
  destruct (rejected_dec data) as [[Hgt Hsize]|Hok].
  { by rewrite !createFPSLobby_rejected. }
  rewrite (createFPSLobby_free_id w sid) by done.
  destruct (selectedMapPool w data) as [maps|] eqn:Hsel; cbn [final].
  - by eapply createFPSLobby_existing_id, lookup_insert_eq.
  - rewrite createFPSLobby_free_id, Hsel by done. reflexivity.
Qed.

End Creation.

Lemma createFPSLobby_pool_size_error_witness :
  (cf_gameType (fpsRequest "L" bo3 4 false) = bo3
   ∨ cf_gameType (fpsRequest "L" bo3 4 false) = bo5)
  ∧ cf_mapPoolSize (fpsRequest "L" bo3 4 false) ≠ 7
  ∧ createFPSLobby specExternals "a" (fpsRequest "L" bo3 4 false) startWorld =
      {| completion := Normal tt; final := startWorld;
         emitted := [{| target := To "a"; event := "lobbyCreationError";
                        payload := PStr poolSizeError |}] |}.
Proof.
  split; [left; reflexivity|]. split; [cbn; lia|].
  apply (createFPSLobby_pool_size_error specExternals startWorld "a"
           (fpsRequest "L" bo3 4 false)); [left; reflexivity|cbn; lia].
Defined.

Lemma createFPSLobby_existing_id_witness :
  ∃ l, lobbies (lobbyWorld false) !! "L" = Some l
       ∧ final (createFPSLobby specExternals "b" (fpsRequest "L" bo1 4 true)
                  (lobbyWorld false)) = lobbyWorld false.
Proof.
  eexists. split; [vm_compute; reflexivity|].
  eapply (createFPSLobby_existing_id specExternals (lobbyWorld false) "b"
            (fpsRequest "L" bo1 4 true)).
  vm_compute; reflexivity.
Defined.

Lemma createFPSLobby_initial_gameStep_witness :
  ∃ l, lobbies (final (createFPSLobby specExternals "a" (fpsRequest "L" bo1 4 false)
                         startWorld)) !! "L" = Some l
       ∧ gameStep l = 3.
Proof.
  eexists. split; [vm_compute; reflexivity|].
  eapply (createFPSLobby_initial_gameStep specExternals startWorld "a"
            (fpsRequest "L" bo1 4 false)).
  - left; reflexivity.
  - reflexivity.
  - vm_compute; reflexivity.
  - reflexivity.
Defined.

(** ** Joining *)

(** C10.  [joinLobby] subscribes the socket to the room of the requested
    id before it looks the lobby up.  For an id that is not in the store
    the requester gets [lobbyUndefined] and nothing else is emitted, the
    socket stays in the room (so later broadcasts to that room reach it),
    the id is not added to [socket.data.lobbies], and the store is the one
    before: no lobby is created or mutated.  This holds for every role. *)
Theorem joinLobby_unknown_lobby (w : World) (sid id : string) (role : option Roles) :
  lobbies w !! id = None →
  let o := joinLobby sid id role w in
  completion o = Normal tt
  ∧ emitted o = [{| target := To sid; event := "lobbyUndefined"; payload := PStr id |}]
  ∧ id ∈ rooms (getSocket sid (final o))
  ∧ receives (final o) sid (To id) = true
  ∧ data_lobbies (getSocket sid (final o)) = data_lobbies (getSocket sid w)
  ∧ lobbies (final o) = lobbies w.
Proof.
  intros Hnone o.
  assert (o = {| completion := Normal tt;
                 final := set_sockets
                   (<[sid := {| rooms := {[id]} ∪ rooms (getSocket sid w);
                                data_lobbies := data_lobbies (getSocket sid w);
                                data_pickedMap := data_pickedMap (getSocket sid w) |}]>
                      (sockets w)) w;
                 emitted := [{| target := To sid; event := "lobbyUndefined";
                                payload := PStr id |}] |}) as ->.
  { subst o. unfold joinLobby. mrun. rewrite Hnone.
    destruct (decide (default member role = test)); reflexivity. }
  cbn [completion emitted final].
  assert (id ∈ rooms (getSocket sid (set_sockets
            (<[sid := {| rooms := {[id]} ∪ rooms (getSocket sid w);
                         data_lobbies := data_lobbies (getSocket sid w);
                         data_pickedMap := data_pickedMap (getSocket sid w) |}]>
               (sockets w)) w))) as Hin.
  { unfold getSocket at 1. cbn [sockets set_sockets].
    rewrite lookup_insert_eq. cbn. set_solver. }
  split_and!; try done.
  - unfold receives. apply bool_decide_eq_true_2. by right.
  - unfold getSocket at 1. cbn [sockets set_sockets].
    by rewrite lookup_insert_eq.
Qed.

Lemma getSocket_insert (sid : string) (s : Socket) (m : gmap string Socket) (w : World) :
  getSocket sid (set_sockets (<[sid := s]> m) w) = s.
Proof. unfold getSocket. cbn [sockets set_sockets]. by rewrite lookup_insert_eq. Qed.

Lemma getSocket_set_lobbies (sid : string) (m : gmap string Lobby) (w : World) :
  getSocket sid (set_lobbies m w) = getSocket sid w.
Proof. reflexivity. Qed.

(** Whatever the role and whether or not the lobby exists, the socket is
    in the room of the id afterwards: it hears the broadcasts made to the
    lobby. *)
Lemma joinLobby_subscribes (w : World) (sid id : string) (role : option Roles) :
  receives (final (joinLobby sid id role w)) sid (To id) = true.
Proof.
  unfold receives. apply bool_decide_eq_true_2. right.
  unfold joinLobby. mrun.
  destruct (decide (default member role = test)); mrun.
  { rewrite getSocket_insert. cbn. set_solver. }
  destruct (lobbies w !! id) as [l|]; mrun.
  2: { rewrite getSocket_insert. cbn. set_solver. }
  destruct (bool_decide (gameName (rules l) = "splatoon")); mrun.
  all: destruct (bool_decide (getGameCategory (gameName (rules l)) = fps)); mrun.
  all: destruct (default member role); mrun.
  all: destruct (bool_decide (_ = member)); mrun.
  all: destruct (bool_decide (0 < length (pickedMaps _))%nat); mrun.
  all: destruct (bool_decide (0 < length (bannedMaps _))%nat); mrun.
  all: repeat (rewrite getSocket_insert || rewrite getSocket_set_lobbies
               || cbn [rooms]).
  all: set_solver.
Qed.

Lemma joinLobby_unknown_lobby_witness :
  lobbies (afterAll [connection "a"] startWorld) !! "ghost" = None
  ∧ emitted (joinLobby "a" "ghost" (Some observer) (afterAll [connection "a"] startWorld))
    = [{| target := To "a"; event := "lobbyUndefined"; payload := PStr "ghost" |}]
  ∧ "ghost" ∈ rooms (getSocket "a"
       (final (joinLobby "a" "ghost" (Some observer) (afterAll [connection "a"] startWorld)))).
Proof.
  split; [reflexivity|].
  pose proof (joinLobby_unknown_lobby (afterAll [connection "a"] startWorld)
                "a" "ghost" (Some observer) eq_refl) as H.
  cbv zeta in H. destruct H as (_ & Hev & Hroom & _). split; assumption.
Defined.

(** ** Disconnecting *)

(** One turn of the loop of the disconnect handler on a lobby that
    exists: both deletions, the broadcast of the team names, then either
    the removal of the lobby with [lobbiesUpdated] or a second broadcast
    of the team names. *)
Lemma leaveLobby_found (w : World) (sid id : string) (l : Lobby) :
  lobbies w !! id = Some l →
  leaveLobby sid id w =
    {| completion := Normal tt;
       final := set_lobbies
                  (if reaped sid l then delete id (lobbies w)
                   else <[id := leftLobby sid l]> (lobbies w)) w;
       emitted := teamNamesUpdated id (leftLobby sid l)
                  :: (if reaped sid l then [lobbiesUpdated]
                      else [teamNamesUpdated id (leftLobby sid l)]) |}.
Proof.
  intros Hl. unfold leaveLobby. mrun. rewrite Hl. mrun.
  unfold reaped, leftLobby, teamNamesUpdated, lobbiesUpdated. mrun.
  destruct (_ && _); mrun; unfold set_lobbies; cbn [lobbies]; f_equal; f_equal.
  - by rewrite !delete_insert_eq.
  - by rewrite insert_insert_eq.
Qed.

Lemma leaveLobby_missing (w : World) (sid id : string) :
  lobbies w !! id = None → leaveLobby sid id w = idle w.
Proof. intros Hl. unfold leaveLobby. mrun. by rewrite Hl. Qed.

(** The deletions reach [members] and [teamNames] only: the observers of
    the lobby are the ones before. *)
Lemma leftLobby_fields (sid : string) (l : Lobby) :
  members (leftLobby sid l) = JsSet.delete sid (members l)
  ∧ teamNames (leftLobby sid l) = JsMap.delete sid (teamNames l)
  ∧ observers (leftLobby sid l) = observers l
  ∧ (sid ∉ members (leftLobby sid l))
  ∧ (sid ∉ JsMap.keys (teamNames (leftLobby sid l))).
Proof.
  split_and!; try reflexivity; cbn.
  - unfold JsSet.delete. rewrite list_elem_of_filter. intros [Hne _]. by apply Hne.
  - unfold JsMap.keys, JsMap.delete. rewrite list_elem_of_fmap.
    intros ([k v] & -> & Hin). apply list_elem_of_filter in Hin as [Hne _].
    by apply Hne.
Qed.

(** The lobby is removed exactly when no member is left and it is not an
    admin lobby; an admin lobby is never removed. *)
Lemma reaped_iff (sid : string) (l : Lobby) :
  reaped sid l = true ↔ members (leftLobby sid l) = [] ∧ admin (rules l) = false.
Proof.
  unfold reaped, JsSet.size. rewrite andb_true_iff, Z.eqb_eq, negb_true_iff.
  split; intros [Hm Ha]; (split; [|done]).
  - destruct (members (leftLobby sid l)); [done|cbn in Hm; lia].
  - by rewrite Hm.
Qed.

(** C6, at the failing input.  Connection "o" observes lobby "L"; when it
    disconnects, the handler goes through "L" (the id is in
    [socket.data.lobbies]), broadcasts [teamNamesUpdated] and keeps the
    lobby, which still has a member; but "o" is still listed in
    [observers] afterwards. *)
Theorem disconnect_keeps_observer_listed :
  "L" ∈ data_lobbies (getSocket "o" observedWorld)
  ∧ (observers <$> lobbies observedWorld !! "L") = Some ["o"]
  ∧ completion (disconnect "o" observedWorld) = Normal tt
  ∧ emitted (disconnect "o" observedWorld)
    = [{| target := To "L"; event := "teamNamesUpdated"; payload := PEntries [] |};
       {| target := To "L"; event := "teamNamesUpdated"; payload := PEntries [] |}]
  ∧ (members <$> lobbies (final (disconnect "o" observedWorld)) !! "L") = Some ["a"]
  ∧ (observers <$> lobbies (final (disconnect "o" observedWorld)) !! "L") = Some ["o"].
Proof. vm_compute. split_and!; try reflexivity. apply list_elem_of_here. Qed.

Lemma leaveLobby_completes (w : World) (sid id : string) :
  completion (leaveLobby sid id w) = Normal tt.
Proof.
  destruct (lobbies w !! id) as [l|] eqn:Hl.
  - by rewrite (leaveLobby_found w sid id l).
  - by rewrite leaveLobby_missing.
Qed.

Lemma leaveLobby_store (w : World) (sid id k : string) :
  lobbies (final (leaveLobby sid id w)) !! k =
    if decide (k = id) then lobbies w !! k ≫= afterLeave sid else lobbies w !! k.
Proof.
  destruct (lobbies w !! id) as [l|] eqn:Hl.
  - rewrite (leaveLobby_found w sid id l) by done. cbn [final set_lobbies lobbies].
    unfold afterLeave. destruct (decide (k = id)) as [->|Hne].
    + rewrite Hl. cbn. destruct (reaped sid l).
      * apply lookup_delete_eq.
      * apply lookup_insert_eq.
    + destruct (reaped sid l).
      * by apply lookup_delete_ne.
      * by apply lookup_insert_ne.
  - rewrite leaveLobby_missing by done. cbn [final idle].
    destruct (decide (k = id)) as [->|]; [by rewrite Hl|done].
Qed.

Lemma JsSet_delete_idem (x : string) (s : list string) :
  JsSet.delete x (JsSet.delete x s) = JsSet.delete x s.
Proof.
  unfold JsSet.delete. rewrite list_filter_filter.
  apply list_filter_iff. intros y. tauto.
Qed.

Lemma JsMap_delete_idem (k : string) (m : list (string * string)) :
  JsMap.delete k (JsMap.delete k m) = JsMap.delete k m.
Proof.
  unfold JsMap.delete. rewrite list_filter_filter.
  apply list_filter_iff. intros y. tauto.
Qed.

Lemma afterLeave_idem (sid : string) (l l' : Lobby) :
  afterLeave sid l = Some l' → afterLeave sid l' = Some l'.
Proof.
  unfold afterLeave. destruct (reaped sid l) eqn:Hr; [done|].
  intros [= <-].
  assert (leftLobby sid (leftLobby sid l) = leftLobby sid l) as Hidem.
  { unfold leftLobby. mrun. by rewrite JsSet_delete_idem, JsMap_delete_idem. }
  assert (reaped sid (leftLobby sid l) = reaped sid l) as ->.
  { unfold reaped. by rewrite Hidem. }
  by rewrite Hr, Hidem.
Qed.

Lemma forEach_leaveLobby_store (sid : string) (ids : list string) (w : World) (k : string) :
  completion (forEach (leaveLobby sid) ids w) = Normal tt
  ∧ lobbies (final (forEach (leaveLobby sid) ids w)) !! k =
      if decide (k ∈ ids) then lobbies w !! k ≫= afterLeave sid else lobbies w !! k.
Proof.
  revert w. induction ids as [|id ids IH]; intros w.
  { split; [done|]. cbn. by rewrite decide_False by apply not_elem_of_nil. }
  cbn [forEach]. unfold mbind, M_bind.
  pose proof (leaveLobby_completes w sid id) as Hc.
  pose proof (leaveLobby_store w sid id k) as Hs.
  destruct (leaveLobby sid id w) as [c w1 evs]. cbn in Hc, Hs. subst c.
  destruct (IH w1) as [Hc1 Hs1].
  destruct (forEach (leaveLobby sid) ids w1) as [c2 w2 evs2].
  cbn in Hc1, Hs1 |- *. split; [done|]. rewrite Hs1, Hs.
  destruct (decide (k = id)) as [->|Hne].
  - rewrite (decide_True (P := id ∈ id :: ids)) by apply list_elem_of_here.
    destruct (decide (id ∈ ids)); [|done].
    destruct (lobbies w !! id) as [l|]; [cbn|done].
    destruct (afterLeave sid l) as [l'|] eqn:Hl'; [cbn|done].
    by apply afterLeave_idem in Hl'.
  - destruct (decide (k ∈ ids)) as [Hin|Hnin].
    + by rewrite decide_True by by apply list_elem_of_further.
    + rewrite decide_False; [done|]. by intros [->|?]%elem_of_cons.
Qed.

(** The disconnect handler on the store: every lobby the connection had
    joined loses the connection from [members] and [teamNames], keeps its
    observers, and is removed exactly when that leaves no member in a
    lobby that is not an admin lobby; the other lobbies are untouched. *)
Lemma disconnect_store (w : World) (sid k : string) :
  completion (disconnect sid w) = Normal tt
  ∧ lobbies (final (disconnect sid w)) !! k =
      if decide (k ∈ data_lobbies (getSocket sid w))
      then lobbies w !! k ≫= afterLeave sid
      else lobbies w !! k.
Proof.
  unfold disconnect. mrun.
  destruct (forEach_leaveLobby_store sid (data_lobbies (getSocket sid w)) w k)
    as [Hc Hs].
  destruct (forEach (leaveLobby sid) (data_lobbies (getSocket sid w)) w)
    as [c w1 evs]. cbn in Hc, Hs. subst c. mrun. cbn [lobbies]. by rewrite Hs.
Qed.

(** An admin lobby survives the disconnection of whoever had joined it. *)
Lemma disconnect_admin_lobby_persists (w : World) (sid k : string) (l : Lobby) :
  lobbies w !! k = Some l → admin (rules l) = true →
  ∃ l', lobbies (final (disconnect sid w)) !! k = Some l'
        ∧ admin (rules l') = true ∧ observers l' = observers l.
Proof.
  intros Hl Hadm. destruct (disconnect_store w sid k) as [_ ->].
  destruct (decide _); [|by exists l].
  rewrite Hl. cbn. unfold afterLeave, reaped. rewrite Hadm, andb_false_r.
  by eexists.
Qed.

(** ** The knife decider *)


Lemma knifeDeciderStep_undefined (id other : string) (l : Lobby) (w : World) :
  mapNames (rules l) = None →
  knifeDeciderStep id other l w =
    {| completion := Thrown "TypeError: mapNames is not iterable";
       final := w;
       emitted := [capEvent other "canWorkUpdated" false;
                   capEvent id "canWorkUpdated" false] |}.
Proof. intros Hmaps. unfold knifeDeciderStep. mrun. by rewrite Hmaps. Qed.

(** The search of the decider block returns the last map of the list that
    is not in use, and the empty string when every map is. *)
Lemma notPickedMap_snoc (maps used : list string) (m : string) :
  notPickedMap (maps ++ [m]) used =
    if decide (m ∈ used) then notPickedMap maps used else m.
Proof. unfold notPickedMap. by rewrite fold_left_app. Qed.

Lemma notPickedMap_all_used (maps used : list string) :
  (∀ m, m ∈ maps → m ∈ used) → notPickedMap maps used = "".
Proof.
  induction maps as [|m maps IH] using rev_ind; [done|].
  intros Hall. rewrite notPickedMap_snoc, decide_True.
  - apply IH. intros m' Hm'. apply Hall, elem_of_app. by left.
  - apply Hall, elem_of_app. right. apply list_elem_of_here.
Qed.

Lemma notPickedMap_free (maps used : list string) :
  notPickedMap maps used = ""
  ∨ (notPickedMap maps used ∈ maps ∧ notPickedMap maps used ∉ used).
Proof.
  induction maps as [|m maps IH] using rev_ind; [by left|].
  rewrite notPickedMap_snoc. destruct (decide (m ∈ used)).
  - destruct IH as [?|[? ?]]; [by left|right]. split; [|done].
    apply elem_of_app. by left.
  - right. split; [|done]. apply elem_of_app. right. apply list_elem_of_here.
Qed.


Lemma knifeDeciderNext_true (l : Lobby) :
  knifeDeciderNext l = true →
  (gameStep l <? 7) = true
  ∧ jsIndex (mapRulesList (rules l)) (gameStep l) = Some Decider
  ∧ knifeDecider (rules l) = true.
Proof.
  unfold knifeDeciderNext. intros [[? ?%bool_decide_eq_true]%andb_true_iff ?]%andb_true_iff.
  done.
Qed.

Section MapActions.
Context (ext : Externals).









(** The pick handler on a Splatoon lobby. *)
Lemma lobby_pick_splatoon (w : World) (sid : string) (data : PickData) (l : Lobby) :
  lobbies w !! pk_lobbyId data = Some l →
  getGameCategory (gameName (rules l)) = splatoon →
  let id := pk_lobbyId data in
  let l1 := set_gameStep (gameStep l + 1)
              (set_pickedMaps (pickedMaps l ++ [splatoonPickEntry l data]) l) in
  let o := lobby_pick ext sid data w in
  completion o = Normal tt
  ∧ lobbies (final o) = <[id := l1]> (lobbies w)
  ∧ emitted o = [capEvent id "canWorkUpdated" false;
                 capEvent id "canBan" false;
                 capEvent id "canPick" false;
                 capEvent id "canModeBan" false;
                 capEvent id "canModePick" false;
                 capEvent id "canReportWinner" true;
                 {| target := To (otherSocketId (pk_teamName data) l);
                    event := "endPick"; payload := PNone |};
                 capEvent id "canWorkUpdated" false;
                 pickedUpdated id l1].
Proof.
  intros Hl Hcat id l1 o. subst o l1 id.
  unfold lobby_pick. mrun. rewrite Hl, Hcat.
  rewrite (bool_decide_eq_false_2 (splatoon = fps)) by done. mrun.
  destruct (bool_decide (is_Some (data_pickedMap (getSocket sid _)))); mrun.
  all: rewrite andb_false_r; mrun.
  all: split_and!; try reflexivity.
  all: by rewrite !insert_insert_eq.
Qed.

(** C7, as the code has it.  A pick on a Splatoon lobby switches the five
    controls off and [canReportWinner] on for every connection that is
    subscribed to the lobby room, whatever its role: the two members, and
    the observers as well, since all six events are broadcast to the room.
    A connection outside the room is sent no capability at all. *)
Theorem splatoon_pick_capabilities (w : World) (sid : string) (data : PickData)
    (l : Lobby) (c : string) :
  lobbies w !! pk_lobbyId data = Some l →
  getGameCategory (gameName (rules l)) = splatoon →
  let o := lobby_pick ext sid data w in
  completion o = Normal tt
  ∧ (receives w c (To (pk_lobbyId data)) = true →
       capAfter w c "canReportWinner" (emitted o) = Some true
       ∧ ∀ cap, cap ∈ controls → capAfter w c cap (emitted o) = Some false)
  ∧ (receives w c (To (pk_lobbyId data)) = false →
       ∀ cap, capAfter w c cap (emitted o) = None).
Proof.
  intros Hl Hcat o.
  destruct (lobby_pick_splatoon w sid data l Hl Hcat) as (Hc & _ & Hev).
  fold o in Hc, Hev. split; [done|].
  unfold capAfter. rewrite Hev. clear Hev.
  generalize (otherSocketId (pk_teamName data) l). intros other.
  split; intros Hroom.
  - split.
    + cbn. rewrite Hroom. reflexivity.
    + intros cap Hcap. unfold controls in Hcap.
      repeat (apply elem_of_cons in Hcap as [->|Hcap]);
        [cbn; rewrite Hroom; reflexivity..|by apply elem_of_nil in Hcap].
  - intros cap. cbn. rewrite Hroom. reflexivity.
Qed.

End MapActions.






(** Against C7 as the specification words it: in the first Splatoon round
    of lobby "S", connection "o" is an observer and not a member; the pick
    of "A" nevertheless leaves it with [canReportWinner] switched on. *)
Lemma splatoon_pick_grants_observer :
  (members <$> lobbies splatoonBeforePick !! "S") = Some ["a"; "b"]
  ∧ (observers <$> lobbies splatoonBeforePick !! "S") = Some ["o"]
  ∧ capAfter splatoonBeforePick "o" "canReportWinner"
      (emitted (lobby_pick specExternals "a" splatoonPick splatoonBeforePick))
    = Some true
  ∧ ¬ (∀ c : string,
         capAfter splatoonBeforePick c "canReportWinner"
           (emitted (lobby_pick specExternals "a" splatoonPick splatoonBeforePick))
         = Some true →
         c ∈ ["a"; "b"]).
Proof.
  assert (capAfter splatoonBeforePick "o" "canReportWinner"
            (emitted (lobby_pick specExternals "a" splatoonPick splatoonBeforePick))
          = Some true) as Ho by (vm_compute; reflexivity).
  split_and!; [vm_compute; reflexivity..|exact Ho|].
  intros Hall. specialize (Hall "o" Ho).
  by repeat (apply elem_of_cons in Hall as [Hall|Hall]; [discriminate Hall|]);
     apply elem_of_nil in Hall.
Qed.

Lemma splatoon_pick_capabilities_witness :
  ∃ l : Lobby,
    lobbies splatoonBeforePick !! "S" = Some l
    ∧ getGameCategory (gameName (rules l)) = splatoon
    ∧ receives splatoonBeforePick "b" (To "S") = true
    ∧ capAfter splatoonBeforePick "b" "canReportWinner"
        (emitted (lobby_pick specExternals "a" splatoonPick splatoonBeforePick))
      = Some true
    ∧ capAfter splatoonBeforePick "b" "canPick"
        (emitted (lobby_pick specExternals "a" splatoonPick splatoonBeforePick))
      = Some false.
Proof.
  let stored := eval vm_compute in (lobbies splatoonBeforePick !! "S") in
  match stored with
  | Some ?l0 => pose (l := l0)
  end.
  exists l.
  assert (receives splatoonBeforePick "b" (To "S") = true) as Hroom
    by (vm_compute; reflexivity).
  destruct (splatoon_pick_capabilities specExternals splatoonBeforePick "a"
              splatoonPick l "b") as (_ & Hin & _).
  - vm_compute. reflexivity.
  - reflexivity.
  - destruct (Hin Hroom) as [Hwinner Hcontrols].
    split; [vm_compute; reflexivity|]. split; [reflexivity|]. split; [exact Hroom|].
    split; [exact Hwinner|]. apply Hcontrols. unfold controls.
    do 2 apply list_elem_of_further. apply list_elem_of_here.
Defined.

(** ** Team actions and authorisation *)

Lemma final_after {A} (evs : list Emit) (o : Outcome A) :
  final (after evs o) = final o.
Proof. by destruct o. Qed.

Lemma emitted_after {A} (evs : list Emit) (o : Outcome A) :
  emitted (after evs o) = evs ++ emitted o.
Proof. by destruct o. Qed.

Lemma completion_after {A} (evs : list Emit) (o : Outcome A) :
  completion (after evs o) = completion o.
Proof. by destruct o. Qed.



Section Authorisation.
Context (ext : Externals).


End Authorisation.



(** ** How many members and teams a lobby can get *)

Lemma JsSet_add_elem (x y : string) (s : list string) :
  y ∈ JsSet.add x s ↔ y = x ∨ y ∈ s.
Proof.
  unfold JsSet.add. destruct (decide (x ∈ s)) as [Hin|Hnin].
  - split; [by right|]. by intros [->|?].
  - rewrite elem_of_app, list_elem_of_singleton. tauto.
Qed.

Lemma JsSet_add_NoDup (x : string) (s : list string) :
  NoDup s → NoDup (JsSet.add x s).
Proof.
  intros Hs. unfold JsSet.add. destruct (decide (x ∈ s)) as [Hin|Hnin]; [done|].
  apply NoDup_app. split_and!; [done| |apply NoDup_singleton].
  intros y Hy ->%list_elem_of_singleton. done.
Qed.

Lemma JsMap_set_keys (k v : string) (m : list (string * string)) :
  JsMap.keys (JsMap.set k v m)
  = if decide (k ∈ JsMap.keys m) then JsMap.keys m else JsMap.keys m ++ [k].
Proof.
  unfold JsMap.keys. induction m as [|[k' v'] m IH]; [done|].
  cbn [JsMap.set]. destruct (decide (k' = k)) as [->|Hne].
  - cbn. rewrite decide_True; [done|apply list_elem_of_here].
  - cbn [fmap list_fmap fst] in *. rewrite IH.
    destruct (decide (k ∈ m.*1)) as [Hin|Hnin].
    + rewrite decide_True; [done|by apply list_elem_of_further].
    + rewrite decide_False; [done|]. intros [?|?]%elem_of_cons; congruence.
Qed.

Lemma JsMap_set_keys_add (k v : string) (m : list (string * string)) :
  JsMap.keys (JsMap.set k v m) = JsSet.add k (JsMap.keys m).
Proof. by rewrite JsMap_set_keys. Qed.

(** [joinLobby] on the store: the lobby of the requested id, when there is
    one, gets the connection in [members] or in [observers] according to
    the role (and is left alone for the role "test"); no other lobby
    changes and none appears. *)
Lemma joinLobby_store (w : World) (sid id : string) (role : option Roles) (k : string) :
  lobbies (final (joinLobby sid id role w)) !! k =
    (λ l, if decide (k = id) then joined sid role l else l) <$> lobbies w !! k.
Proof.
  unfold joinLobby, joined. mrun.
  destruct (decide (default member role = test)) as [Htest|Htest]; mrun.
  { rewrite Htest. destruct (lobbies w !! k); cbn; [|done]. by destruct (decide _). }
  destruct (lobbies w !! id) as [l|] eqn:Hl; mrun.
  2: { destruct (lobbies w !! k) eqn:Hk; cbn; [|done].
       destruct (decide (k = id)); [congruence|done]. }
  destruct (bool_decide (gameName (rules l) = "splatoon")); mrun.
  all: destruct (bool_decide (getGameCategory (gameName (rules l)) = fps)); mrun.
  all: destruct (default member role); try done; mrun.
  all: destruct (bool_decide (_ = member)); mrun.
  all: destruct (bool_decide (0 < length (pickedMaps _))%nat); mrun.
  all: destruct (bool_decide (0 < length (bannedMaps _))%nat); mrun.
  all: destruct (decide (k = id)) as [->|Hne];
    [rewrite lookup_insert_eq, Hl; reflexivity
    |rewrite lookup_insert_ne by done; by destruct (lobbies w !! k)].
Qed.

Section Participants.
Context (ext : Externals).
Hypothesis fps_keeps : keepsParticipants (fps_startGame ext).
Hypothesis splatoon_keeps : keepsParticipants (splatoon_startGame ext).

Lemma startGame_participants : keepsParticipants (startGame ext).
Proof.
  intros id w k. unfold startGame. mrun.
  destruct (lobbies w !! id) as [l|]; mrun; [|done].
  rewrite final_after.
  destruct (decide (getGameCategory (gameName (rules l)) = splatoon)); [|apply fps_keeps].
  specialize (splatoon_keeps id w k).
  destruct (splatoon_startGame ext id w) as [[[]|err] w1 evs]; mrun; [|done].
  cbn [final] in splatoon_keeps. rewrite <- splatoon_keeps.
  unfold reread. mrun. rewrite !final_after.
  destruct (negb (coinFlip (rules (default l (lobbies w1 !! id))))); mrun;
    [destruct (negb (bool_decide _)); mrun|]; reflexivity.
Qed.

(** [lobby.teamName] on the members and team names of the store: the lobby
    of the requested id binds the connection to the sanitized name, in
    place when the connection already has a name and at the end
    otherwise; members are not touched. *)
Lemma lobby_teamName_participants (w : World) (sid : string) (data : TeamNameData)
    (k : string) :
  participants <$> lobbies (final (lobby_teamName ext sid data w)) !! k =
    (λ l, if decide (k = tn_lobbyId data)
          then (members l,
                JsMap.set sid (sanitizeInput ext (tn_teamName data)) (teamNames l))
          else participants l) <$> lobbies w !! k.
Proof.
  unfold lobby_teamName. mrun.
  destruct (lobbies w !! tn_lobbyId data) as [l|] eqn:Hl; mrun.
  2: { destruct (lobbies w !! k) eqn:Hk; cbn; [|done].
       destruct (decide _); [congruence|done]. }
  assert (participants <$>
            <[tn_lobbyId data :=
                set_teamNames (JsMap.set sid (sanitizeInput ext (tn_teamName data))
                                 (teamNames l)) l]> (lobbies w) !! k
          = (λ l, if decide (k = tn_lobbyId data)
                  then (members l,
                        JsMap.set sid (sanitizeInput ext (tn_teamName data)) (teamNames l))
                  else participants l) <$> lobbies w !! k) as Hstore.
  { destruct (decide (k = tn_lobbyId data)) as [->|Hne].
    - by rewrite lookup_insert_eq, Hl.
    - rewrite lookup_insert_ne by done. by destruct (lobbies w !! k). }
  destruct (negb (admin (rules l)) && _); mrun; [|exact Hstore].
  rewrite !final_after, (startGame_participants _ _ _). exact Hstore.
Qed.

Lemma within_join (conns : list string) (sid : string) (role : option Roles) (l : Lobby) :
  sid ∈ conns → within conns (participants l) →
  within conns (participants (joined sid role l)).
Proof.
  intros Hsid (Hnd & Hsub & Hnd' & Hsub'). unfold joined.
  destruct (default member role); [|done..].
  split_and!; cbn; [by apply JsSet_add_NoDup| |done..].
  intros y [->|?]%JsSet_add_elem; [done|by apply Hsub].
Qed.

Lemma within_teamName (conns : list string) (sid name : string) (l : Lobby) :
  sid ∈ conns → within conns (participants l) →
  within conns (members l, JsMap.set sid name (teamNames l)).
Proof.
  intros Hsid (Hnd & Hsub & Hnd' & Hsub').
  split_and!; cbn [fst snd]; [done..| |]; rewrite JsMap_set_keys_add.
  - by apply JsSet_add_NoDup.
  - intros y [->|?]%JsSet_add_elem; [done|by apply Hsub'].
Qed.

Lemma handle_within (conns : list string) (ev : LobbyEvent) (w : World) (k : string)
    (l : Lobby) :
  sender ev ∈ conns →
  lobbies w !! k = Some l → within conns (participants l) →
  ∃ l', lobbies (final (handle ext ev w)) !! k = Some l'
        ∧ within conns (participants l').
Proof.
  intros Hsender Hl Hin. destruct ev as [sid id role|sid data]; cbn [handle sender] in *.
  - rewrite joinLobby_store, Hl. cbn. eexists. split; [done|].
    destruct (decide (k = id)); [by apply within_join|done].
  - pose proof (lobby_teamName_participants w sid data k) as Hp.
    rewrite Hl in Hp. cbn in Hp.
    destruct (lobbies (final (lobby_teamName ext sid data w)) !! k) as [l'|];
      [|done].
    exists l'. split; [done|]. injection Hp as Hp. rewrite Hp.
    destruct (decide _); [by apply within_teamName|done].
Qed.

(** C2, as the code has it.  Neither handler caps the size of a lobby:
    what bounds [members] and [teamNames] is the number of connections
    that take part.  From a lobby with no member and no team, after any
    series of [joinLobby] and [lobby.teamName] events sent by connections
    of a (duplicate-free) list, the lobby has at most as many members and
    at most as many teams as the list has connections; so at most two of
    each as long as two connections take part, and more as soon as more
    do. *)
Theorem participants_bounded_by_connections (conns : list string)
    (evs : list LobbyEvent) (w : World) (k : string) (l0 : Lobby) :
  NoDup conns →
  Forall (λ ev, sender ev ∈ conns) evs →
  lobbies w !! k = Some l0 →
  members l0 = [] →
  teamNames l0 = [] →
  ∃ l, lobbies (runEvents ext evs w) !! k = Some l
       ∧ (length (members l) ≤ length conns)%nat
       ∧ (length (teamNames l) ≤ length conns)%nat.
Proof.
  intros Hconns Hevs Hl0 Hm0 Ht0.
  assert (∃ l, lobbies (runEvents ext evs w) !! k = Some l
               ∧ within conns (participants l)) as (l & Hl & Hnd & Hsub & Hnd' & Hsub').
  { assert (within conns (participants l0)) as Hin0.
    { unfold within, participants. rewrite Hm0, Ht0. cbn.
      split_and!; [apply NoDup_nil_2|by intros ? ?%elem_of_nil
                  |apply NoDup_nil_2|by intros ? ?%elem_of_nil]. }
    clear Hm0 Ht0. revert w l0 Hl0 Hin0.
    induction Hevs as [|ev evs Hev _ IH]; intros w l0 Hl0 Hin0; [by exists l0|].
    cbn [runEvents fold_left].
    destruct (handle_within conns ev w k l0 Hev Hl0 Hin0) as (l1 & Hl1 & Hin1).
    by apply (IH _ l1). }
  exists l. split; [done|]. cbn [participants fst snd] in *. split.
  - apply submseteq_length, NoDup_submseteq; [done|]. intros x. apply Hsub.
  - unfold JsMap.keys in *. rewrite <- (length_fmap fst).
    apply submseteq_length, NoDup_submseteq; [done|]. intros x. apply Hsub'.
Qed.

End Participants.

(** Against C2 as the specification words it: three connections join the
    admin lobby "L" as members and name their teams, and the lobby has
    three members and three teams. *)
Lemma third_member_is_admitted :
  (length <$> (members <$> lobbies crowdedWorld !! "L")) = Some 3%nat
  ∧ (length <$> (teamNames <$> lobbies crowdedWorld !! "L")) = Some 3%nat
  ∧ ¬ (∀ l, lobbies crowdedWorld !! "L" = Some l →
            (length (members l) ≤ 2)%nat ∧ (length (teamNames l) ≤ 2)%nat).
Proof.
  split; [vm_compute; reflexivity|]. split; [vm_compute; reflexivity|].
  intros Hall.
  let stored := eval vm_compute in (lobbies crowdedWorld !! "L") in
  match stored with
  | Some ?l0 => destruct (Hall l0) as [Hm _]; [vm_compute; reflexivity|]
  end.
  vm_compute in Hm. lia.
Qed.

Lemma specFpsStartGame_keeps : keepsParticipants specFpsStartGame.
Proof.
  intros id w k. unfold specFpsStartGame. mrun.
  destruct (lobbies w !! id) as [l|]; mrun; [|done].
  rewrite final_after.
  by destruct (jsIndex (mapRulesList (rules l)) (gameStep l)) as [[| |]|].
Qed.

Lemma specSplatoonStartGame_keeps : keepsParticipants specSplatoonStartGame.
Proof.
  intros id w k. unfold specSplatoonStartGame. mrun.
  destruct (lobbies w !! id) as [l|] eqn:Hl; mrun; [|done].
  destruct (decide (k = id)) as [->|Hne].
  - by rewrite lookup_insert_eq, Hl.
  - by rewrite lookup_insert_ne.
Qed.

Lemma participants_bounded_by_connections_witness :
  ∃ l0 l : Lobby,
    lobbies (lobbyWorld false) !! "L" = Some l0
    ∧ members l0 = [] ∧ teamNames l0 = []
    ∧ lobbies (runEvents specExternals
                 [EvJoin "a" "L" None;
                  EvJoin "b" "L" (Some member);
                  EvTeamName "a" {| tn_lobbyId := "L"; tn_teamName := "A" |};
                  EvTeamName "b" {| tn_lobbyId := "L"; tn_teamName := "B" |};
                  EvJoin "a" "L" (Some member);
                  EvTeamName "b" {| tn_lobbyId := "L"; tn_teamName := "Bees" |}]
                 (lobbyWorld false)) !! "L" = Some l
    ∧ (length (members l) ≤ 2)%nat
    ∧ (length (teamNames l) ≤ 2)%nat.
Proof.
  let stored := eval vm_compute in (lobbies (lobbyWorld false) !! "L") in
  match stored with
  | Some ?stored0 => pose (l0 := stored0)
  end.
  destruct (participants_bounded_by_connections specExternals
              specFpsStartGame_keeps specSplatoonStartGame_keeps
              ["a"; "b"]
              [EvJoin "a" "L" None;
               EvJoin "b" "L" (Some member);
               EvTeamName "a" {| tn_lobbyId := "L"; tn_teamName := "A" |};
               EvTeamName "b" {| tn_lobbyId := "L"; tn_teamName := "B" |};
               EvJoin "a" "L" (Some member);
               EvTeamName "b" {| tn_lobbyId := "L"; tn_teamName := "Bees" |}]
              (lobbyWorld false) "L" l0)
    as (l & Hl & Hm & Ht).
  - apply (bool_decide_unpack _). vm_compute. exact I.
  - apply (bool_decide_unpack _). vm_compute. exact I.
  - vm_compute. reflexivity.
  - reflexivity.
  - reflexivity.
  - exists l0, l. split; [vm_compute; reflexivity|].
    split; [reflexivity|]. split; [reflexivity|].
    split; [exact Hl|]. split; [exact Hm|exact Ht].
Defined.

(** * Further properties of the handlers *)

(** ** Joining, again *)

(** X1.  [joinLobby] changes the store in one place at most: the lobby of
    the requested id gets the connection in [members] (role "member", the
    default) or in [observers] (role "observer") and is left as it is for
    the role "test"; every other lobby is untouched and no lobby appears
    or disappears. *)
Theorem joinLobby_effect_on_store (w : World) (sid id : string) (role : option Roles)
    (k : string) :
  lobbies (final (joinLobby sid id role w)) !! k =
    (λ l, if decide (k = id) then joined sid role l else l) <$> lobbies w !! k.
Proof. apply joinLobby_store. Qed.

(** X2.  Whatever the role, and whether or not the lobby exists, a
    [joinLobby] leaves the socket subscribed to the room of the id. *)
Theorem joinLobby_always_subscribes (w : World) (sid id : string) (role : option Roles) :
  id ∈ rooms (getSocket sid (final (joinLobby sid id role w)))
  ∧ receives (final (joinLobby sid id role w)) sid (To id) = true.
Proof.
  assert (id ∈ rooms (getSocket sid (final (joinLobby sid id role w)))) as Hin.
  { unfold joinLobby. mrun.
    destruct (decide (default member role = test)); mrun.
    { rewrite getSocket_insert. cbn. set_solver. }
    destruct (lobbies w !! id) as [l|]; mrun.
    2: { rewrite getSocket_insert. cbn. set_solver. }
    destruct (bool_decide (gameName (rules l) = "splatoon")); mrun.
    all: destruct (bool_decide (getGameCategory (gameName (rules l)) = fps)); mrun.
    all: destruct (default member role); mrun.
    all: destruct (bool_decide (_ = member)); mrun.
    all: destruct (bool_decide (0 < length (pickedMaps _))%nat); mrun.
    all: destruct (bool_decide (0 < length (bannedMaps _))%nat); mrun.
    all: repeat (rewrite getSocket_insert || rewrite getSocket_set_lobbies
                 || cbn [rooms]).
    all: set_solver. }
  split; [done|]. unfold receives. apply bool_decide_eq_true_2. by right.
Qed.

Lemma JsSet_add_idem (x : string) (s : list string) :
  JsSet.add x (JsSet.add x s) = JsSet.add x s.
Proof.
  unfold JsSet.add at 1. rewrite decide_True; [done|].
  apply JsSet_add_elem. by left.
Qed.

Lemma joined_idem (sid : string) (role : option Roles) (l : Lobby) :
  joined sid role (joined sid role l) = joined sid role l.
Proof.
  unfold joined. destruct (default member role); [| |done].
  - unfold set_members. cbn. by rewrite JsSet_add_idem.
  - unfold set_observers. cbn. by rewrite JsSet_add_idem.
Qed.

(** X3.  Joining again changes nothing more: after a second [joinLobby]
    of the same connection with the same role the store is the one the
    first had left (a member or an observer is listed once). *)
Theorem joinLobby_twice (w : World) (sid id : string) (role : option Roles) :
  lobbies (final (joinLobby sid id role (final (joinLobby sid id role w))))
  = lobbies (final (joinLobby sid id role w)).
Proof.
  apply map_eq. intros k. rewrite !joinLobby_store.
  destruct (lobbies w !! k) as [l|]; cbn; [|done].
  destruct (decide (k = id)); [|done]. by rewrite joined_idem.
Qed.

(** ** Disconnecting, again *)

(** X4.  The disconnect handler on the store: each lobby whose id is in
    [socket.data.lobbies] loses the connection from [members] and
    [teamNames] and keeps its other fields, and it is deleted exactly when
    this leaves it without member while [rules.admin] is false; all other
    lobbies are untouched; the handler always returns. *)
Theorem disconnect_effect_on_store (w : World) (sid k : string) :
  completion (disconnect sid w) = Normal tt
  ∧ lobbies (final (disconnect sid w)) !! k =
      if decide (k ∈ data_lobbies (getSocket sid w))
      then lobbies w !! k ≫= afterLeave sid
      else lobbies w !! k.
Proof. apply disconnect_store. Qed.

(** X5.  A lobby with [rules.admin = true] survives every disconnection,
    even the one that leaves it without member; a connection that had
    joined it is gone from its members and teams afterwards. *)
Theorem admin_lobby_survives_disconnect (w : World) (sid k : string) (l : Lobby) :
  lobbies w !! k = Some l →
  admin (rules l) = true →
  ∃ l', lobbies (final (disconnect sid w)) !! k = Some l'
        ∧ admin (rules l') = true
        ∧ (k ∈ data_lobbies (getSocket sid w) →
           (sid ∉ members l') ∧ (sid ∉ JsMap.keys (teamNames l'))).
Proof.
  intros Hl Hadm. destruct (disconnect_store w sid k) as [_ ->].
  destruct (decide _) as [Hin|Hnin]; [|by exists l].
  rewrite Hl. cbn. unfold afterLeave, reaped. rewrite Hadm, andb_false_r.
  eexists. split; [done|]. split; [done|]. intros _.
  by destruct (leftLobby_fields sid l) as (_ & _ & _ & ? & ?).
Qed.

Lemma admin_lobby_survives_disconnect_witness :
  ∃ l l' : Lobby,
    lobbies (afterAll [disconnect "b"; disconnect "c"] crowdedWorld) !! "L" = Some l
    ∧ admin (rules l) = true
    ∧ members l = ["a"]
    ∧ lobbies (final (disconnect "a"
                 (afterAll [disconnect "b"; disconnect "c"] crowdedWorld))) !! "L"
      = Some l'
    ∧ members l' = [].
Proof.
  let stored := eval vm_compute in
    (lobbies (afterAll [disconnect "b"; disconnect "c"] crowdedWorld) !! "L") in
  match stored with
  | Some ?stored0 => pose (l := stored0)
  end.
  destruct (admin_lobby_survives_disconnect
              (afterAll [disconnect "b"; disconnect "c"] crowdedWorld) "a" "L" l)
    as (l' & Hl' & _ & _).
  - vm_compute. reflexivity.
  - reflexivity.
  - exists l, l'. split; [vm_compute; reflexivity|]. split; [reflexivity|].
    split; [reflexivity|]. split; [exact Hl'|].
    assert (members <$> lobbies (final (disconnect "a"
              (afterAll [disconnect "b"; disconnect "c"] crowdedWorld))) !! "L"
            = Some []) as Hm by (vm_compute; reflexivity).
    rewrite Hl' in Hm. by injection Hm.
Defined.

(** ** Creating, again *)

(** X6.  Replaying any [createFPSLobby] request, from whichever
    connection, leaves the store as the first run has left it: whether
    that run created the lobby, was rejected, found the id taken or threw. *)
Theorem createFPSLobby_idempotent (ext : Externals) (w : World) (sid sid' : string)
    (data : CreateFPSLobbyData) :
  lobbies (final (createFPSLobby ext sid' data
                    (final (createFPSLobby ext sid data w))))
  = lobbies (final (createFPSLobby ext sid data w)).
Proof. apply createFPSLobby_replay. Qed.

(** X7.  On a free id, a request that passes the rule validation, with a
    pool size that is a safe integer of JS and so is 7 minus it (the
    subtraction of the handler is then exact), gets a lobby whose map
    list is the first four maps of the source pool when [mapPoolSize] is
    4 and the whole source pool for every other size (the size only
    moves the cursor: [gameStep = 7 - mapPoolSize]); the lobby starts
    with no member, team, observer, pick or ban, and [lobbyCreated] goes
    to the requester and [lobbiesUpdated] to everyone. *)
Theorem createFPSLobby_selected_pool (ext : Externals) (w : World) (sid : string)
    (data : CreateFPSLobbyData) (maps : list string) :
  ¬ rejected data →
  safeInteger (cf_mapPoolSize data) →
  safeInteger (7 - cf_mapPoolSize data) →
  lobbies w !! cf_lobbyId data = None →
  sourceMapPool w data = Some maps →
  let o := createFPSLobby ext sid data w in
  completion o = Normal tt
  ∧ emitted o = [{| target := To sid; event := "lobbyCreated";
                    payload := PStr (cf_lobbyId data) |};
                 {| target := Everyone; event := "lobbiesUpdated"; payload := PNone |}]
  ∧ ∃ l, lobbies (final o) !! cf_lobbyId data = Some l
         ∧ mapNames (rules l)
           = Some (if decide (cf_mapPoolSize data = 4) then take 4 maps else maps)
         ∧ gameStep l = 7 - cf_mapPoolSize data
         ∧ members l = [] ∧ teamNames l = [] ∧ observers l = []
         ∧ pickedMaps l = [] ∧ bannedMaps l = [].
Proof.
  intros Hok _ _ Hfree Hpool o. subst o.
  rewrite createFPSLobby_free_id by done. unfold selectedMapPool. rewrite Hpool.
  destruct (decide (cf_mapPoolSize data = 4)) as [Hfour|Hother].
  - rewrite Hfour. cbn. split_and!; try done.
    eexists. split; [apply lookup_insert_eq|]. cbn. by rewrite Hfour.
  - apply Z.eqb_neq in Hother as Hneq. rewrite Hneq. cbn. split_and!; try done.
    eexists. split; [apply lookup_insert_eq|]. done.
Qed.

Lemma createFPSLobby_selected_pool_witness :
  ¬ rejected (fpsRequest "five" bo1 5 false)
  ∧ safeInteger 5 ∧ safeInteger (7 - 5)
  ∧ lobbies startWorld !! "five" = None
  ∧ ∃ l, lobbies (final (createFPSLobby specExternals "a" (fpsRequest "five" bo1 5 false)
                           startWorld)) !! "five" = Some l
         ∧ mapNames (rules l) = Some ["m1"; "m2"; "m3"; "m4"; "m5"; "m6"; "m7"]
         ∧ gameStep l = 2.
Proof.
  assert (¬ rejected (fpsRequest "five" bo1 5 false)) as Hok.
  { intros [[Hgt|Hgt] _]; discriminate Hgt. }
  assert (safeInteger 5) as Hsize by (unfold safeInteger, maxSafeInteger; lia).
  assert (safeInteger (7 - 5)) as Hstart by (unfold safeInteger, maxSafeInteger; lia).
  split; [exact Hok|]. split; [exact Hsize|]. split; [exact Hstart|].
  split; [reflexivity|].
  destruct (createFPSLobby_selected_pool specExternals startWorld "a"
              (fpsRequest "five" bo1 5 false) ["m1"; "m2"; "m3"; "m4"; "m5"; "m6"; "m7"])
    as (_ & _ & l & Hl & Hmaps & Hstep & _).
  - exact Hok.
  - exact Hsize.
  - exact Hstart.
  - reflexivity.
  - reflexivity.
  - exists l. split; [exact Hl|]. split; [exact Hmaps|exact Hstep].
Defined.

(** X8.  A game name that the source pool does not have, and that is no
    member of [Object.prototype] either, reads as [undefined] from the
    pool.  A four-map request for such a game throws (the slice is taken
    of [undefined]): nothing is stored and nothing is emitted.  With any
    other size the same request goes through and stores a lobby whose
    [mapNames] is [undefined]. *)
Theorem createFPSLobby_unknown_game (ext : Externals) (w : World) (sid : string)
    (data : CreateFPSLobbyData) :
  ¬ rejected data →
  lobbies w !! cf_lobbyId data = None →
  sourceMapPool w data = None →
  cf_gameName data ∉ objectPrototypeNames →
  let o := createFPSLobby ext sid data w in
  (cf_mapPoolSize data = 4 →
     (∃ e, completion o = Thrown e) ∧ final o = w ∧ emitted o = [])
  ∧ (cf_mapPoolSize data ≠ 4 →
     completion o = Normal tt
     ∧ ∃ l, lobbies (final o) !! cf_lobbyId data = Some l
            ∧ mapNames (rules l) = None).
Proof.
  intros Hok Hfree Hpool _ o. subst o.
  rewrite createFPSLobby_free_id by done. unfold selectedMapPool. rewrite Hpool.
  split.
  - intros ->. cbn. split_and!; [by eexists|done..].
  - intros Hneq%Z.eqb_neq. rewrite Hneq. cbn. split; [done|].
    eexists. split; [apply lookup_insert_eq|done].
Qed.

Lemma createFPSLobby_unknown_game_witness :
  sourceMapPool startWorld (unknownGameRequest "q" bo1 4) = None
  ∧ ("quake" ∉ objectPrototypeNames)
  ∧ final (createFPSLobby specExternals "a" (unknownGameRequest "q" bo1 4) startWorld)
    = startWorld
  ∧ ∃ l, lobbies (final (createFPSLobby specExternals "a"
                           (unknownGameRequest "q" bo3 7) startWorld)) !! "q" = Some l
         ∧ mapNames (rules l) = None.
Proof.
  split; [reflexivity|].
  assert ("quake" ∉ objectPrototypeNames) as Hname
    by (apply (bool_decide_unpack _); vm_compute; exact I).
  split; [exact Hname|].
  assert (∀ gt size, ¬ rejected (unknownGameRequest "q" gt size) →
          let o := createFPSLobby specExternals "a" (unknownGameRequest "q" gt size)
                     startWorld in
          (size = 4 → (∃ e, completion o = Thrown e) ∧ final o = startWorld
                      ∧ emitted o = [])
          ∧ (size ≠ 4 → completion o = Normal tt
               ∧ ∃ l, lobbies (final o) !! "q" = Some l ∧ mapNames (rules l) = None))
    as Hrun.
  { intros gt size Hok.
    apply (createFPSLobby_unknown_game specExternals startWorld "a"
             (unknownGameRequest "q" gt size) Hok); [reflexivity..|exact Hname]. }
  split.
  - destruct (Hrun bo1 4) as [Hthrow _].
    + intros [[Hgt|Hgt] _]; discriminate Hgt.
    + by destruct (Hthrow eq_refl) as (_ & Hw & _).
  - destruct (Hrun bo3 7) as [_ Hgo].
    + intros [_ Hsize]. by apply Hsize.
    + destruct Hgo as [_ Hl]; [lia|exact Hl].
Defined.

(** ** The decider search *)

(** X9.  The search of the knife-decider block returns the last map of
    [mapNames] that is neither picked nor banned, and the empty string
    when every map is in use: with several maps left it is the last one
    that becomes the decider. *)
Theorem notPickedMap_last_unused (maps used : list string) :
  notPickedMap maps used = default "" (last (filter (λ m, m ∉ used) maps)).
Proof.
  induction maps as [|m maps IH] using rev_ind; [done|].
  rewrite notPickedMap_snoc, filter_app.
  destruct (decide (m ∈ used)) as [Hused|Hfree].
  - rewrite (filter_cons_False _ m) by by intros ?.
    by rewrite filter_nil, app_nil_r.
  - rewrite (filter_cons_True _ m) by done. by rewrite filter_nil, last_snoc.
Qed.

(** ** The steps of the FPS ceremony *)

Lemma receives_self (w : World) (c : string) : receives w c (To c) = true.
Proof. unfold receives. apply bool_decide_eq_true_2. by left. Qed.

Section FpsSteps.
Context (ext : Externals).

(** X10.  An FPS ban whose next pattern token is "ban" or "pick" passes
    the turn: the ban is stored (the entry appended, the cursor moved by
    one, nothing else), the connection of the first team with another
    name is switched on with the capability of the token, and the sender,
    unless it hears that connection's messages, is left switched off. *)
Theorem lobby_ban_passes_turn (w : World) (sid : string) (data : BanData)
    (l : Lobby) (token : Rule) :
  lobbies w !! bn_lobbyId data = Some l →
  getGameCategory (gameName (rules l)) = fps →
  gameStep l + 1 < 7 →
  jsIndex (mapRulesList (rules l)) (gameStep l + 1) = Some token →
  token ≠ Decider →
  let o := lobby_ban sid data w in
  let other := otherSocketId (bn_teamName data) l in
  completion o = Normal tt
  ∧ lobbies (final o) = <[bn_lobbyId data := applied (DoBan data) l]> (lobbies w)
  ∧ capAfter w other "canWorkUpdated" (emitted o) = Some true
  ∧ capAfter w other (tokenCapability token) (emitted o) = Some true
  ∧ (receives w sid (To other) = false →
       capAfter w sid "canWorkUpdated" (emitted o) = Some false
       ∧ capAfter w sid "canBan" (emitted o) = Some false).
Proof.
  intros Hl Hcat Hlt Hrule Htoken o other. subst o other.
  apply Z.ltb_lt in Hlt.
  unfold lobby_ban, otherSocketId, applied. mrun. rewrite Hl, Hcat.
  rewrite (bool_decide_eq_false_2 (fps = splatoon)) by done. mrun.
  rewrite Hlt, Hrule. mrun.
  generalize (entryId (findOther (Some (bn_teamName data)) (teamNames l))).
  generalize (entryName (findOther (Some (bn_teamName data)) (teamNames l))).
  intros otherName other.
  pose proof (receives_self w other) as Hother.
  pose proof (receives_self w sid) as Hsid.
  destruct token; [| |done]; mrun.
  all: split; [done|]; split; [by rewrite insert_insert_eq|].
  all: unfold capAfter; cbn; rewrite Hother, Hsid.
  all: destruct (receives w other (To sid)), (receives w sid (To other)); cbn.
  all: split_and!; try done; by intros [=].
Qed.


(** X12.  When the position reached by a ban or a pick is "decider" and
    the lobby does not play the decider by knife round, no decider entry
    is made: the action alone is stored and the connection of the first
    team with another name is granted the pick; the sender, unless it
    hears that connection's messages, is left switched off. *)
Theorem decider_without_knife (w : World) (sid : string) (a : MapAction) (l : Lobby) :
  lobbies w !! actionLobbyId a = Some l →
  getGameCategory (gameName (rules l)) = fps →
  gameStep l + 1 < 7 →
  jsIndex (mapRulesList (rules l)) (gameStep l + 1) = Some Decider →
  knifeDecider (rules l) = false →
  let o := performMap ext sid a w in
  let other :=
    otherSocketId (match a with
                   | DoBan data => bn_teamName data
                   | DoPick data => pk_teamName data
                   end) l in
  completion o = Normal tt
  ∧ lobbies (final o) = <[actionLobbyId a := applied a l]> (lobbies w)
  ∧ capAfter w other "canWorkUpdated" (emitted o) = Some true
  ∧ capAfter w other "canPick" (emitted o) = Some true
  ∧ (receives w sid (To other) = false →
       capAfter w sid "canWorkUpdated" (emitted o) = Some false).
Proof.
  intros Hl Hcat Hlt Hrule Hknife o other. subst o other. apply Z.ltb_lt in Hlt.
  destruct a as [data|data]; cbn [performMap actionLobbyId applied] in *.
  - unfold lobby_ban, otherSocketId. mrun. rewrite Hl, Hcat.
    rewrite (bool_decide_eq_false_2 (fps = splatoon)) by done. mrun.
    rewrite Hlt, Hrule, Hknife. mrun.
    generalize (entryId (findOther (Some (bn_teamName data)) (teamNames l))).
    intros other.
    pose proof (receives_self w other) as Hother.
    pose proof (receives_self w sid) as Hsid.
    split; [done|]. split; [by rewrite insert_insert_eq|].
    unfold capAfter; cbn; rewrite Hother, Hsid.
    destruct (receives w other (To sid)), (receives w sid (To other)); cbn;
      split_and!; try done; by intros [=].
  - unfold lobby_pick, otherSocketId, fpsPickEntry, mapTeamName. mrun.
    rewrite Hl, Hcat.
    rewrite (bool_decide_eq_true_2 (fps = fps)) by done.
    destruct (bool_decide (gameType (rules l) ≠ bo1)); mrun.
    all: destruct (bool_decide (is_Some (data_pickedMap (getSocket sid _)))); mrun.
    all: rewrite Hlt, Hrule, Hknife; cbn [andb]; mrun.
    all: split; [done|]; split; [by rewrite !insert_insert_eq|].
    all: generalize (entryId (findOther (Some (pk_teamName data)) (teamNames l)));
      intros other.
    all: pose proof (receives_self w other) as Hother.
    all: pose proof (receives_self w sid) as Hsid.
    all: unfold capAfter; cbn; rewrite Hother, Hsid.
    all: destruct (receives w other (To sid)), (receives w sid (To other)),
           (receives w other (To (pk_lobbyId data))),
           (receives w sid (To (pk_lobbyId data))); cbn.
    all: split_and!; try done; by intros [=].
Qed.

(** X13.  In a lobby whose [mapNames] is [undefined] (its game was not in
    the pool when it was created), the action that reaches a knife
    decider throws: the handler has stored the action and switched the
    room off by then, and appends no decider entry. *)
Theorem knife_decider_without_pool (w : World) (sid : string) (a : MapAction)
    (l : Lobby) :
  lobbies w !! actionLobbyId a = Some l →
  getGameCategory (gameName (rules l)) = fps →
  knifeDeciderNext (applied a l) = true →
  mapNames (rules l) = None →
  let o := performMap ext sid a w in
  (∃ e, completion o = Thrown e)
  ∧ lobbies (final o) = <[actionLobbyId a := applied a l]> (lobbies w)
  ∧ ∀ c cap : string,
      (receives w c (To sid) = true → receives w c (To (actionLobbyId a)) = true) →
      capAfter w c cap (emitted o) ≠ Some true.
Proof.
  intros Hl Hcat Hnext Hmaps o. subst o.
  apply knifeDeciderNext_true in Hnext as (Hlt & Hrule & Hknife).
  destruct a as [data|data]; cbn [performMap actionLobbyId applied] in *.
  - unfold lobby_ban. mrun. rewrite Hl, Hcat.
    rewrite (bool_decide_eq_false_2 (fps = splatoon)) by done.
    mrun in Hlt. mrun in Hrule. mrun in Hknife. mrun.
    rewrite Hlt, Hrule, Hknife. mrun.
    rewrite knifeDeciderStep_undefined by exact Hmaps. mrun.
    split; [by eexists|]. split; [by rewrite insert_insert_eq|].
    intros c cap Hroom. unfold capAfter.
    generalize (entryId (findOther (Some (bn_teamName data)) (teamNames l))).
    intros other. cbn.
    destruct (receives w c (To sid)), (receives w c (To other)),
      (receives w c (To (bn_lobbyId data))),
      (bool_decide ("canWorkUpdated" = cap)), (bool_decide ("canBan" = cap));
      cbn; (discriminate || (by specialize (Hroom eq_refl))).
  - unfold lobby_pick, fpsPickEntry, mapTeamName in *. mrun. rewrite Hl, Hcat.
    rewrite (bool_decide_eq_true_2 (fps = fps)) by done.
    mrun in Hlt. mrun in Hrule. mrun in Hknife.
    destruct (bool_decide (gameType (rules l) ≠ bo1)); mrun.
    all: destruct (bool_decide (is_Some (data_pickedMap (getSocket sid _)))); mrun.
    all: rewrite Hlt, Hrule, Hknife; cbn [andb]; mrun.
    all: rewrite knifeDeciderStep_undefined by exact Hmaps; mrun.
    all: split; [by eexists|]; split; [by rewrite !insert_insert_eq|].
    all: generalize (entryId (findOther (Some (pk_teamName data)) (teamNames l)));
      intros other.
    all: intros c cap Hroom; unfold capAfter; cbn.
    all: destruct (receives w c (To sid)), (receives w c (To other)),
           (receives w c (To (pk_lobbyId data))),
           (bool_decide ("canWorkUpdated" = cap));
           cbn; (discriminate || (by specialize (Hroom eq_refl))).
Qed.

End FpsSteps.

Lemma lobby_ban_passes_turn_witness :
  ∃ l : Lobby,
    lobbies bo3Start !! "L" = Some l
    ∧ jsIndex (mapRulesList (rules l)) (gameStep l + 1) = Some Ban
    ∧ otherSocketId "A" l = "b"
    ∧ capAfter bo3Start "b" "canBan"
        (emitted (lobby_ban "a" (banOf "m1" "A") bo3Start)) = Some true
    ∧ capAfter bo3Start "a" "canBan"
        (emitted (lobby_ban "a" (banOf "m1" "A") bo3Start)) = Some false.
Proof.
  let stored := eval vm_compute in (lobbies bo3Start !! "L") in
  match stored with
  | Some ?stored0 => pose (l := stored0)
  end.
  exists l.
  destruct (lobby_ban_passes_turn bo3Start "a" (banOf "m1" "A") l Ban)
    as (_ & _ & _ & Hother & Hsender).
  - vm_compute. reflexivity.
  - reflexivity.
  - cbn. lia.
  - reflexivity.
  - discriminate.
  - split; [vm_compute; reflexivity|]. split; [reflexivity|].
    split; [reflexivity|]. split; [exact Hother|].
    apply Hsender. vm_compute. reflexivity.
Defined.


Lemma decider_without_knife_witness :
  ∃ l l' : Lobby,
    lobbies noKnifeWorld !! "N" = Some l
    ∧ knifeDecider (rules l) = false
    ∧ lobbies (final (performMap specExternals "b"
                        (DoBan {| bn_lobbyId := "N"; bn_map := "m6"; bn_teamName := "B" |})
                        noKnifeWorld)) !! "N" = Some l'
    ∧ pickedMaps l' = pickedMaps l
    ∧ gameStep l' = 6
    ∧ capAfter noKnifeWorld "a" "canPick"
        (emitted (performMap specExternals "b"
                    (DoBan {| bn_lobbyId := "N"; bn_map := "m6"; bn_teamName := "B" |})
                    noKnifeWorld)) = Some true.
Proof.
  let stored := eval vm_compute in (lobbies noKnifeWorld !! "N") in
  match stored with
  | Some ?stored0 => pose (l := stored0)
  end.
  destruct (decider_without_knife specExternals noKnifeWorld "b"
              (DoBan {| bn_lobbyId := "N"; bn_map := "m6"; bn_teamName := "B" |}) l)
    as (_ & Hstore & _ & Hpick & _).
  - vm_compute. reflexivity.
  - reflexivity.
  - cbn. lia.
  - reflexivity.
  - reflexivity.
  - exists l, (applied (DoBan {| bn_lobbyId := "N"; bn_map := "m6";
                                 bn_teamName := "B" |}) l).
    split; [vm_compute; reflexivity|]. split; [reflexivity|].
    split; [rewrite Hstore; apply lookup_insert_eq|].
    split; [reflexivity|]. split; [reflexivity|exact Hpick].
Defined.

Lemma knife_decider_without_pool_witness :
  ∃ l l' : Lobby,
    lobbies undefinedPoolWorld !! "q" = Some l
    ∧ mapNames (rules l) = None
    ∧ (∃ e, completion (performMap specExternals "a"
                          (DoBan {| bn_lobbyId := "q"; bn_map := "m6";
                                    bn_teamName := "B" |})
                          undefinedPoolWorld) = Thrown e)
    ∧ lobbies (final (performMap specExternals "a"
                        (DoBan {| bn_lobbyId := "q"; bn_map := "m6"; bn_teamName := "B" |})
                        undefinedPoolWorld)) !! "q" = Some l'
    ∧ gameStep l' = 6
    ∧ length (pickedMaps l') = 2%nat.
Proof.
  let stored := eval vm_compute in (lobbies undefinedPoolWorld !! "q") in
  match stored with
  | Some ?stored0 => pose (l := stored0)
  end.
  destruct (knife_decider_without_pool specExternals undefinedPoolWorld "a"
              (DoBan {| bn_lobbyId := "q"; bn_map := "m6"; bn_teamName := "B" |}) l)
    as (Hthrown & Hstore & _).
  - vm_compute. reflexivity.
  - reflexivity.
  - reflexivity.
  - reflexivity.
  - exists l, (applied (DoBan {| bn_lobbyId := "q"; bn_map := "m6";
                                 bn_teamName := "B" |}) l).
    split; [vm_compute; reflexivity|]. split; [reflexivity|].
    split; [exact Hthrown|].
    split; [rewrite Hstore; apply lookup_insert_eq|]. split; reflexivity.
Defined.

(** ** Splatoon bans and mode bans *)



(** X15.  The quotas of the first Splatoon round, as the ban handler
    applies them after each ban (counting the ban just stored): the
    priority team keeps the ban while it has fewer than two bans in the
    round; with its second ban the first team under another name gets
    the ban; that team keeps it while it has fewer than three; with its
    third ban the priority team's connection gets the pick and nobody
    the ban; and a ban by another team before the priority team has
    finished switches nobody on. *)
Theorem splatoon_first_round_quotas (w : World) (sid : string) (data : BanData)
    (l : Lobby) :
  lobbies w !! bn_lobbyId data = Some l →
  getGameCategory (gameName (rules l)) = splatoon →
  roundNumber (rules l) = 1 →
  let evs := emitted (lobby_ban sid data w) in
  let team := bn_teamName data in
  let priorityBans := roundBans (banned l data) (priorityTeam l) in
  let ownBans := roundBans (banned l data) (Some team) in
  (Some team = priorityTeam l → (priorityBans < 2)%nat →
     capAfter w sid "canBan" evs = Some true)
  ∧ (Some team = priorityTeam l → (2 ≤ priorityBans)%nat →
     capAfter w (entryId (findOther (priorityTeam l) (teamNames l))) "canBan" evs
     = Some true)
  ∧ (Some team ≠ priorityTeam l → (2 ≤ priorityBans)%nat → (ownBans < 3)%nat →
     capAfter w sid "canBan" evs = Some true)
  ∧ (Some team ≠ priorityTeam l → (2 ≤ priorityBans)%nat → (3 ≤ ownBans)%nat →
     capAfter w (entryId (findTeam (priorityTeam l) (teamNames l))) "canPick" evs
     = Some true
     ∧ ∀ c, capAfter w c "canBan" evs ≠ Some true)
  ∧ (Some team ≠ priorityTeam l → (priorityBans < 2)%nat →
     ∀ c cap, capAfter w c cap evs ≠ Some true).
Proof.
  intros Hl Hcat Hround evs team priorityBans ownBans.
  subst evs team priorityBans ownBans.
  unfold lobby_ban, banned, banEntry. mrun. rewrite Hl, Hcat.
  rewrite (bool_decide_eq_true_2 (splatoon = splatoon)) by done. mrun.
  unfold banSplatoon, banFirstRound. mrun. rewrite Hround. cbn [Z.eqb Pos.eqb].
  set (l1 := set_gameStep _ _).
  change (priorityTeam l1) with (priorityTeam l).
  change (teamNames l1) with (teamNames l).
  generalize (roundBans l1 (priorityTeam l)) (roundBans l1 (Some (bn_teamName data))).
  intros priorityBans ownBans.
  generalize (entryId (findOther (priorityTeam l) (teamNames l)))
    (entryName (findOther (priorityTeam l) (teamNames l)))
    (entryId (findTeam (priorityTeam l) (teamNames l))).
  intros otherId otherName priorityId.
  pose proof (receives_self w sid) as Hsid.
  pose proof (receives_self w otherId) as HotherId.
  pose proof (receives_self w priorityId) as HpriorityId.
  split_and!.
  - intros Hprio Hlt.
    rewrite (bool_decide_eq_true_2 (Some (bn_teamName data) = priorityTeam l)) by done.
    rewrite (bool_decide_eq_true_2 (priorityBans < 2)%nat) by done.
    destruct (modesSize (rules l) =? 2); mrun; unfold capAfter; cbn;
      by rewrite Hsid.
  - intros Hprio Hge.
    rewrite (bool_decide_eq_true_2 (Some (bn_teamName data) = priorityTeam l)) by done.
    rewrite (bool_decide_eq_false_2 (priorityBans < 2)%nat) by lia.
    rewrite (bool_decide_eq_true_2 (2 ≤ priorityBans)%nat) by done.
    destruct (modesSize (rules l) =? 2); mrun; unfold capAfter; cbn;
      rewrite HotherId; by destruct (receives w otherId (To sid)).
  - intros Hprio Hge Hown.
    rewrite (bool_decide_eq_false_2 (Some (bn_teamName data) = priorityTeam l)) by done.
    rewrite (bool_decide_eq_true_2 (2 ≤ priorityBans)%nat) by done.
    rewrite (bool_decide_eq_true_2 (ownBans < 3)%nat) by done.
    destruct (modesSize (rules l) =? 2); mrun; unfold capAfter; cbn;
      by rewrite Hsid.
  - intros Hprio Hge Hown.
    rewrite (bool_decide_eq_false_2 (Some (bn_teamName data) = priorityTeam l)) by done.
    rewrite (bool_decide_eq_true_2 (2 ≤ priorityBans)%nat) by done.
    rewrite (bool_decide_eq_false_2 (ownBans < 3)%nat) by lia.
    destruct (modesSize (rules l) =? 2); mrun; unfold capAfter; cbn;
      rewrite HpriorityId; (split; [by destruct (receives w priorityId (To sid))|]);
      intros c; by destruct (receives w c (To sid)), (receives w c (To priorityId)).
  - intros Hprio Hlt.
    rewrite (bool_decide_eq_false_2 (Some (bn_teamName data) = priorityTeam l)) by done.
    rewrite (bool_decide_eq_false_2 (2 ≤ priorityBans)%nat) by lia.
    rewrite (bool_decide_eq_true_2 (priorityBans < 2)%nat) by done.
    destruct (modesSize (rules l) =? 2); mrun; unfold capAfter; cbn;
      intros c cap;
      by destruct (receives w c (To sid)), (bool_decide ("canWorkUpdated" = cap)),
        (bool_decide ("canBan" = cap)).
Qed.

Lemma splatoon_first_round_quotas_witness :
  ∃ l : Lobby,
    lobbies splatoonMapPhase !! "S" = Some l
    ∧ priorityTeam l = Some "A"
    ∧ capAfter splatoonMapPhase "a" "canBan"
        (emitted (lobby_ban "a"
                    {| bn_lobbyId := "S"; bn_map := "s1"; bn_teamName := "A" |}
                    splatoonMapPhase)) = Some true
    ∧ capAfter
        (afterAll [lobby_ban "a"
                     {| bn_lobbyId := "S"; bn_map := "s1"; bn_teamName := "A" |}]
           splatoonMapPhase)
        "b" "canBan"
        (emitted (lobby_ban "a"
                    {| bn_lobbyId := "S"; bn_map := "s2"; bn_teamName := "A" |}
                    (afterAll [lobby_ban "a"
                                 {| bn_lobbyId := "S"; bn_map := "s1";
                                    bn_teamName := "A" |}]
                       splatoonMapPhase))) = Some true.
Proof.
  let stored := eval vm_compute in (lobbies splatoonMapPhase !! "S") in
  match stored with
  | Some ?stored0 => pose (l := stored0)
  end.
  exists l. split; [vm_compute; reflexivity|]. split; [reflexivity|].
  split.
  - destruct (splatoon_first_round_quotas splatoonMapPhase "a"
                {| bn_lobbyId := "S"; bn_map := "s1"; bn_teamName := "A" |} l)
      as (Hkeep & _).
    + vm_compute. reflexivity.
    + reflexivity.
    + reflexivity.
    + apply Hkeep; [reflexivity|]. vm_compute. lia.
  - let stored := eval vm_compute in
      (lobbies (afterAll [lobby_ban "a"
                            {| bn_lobbyId := "S"; bn_map := "s1"; bn_teamName := "A" |}]
                  splatoonMapPhase) !! "S") in
    match stored with
    | Some ?stored0 => pose (l1 := stored0)
    end.
    destruct (splatoon_first_round_quotas
                (afterAll [lobby_ban "a"
                             {| bn_lobbyId := "S"; bn_map := "s1"; bn_teamName := "A" |}]
                   splatoonMapPhase) "a"
                {| bn_lobbyId := "S"; bn_map := "s2"; bn_teamName := "A" |} l1)
      as (_ & Hpass & _).
    + vm_compute. reflexivity.
    + reflexivity.
    + reflexivity.
    + assert (entryId (findOther (priorityTeam l1) (teamNames l1)) = "b") as Hb
        by reflexivity.
      rewrite <- Hb. apply Hpass; [reflexivity|]. vm_compute. lia.
Defined.

(** ** Mode bans *)

Lemma removeFirst_absent (x : string) (arr : list string) :
  x ∉ arr → removeFirst x arr = arr.
Proof.
  induction arr as [|y arr IH]; [done|].
  intros [Hne Hnin]%not_elem_of_cons. cbn.
  rewrite decide_False by congruence. by rewrite IH.
Qed.

Lemma removeFirst_present (x : string) (arr : list string) :
  x ∈ arr → S (length (removeFirst x arr)) = length arr.
Proof.
  induction arr as [|y arr IH]; [by intros ?%elem_of_nil|].
  cbn. destruct (decide (y = x)) as [->|Hne]; [done|].
  intros [?|Hin]%elem_of_cons; [congruence|]. cbn. by rewrite IH.
Qed.

Lemma removeFirst_other (x y : string) (arr : list string) :
  y ≠ x → y ∈ removeFirst x arr ↔ y ∈ arr.
Proof.
  intros Hne. induction arr as [|z arr IH]; [done|].
  cbn. destruct (decide (z = x)) as [->|Hzx].
  - rewrite elem_of_cons. split; [by right|]. by intros [?|?].
  - rewrite !elem_of_cons, IH. done.
Qed.

Section Modes.
Context (ext : Externals).

(** X16.  The Splatoon-only handlers leave FPS lobbies alone:
    [lobby.modeBan], [lobby.modePick] and [lobby.reportWinner] on an FPS
    lobby change nothing and emit nothing (the next-round function is not
    even called); and [lobby.modeBan] does the same on a two-mode
    Splatoon lobby. *)
Theorem mode_actions_ignored (w : World) (sid : string) (data : ModeData) (l : Lobby)
    (startNextRound : string → M unit) :
  lobbies w !! md_lobbyId data = Some l →
  getGameCategory (gameName (rules l)) = fps ∨ modesSize (rules l) = 2 →
  lobby_modeBan ext sid data w = idle w
  ∧ (getGameCategory (gameName (rules l)) = fps →
       lobby_modePick ext sid data w = idle w
       ∧ lobby_reportWinner startNextRound (md_lobbyId data) w = idle w).
Proof.
  intros Hl Hskip. split.
  - unfold lobby_modeBan. mrun. rewrite Hl.
    destruct (bool_decide (getGameCategory (gameName (rules l)) = splatoon)) eqn:Hcat;
      [|done].
    destruct Hskip as [Hfps| ->]; [|done].
    apply bool_decide_eq_true in Hcat. congruence.
  - intros Hfps. unfold lobby_modePick, lobby_reportWinner. mrun.
    rewrite Hl, Hfps. by rewrite (bool_decide_eq_false_2 (fps = splatoon)).
Qed.

(** X17.  A mode ban on a lobby that [createSplatoonLobby] has built (its
    game is "splatoon" and it has a round number, which starts at 1 and
    which no lobby of [createFPSLobby] has), with a mode count other than
    two, is stored without a check of the mode: the entry is appended to
    [bannedModes] and the cursor moves by one in every case; the first
    occurrence of the mode is taken out of [activeModes] when there is
    one, and [activeModes] is left as it is when the mode is not active
    (already banned, or unknown); the other modes stay. *)
Theorem lobby_modeBan_recorded (w : World) (sid : string) (data : ModeData) (l : Lobby) :
  lobbies w !! md_lobbyId data = Some l →
  getGameCategory (gameName (rules l)) = splatoon →
  1 ≤ roundNumber (rules l) →
  modesSize (rules l) ≠ 2 →
  let o := lobby_modeBan ext sid data w in
  completion o = Normal tt
  ∧ ∃ l', lobbies (final o) = <[md_lobbyId data := l']> (lobbies w)
          ∧ bannedModes l' = bannedModes l ++ [modeBanEntry ext data]
          ∧ gameStep l' = gameStep l + 1
          ∧ activeModes (rules l') = removeFirst (md_mode data) (activeModes (rules l))
          ∧ (md_mode data ∉ activeModes (rules l) →
               activeModes (rules l') = activeModes (rules l))
          ∧ (md_mode data ∈ activeModes (rules l) →
               S (length (activeModes (rules l'))) = length (activeModes (rules l)))
          ∧ (∀ m, m ≠ md_mode data →
               m ∈ activeModes (rules l') ↔ m ∈ activeModes (rules l))
          ∧ pickedMaps l' = pickedMaps l ∧ bannedMaps l' = bannedMaps l
          ∧ members l' = members l ∧ teamNames l' = teamNames l
          ∧ last (emitted o)
            = Some {| target := To (md_lobbyId data); event := "modesUpdated";
                      payload := PModes (bannedModes l') (activeModes (rules l'))
                                   (modesSize (rules l)) |}.
Proof.
  intros Hl Hcat _ Hsize o. subst o. apply Z.eqb_neq in Hsize.
  unfold lobby_modeBan, modeBanEntry. mrun. rewrite Hl, Hcat.
  rewrite (bool_decide_eq_true_2 (splatoon = splatoon)) by done. cbn [negb].
  rewrite Hsize. mrun.
  assert (md_mode data ∉ activeModes (rules l) →
          removeFirst (md_mode data) (activeModes (rules l)) = activeModes (rules l))
    as Habsent by apply removeFirst_absent.
  assert (md_mode data ∈ activeModes (rules l) →
          S (length (removeFirst (md_mode data) (activeModes (rules l))))
          = length (activeModes (rules l)))
    as Hpresent by apply removeFirst_present.
  assert (∀ m, m ≠ md_mode data →
          m ∈ removeFirst (md_mode data) (activeModes (rules l))
          ↔ m ∈ activeModes (rules l))
    as Hother by (intros m Hm; by apply removeFirst_other).
  destruct (1 <? roundNumber (rules l)); mrun.
  - destruct (bool_decide (Some (md_teamName data) = lastWinner (rules l))); mrun;
      (split; [done|]; eexists; split; [by rewrite ?insert_insert_eq|];
       mrun; split_and!; done).
  - destruct (bool_decide (length _ = 2%nat)); mrun;
      [destruct (bool_decide (_ = Some (md_teamName data))); mrun|];
      (split; [done|]; eexists; split; [by rewrite ?insert_insert_eq|];
       mrun; split_and!; done).
Qed.

End Modes.

Lemma mode_actions_ignored_witness :
  ∃ l : Lobby,
    lobbies bo3Start !! "L" = Some l
    ∧ getGameCategory (gameName (rules l)) = fps
    ∧ lobby_modeBan specExternals "a" (modeOf "L" "tower" "A") bo3Start = idle bo3Start
    ∧ lobby_modePick specExternals "a" (modeOf "L" "tower" "A") bo3Start = idle bo3Start.
Proof.
  let stored := eval vm_compute in (lobbies bo3Start !! "L") in
  match stored with
  | Some ?stored0 => pose (l := stored0)
  end.
  destruct (mode_actions_ignored specExternals bo3Start "a" (modeOf "L" "tower" "A") l
              (λ _, mret tt))
    as [Hban Hrest].
  - vm_compute. reflexivity.
  - left. reflexivity.
  - destruct Hrest as [Hpick _]; [reflexivity|].
    exists l. split; [vm_compute; reflexivity|]. split; [reflexivity|].
    split; [exact Hban|exact Hpick].
Defined.

Lemma lobby_modeBan_recorded_witness :
  ∃ l l' : Lobby,
    lobbies splatoonModePhase !! "S" = Some l
    ∧ activeModes (rules l) = ["tower"; "zones"; "rainmaker"; "clams"]
    ∧ roundNumber (rules l) = 1
    ∧ lobbies (final (lobby_modeBan specExternals "a" (modeOf "S" "turf" "A")
                        splatoonModePhase)) !! "S" = Some l'
    ∧ activeModes (rules l') = ["tower"; "zones"; "rainmaker"; "clams"]
    ∧ length (bannedModes l') = 1%nat
    ∧ gameStep l' = 1.
Proof.
  let stored := eval vm_compute in (lobbies splatoonModePhase !! "S") in
  match stored with
  | Some ?stored0 => pose (l := stored0)
  end.
  destruct (lobby_modeBan_recorded specExternals splatoonModePhase "a"
              (modeOf "S" "turf" "A") l)
    as (_ & l' & Hstore & Hbanned & Hstep & _ & Habsent & _).
  - vm_compute. reflexivity.
  - reflexivity.
  - cbn. lia.
  - cbn. lia.
  - exists l, l'. split; [vm_compute; reflexivity|]. split; [reflexivity|].
    split; [reflexivity|].
    split; [rewrite Hstore; apply lookup_insert_eq|].
    split.
    + rewrite Habsent; [reflexivity|]. apply (bool_decide_unpack _). vm_compute. exact I.
    + split; [by rewrite Hbanned|exact Hstep].
Defined.

(** ** Deleting a lobby *)

Lemma evicted_idem (id : string) (s : Socket) :
  evicted id (evicted id s) = evicted id s.
Proof.
  unfold evicted. cbn. f_equal.
  - set_solver.
  - apply JsSet_delete_idem.
Qed.

Lemma evict_run (id m : string) (w : World) :
  evict id m w =
    {| completion := Normal tt;
       final := set_sockets (match sockets w !! m with
                             | Some s => <[m := evicted id s]> (sockets w)
                             | None => sockets w
                             end) w;
       emitted := [] |}.
Proof.
  unfold evict. mrun. destruct (sockets w !! m); [done|]. by destruct w.
Qed.

Lemma forEach_evict (id : string) (ms : list string) (w : World) :
  completion (forEach (evict id) ms w) = Normal tt
  ∧ emitted (forEach (evict id) ms w) = []
  ∧ lobbies (final (forEach (evict id) ms w)) = lobbies w
  ∧ ∀ k, sockets (final (forEach (evict id) ms w)) !! k =
           if decide (k ∈ ms) then evicted id <$> sockets w !! k else sockets w !! k.
Proof.
  revert w. induction ms as [|m ms IH]; intros w.
  - cbn. split_and!; done.
  - cbn [forEach]. unfold mbind, M_bind. rewrite evict_run.
    rewrite completion_after, emitted_after, final_after.
    destruct (IH (set_sockets (match sockets w !! m with
                               | Some s => <[m := evicted id s]> (sockets w)
                               | None => sockets w
                               end) w)) as (Hc & He & Hl & Hs).
    split_and!; [exact Hc|by rewrite He|by rewrite Hl|].
    intros k. rewrite Hs. cbn [sockets set_sockets].
    destruct (decide (k = m)) as [->|Hne].
    + rewrite (decide_True (P := m ∈ m :: ms)) by apply list_elem_of_here.
      destruct (sockets w !! m) as [s|] eqn:Hm.
      * rewrite lookup_insert_eq. cbn. destruct (decide (m ∈ ms)); [|done].
        by rewrite evicted_idem.
      * rewrite Hm. by destruct (decide (m ∈ ms)).
    + assert (sockets (set_sockets (match sockets w !! m with
                                    | Some s => <[m := evicted id s]> (sockets w)
                                    | None => sockets w
                                    end) w) !! k = sockets w !! k) as Hk.
      { cbn. destruct (sockets w !! m); [by rewrite lookup_insert_ne|done]. }
      cbn [sockets set_sockets] in Hk. rewrite Hk.
      destruct (decide (k ∈ ms)) as [Hin|Hnin].
      * rewrite decide_True; [done|]. by apply list_elem_of_further.
      * rewrite decide_False; [done|]. intros [?|?]%elem_of_cons; done.
Qed.

(** X18.  [admin.delete] of a stored lobby removes it from the store and
    answers with [lobbyDeleted] to the room and [lobbiesUpdated] to all.
    The connected members leave the room and forget the lobby; every other
    connection is left as it is, so an observer that is not a member stays
    subscribed to the room of the deleted lobby. *)
Theorem admin_delete_effect (w : World) (id : string) (l : Lobby) :
  lobbies w !! id = Some l →
  let o := admin_delete id w in
  completion o = Normal tt
  ∧ lobbies (final o) = delete id (lobbies w)
  ∧ emitted o = [lobbyDeleted id; lobbiesUpdated]
  ∧ (∀ k, sockets (final o) !! k =
          if decide (k ∈ members l) then evicted id <$> sockets w !! k
          else sockets w !! k)
  ∧ (∀ k, k ∈ members l → k ≠ id → receives (final o) k (To id) = false)
  ∧ (∀ k, k ∉ members l → receives (final o) k (To id) = receives w k (To id)).
Proof.
  intros Hl o. subst o. unfold admin_delete. mrun. rewrite Hl. mrun.
  destruct (forEach_evict id (members l) w) as (Hc & He & Hls & Hs).
  destruct (forEach (evict id) (members l) w) as [c w' evs] eqn:Hrun.
  cbn [completion final emitted] in Hc, He, Hls, Hs. subst c evs. mrun.
  split; [done|]. split; [by rewrite Hls|]. split; [done|]. split; [exact Hs|].
  assert (∀ k, getSocket k (set_lobbies (delete id (lobbies w')) w') =
               if decide (k ∈ members l) then from_option (evicted id) newSocket (sockets w !! k)
               else getSocket k w) as Hget.
  { intros k. unfold getSocket. cbn [sockets set_lobbies]. rewrite Hs.
    destruct (decide (k ∈ members l)); [|done]. by destruct (sockets w !! k). }
  split.
  - intros k Hin Hne. unfold receives. rewrite Hget, decide_True by done.
    apply bool_decide_eq_false. intros [?|Hroom]; [done|].
    destruct (sockets w !! k); cbn in Hroom; set_solver.
  - intros k Hnin. unfold receives. by rewrite Hget, decide_False.
Qed.

Lemma admin_delete_effect_witness :
  ∃ l : Lobby,
    lobbies watchedWorld !! "L" = Some l
    ∧ members l = ["a"] ∧ observers l = ["o"; "p"]
    ∧ lobbies (final (admin_delete "L" watchedWorld)) !! "L" = None
    ∧ receives watchedWorld "a" (To "L") = true
    ∧ receives (final (admin_delete "L" watchedWorld)) "a" (To "L") = false
    ∧ receives (final (admin_delete "L" watchedWorld)) "o" (To "L") = true.
Proof.
  let stored := eval vm_compute in (lobbies watchedWorld !! "L") in
  match stored with
  | Some ?stored0 => pose (l := stored0)
  end.
  destruct (admin_delete_effect watchedWorld "L" l) as (_ & Hstore & _ & _ & Hout & Hkeep).
  - vm_compute. reflexivity.
  - exists l. split; [vm_compute; reflexivity|]. split; [reflexivity|].
    split; [reflexivity|]. split; [rewrite Hstore; apply lookup_delete_eq|].
    split; [vm_compute; reflexivity|]. split.
    + apply Hout; [by left|done].
    + rewrite Hkeep; [vm_compute; reflexivity|].
      apply (bool_decide_unpack _). vm_compute. exact I.
Defined.

(** ** Settings and the lobbies made after them *)

Section Settings.
Context (ext : Externals).

(** X19.  [admin.coinFlipUpdate] changes the default only: the stored
    lobbies keep their flag, every connection is told the new value, and
    a lobby made afterwards has the flag of its request, or the new
    default when the request carries none. *)
Theorem coinFlip_default_applies (w : World) (sid : string) (b : bool)
    (data : CreateFPSLobbyData) (sdata : CreateSplatoonLobbyData)
    (maps : list string) :
  ¬ rejected data →
  lobbies w !! cf_lobbyId data = None →
  lobbies w !! cs_lobbyId sdata = None →
  sourceMapPool w data = Some maps →
  let o := admin_coinFlipUpdate b w in
  lobbies (final o) = lobbies w
  ∧ sockets (final o) = sockets w
  ∧ emitted o = [{| target := Everyone; event := "coinFlipUpdated";
                    payload := PBool b |}]
  ∧ (∃ l, lobbies (final (createFPSLobby ext sid data (final o))) !! cf_lobbyId data
          = Some l
          ∧ coinFlip (rules l) = default b (cf_coinFlip data))
  ∧ (∃ l, lobbies (final (createSplatoonLobby ext sid sdata (final o)))
            !! cs_lobbyId sdata = Some l
          ∧ coinFlip (rules l) = default b (cs_coinFlip sdata)).
Proof.
  intros Hvalid Hfree Hsfree Hpool o. subst o.
  unfold admin_coinFlipUpdate. mrun.
  split; [done|]. split; [done|]. split; [done|]. split.
  - rewrite createFPSLobby_free_id; [|exact Hfree|exact Hvalid].
    assert (selectedMapPool (set_globalCoinFlip b w) data
            = Some (Some (if cf_mapPoolSize data =? 4 then take 4 maps else maps)))
      as ->.
    { unfold selectedMapPool, sourceMapPool in *. cbn [mapPool_fps set_globalCoinFlip].
      destruct (cf_customMapPool data); rewrite Hpool;
        by destruct (cf_mapPoolSize data =? 4). }
    cbn [final lobbies set_lobbies]. eexists. split; [apply lookup_insert_eq|]. done.
  - unfold createSplatoonLobby. mrun.
    cbn [lobbies set_globalCoinFlip]. rewrite Hsfree. mrun.
    eexists. split; [apply lookup_insert_eq|]. done.
Qed.

(** X20.  [admin.editFPSMapPool] replaces the pool the later lobbies are
    made from and touches no stored lobby; without an argument the start
    pool is put back.  A lobby made afterwards without a custom pool
    carries the maps of the new pool (its first four for pool size 4). *)
Theorem editFPSMapPool_applies (w : World) (sid : string)
    (startMapPool : gmap string (list string))
    (newMapPool : option (gmap string (list string)))
    (data : CreateFPSLobbyData) (maps : list string) :
  ¬ rejected data →
  lobbies w !! cf_lobbyId data = None →
  cf_customMapPool data = None →
  default startMapPool newMapPool !! cf_gameName data = Some maps →
  let o := admin_editFPSMapPool startMapPool newMapPool w in
  completion o = Normal tt
  ∧ emitted o = []
  ∧ lobbies (final o) = lobbies w
  ∧ mapPool_fps (final o) = default startMapPool newMapPool
  ∧ ∃ l, lobbies (final (createFPSLobby ext sid data (final o))) !! cf_lobbyId data
         = Some l
         ∧ mapNames (rules l)
           = Some (if cf_mapPoolSize data =? 4 then take 4 maps else maps).
Proof.
  intros Hvalid Hfree Hcustom Hpool o. subst o.
  unfold admin_editFPSMapPool, modify. cbn [completion final emitted].
  split; [done|]. split; [done|]. split; [done|]. split; [done|].
  rewrite createFPSLobby_free_id; [|exact Hfree|exact Hvalid].
  assert (selectedMapPool (set_mapPool_fps (default startMapPool newMapPool) w) data
          = Some (Some (if cf_mapPoolSize data =? 4 then take 4 maps else maps)))
    as ->.
  { unfold selectedMapPool, sourceMapPool. rewrite Hcustom.
    cbn [mapPool_fps set_mapPool_fps]. rewrite Hpool.
    by destruct (cf_mapPoolSize data =? 4). }
  cbn [final lobbies set_lobbies]. eexists. split; [apply lookup_insert_eq|]. done.
Qed.

(** X21.  [createSplatoonLobby] on a free id stores a lobby at step 0 and
    round 1 with an empty map list; the two-mode game starts from the
    tower and zones modes and every other size, a missing one too, from
    the whole mode list, with size 4 stored for a missing one.  On a
    taken id it does nothing at all: no lobby is changed and, unlike the
    FPS handler, the sender gets no answer. *)
Theorem createSplatoonLobby_effect (w : World) (sid : string)
    (data : CreateSplatoonLobbyData) :
  let o := createSplatoonLobby ext sid data w in
  completion o = Normal tt
  ∧ (is_Some (lobbies w !! cs_lobbyId data) → final o = w ∧ emitted o = [])
  ∧ (lobbies w !! cs_lobbyId data = None →
       lobbies (final o) = <[cs_lobbyId data := freshSplatoonLobby ext w data]> (lobbies w)
       ∧ emitted o = [{| target := To sid; event := "lobbyCreated";
                         payload := PStr (cs_lobbyId data) |};
                      lobbiesUpdated]
       ∧ getGameCategory (gameName (rules (freshSplatoonLobby ext w data))) = splatoon
       ∧ (cs_modesSize data ≠ Some 2 →
            activeModes (rules (freshSplatoonLobby ext w data)) = splatoon_gameModes ext)
       ∧ (cs_modesSize data = None →
            modesSize (rules (freshSplatoonLobby ext w data)) = 4)).
Proof.
  intros o. subst o. unfold createSplatoonLobby. mrun.
  destruct (lobbies w !! cs_lobbyId data) as [l|] eqn:Hl; mrun.
  - split; [done|]. split; [done|]. intros [=].
  - split; [done|]. split; [by intros [? [=]]|]. intros _.
    split; [done|]. split; [done|]. split; [done|]. split.
    + intros Hsize. unfold freshSplatoonLobby. cbn [activeModes rules].
      by rewrite bool_decide_eq_false_2.
    + intros Hnone. unfold freshSplatoonLobby. cbn [modesSize rules]. by rewrite Hnone.
Qed.

End Settings.

Lemma coinFlip_default_applies_witness :
  ∃ l : Lobby,
    lobbies (final (createFPSLobby specExternals "a"
                      {| cf_lobbyId := "late"; cf_gameName := "cs2"; cf_gameType := bo1;
                         cf_knifeDecider := false; cf_mapPoolSize := 7;
                         cf_customMapPool := None; cf_coinFlip := None;
                         cf_admin := None |}
                      (final (admin_coinFlipUpdate false (lobbyWorld false)))))
      !! "late" = Some l
    ∧ globalCoinFlip (lobbyWorld false) = true
    ∧ coinFlip (rules l) = false.
Proof.
  destruct (coinFlip_default_applies specExternals (lobbyWorld false) "a" false
              {| cf_lobbyId := "late"; cf_gameName := "cs2"; cf_gameType := bo1;
                 cf_knifeDecider := false; cf_mapPoolSize := 7;
                 cf_customMapPool := None; cf_coinFlip := None; cf_admin := None |}
              {| cs_lobbyId := "late"; cs_gameType := bo3; cs_modesSize := None;
                 cs_coinFlip := None; cs_admin := None |}
              ["m1"; "m2"; "m3"; "m4"; "m5"; "m6"; "m7"])
    as (_ & _ & _ & (l & Hl & Hflag) & _).
  - intros [[?|?] _]; done.
  - vm_compute. reflexivity.
  - vm_compute. reflexivity.
  - vm_compute. reflexivity.
  - exists l. split; [exact Hl|]. split; [vm_compute; reflexivity|exact Hflag].
Defined.

Lemma editFPSMapPool_applies_witness :
  ∃ l : Lobby,
    lobbies (final (createFPSLobby specExternals "a" (fpsRequest "late" bo1 4 false)
                      (final (admin_editFPSMapPool ∅
                                (Some {[ "cs2" := ["n1"; "n2"; "n3"; "n4"; "n5"] ]})
                                (lobbyWorld false)))))
      !! "late" = Some l
    ∧ mapNames (rules l) = Some ["n1"; "n2"; "n3"; "n4"]
    ∧ (mapNames <$> (rules <$> lobbies (final (admin_editFPSMapPool ∅
                                (Some {[ "cs2" := ["n1"; "n2"; "n3"; "n4"; "n5"] ]})
                                (lobbyWorld false))) !! "L"))
      = Some (Some ["m1"; "m2"; "m3"; "m4"; "m5"; "m6"; "m7"]).
Proof.
  destruct (editFPSMapPool_applies specExternals (lobbyWorld false) "a" ∅
              (Some {[ "cs2" := ["n1"; "n2"; "n3"; "n4"; "n5"] ]})
              (fpsRequest "late" bo1 4 false) ["n1"; "n2"; "n3"; "n4"; "n5"])
    as (_ & _ & Hkeep & _ & l & Hl & Hmaps).
  - intros [[?|?] _]; done.
  - vm_compute. reflexivity.
  - reflexivity.
  - vm_compute. reflexivity.
  - exists l. split; [exact Hl|]. split; [exact Hmaps|].
    rewrite Hkeep. vm_compute. reflexivity.
Defined.

Lemma createSplatoonLobby_effect_witness :
  is_Some (lobbies (lobbyWorld false) !! "L")
  ∧ final (createSplatoonLobby specExternals "b"
             {| cs_lobbyId := "L"; cs_gameType := bo3; cs_modesSize := Some 4;
                cs_coinFlip := None; cs_admin := None |} (lobbyWorld false))
    = lobbyWorld false
  ∧ lobbies startWorld !! "S" = None
  ∧ activeModes (rules (freshSplatoonLobby specExternals startWorld
                          {| cs_lobbyId := "S"; cs_gameType := bo3; cs_modesSize := Some 3;
                             cs_coinFlip := None; cs_admin := None |}))
    = ["tower"; "zones"; "rainmaker"; "clams"].
Proof.
  assert (is_Some (lobbies (lobbyWorld false) !! "L")) as Htaken
    by (vm_compute; eexists; reflexivity).
  split; [exact Htaken|]. split.
  - destruct (createSplatoonLobby_effect specExternals (lobbyWorld false) "b"
                {| cs_lobbyId := "L"; cs_gameType := bo3; cs_modesSize := Some 4;
                   cs_coinFlip := None; cs_admin := None |}) as (_ & Hsame & _).
    destruct (Hsame Htaken) as [Hfinal _]. exact Hfinal.
  - split; [vm_compute; reflexivity|].
    destruct (createSplatoonLobby_effect specExternals startWorld "a"
                {| cs_lobbyId := "S"; cs_gameType := bo3; cs_modesSize := Some 3;
                   cs_coinFlip := None; cs_admin := None |}) as (_ & _ & Hnew).
    destruct Hnew as (_ & _ & _ & Hmodes & _); [vm_compute; reflexivity|].
    rewrite Hmodes; [reflexivity|done].
Defined.

(** ** The OBS views *)

Section Obs.
Context (ext : Externals).

Lemma replayState_run (room : string) (l : Lobby) (w : World) :
  completion (replayState ext room l w) = Normal tt
  ∧ final (replayState ext room l w) = w
  ∧ bannedReplay room l ∈ emitted (replayState ext room l w)
  ∧ pickedReplay room l ∈ emitted (replayState ext room l w)
  ∧ Forall (λ e, target e = To room) (emitted (replayState ext room l w)).
Proof.
  unfold replayState, bannedReplay, pickedReplay.
  destruct (bool_decide (getGameCategory (gameName (rules l)) = splatoon)); mrun.
  - destruct (pickedMode l); mrun;
      (split_and!; [done|done|by left|by right; left|by repeat constructor]).
  - split_and!; [done|done|by left|by right; left|by repeat constructor].
Qed.

Lemma forEach_replayState (l : Lobby) (obs : list string) (w : World) :
  completion (forEach (λ o, replayState ext o l) obs w) = Normal tt
  ∧ final (forEach (λ o, replayState ext o l) obs w) = w
  ∧ (∀ o, o ∈ obs →
       bannedReplay o l ∈ emitted (forEach (λ o, replayState ext o l) obs w)
       ∧ pickedReplay o l ∈ emitted (forEach (λ o, replayState ext o l) obs w))
  ∧ Forall (λ e, ∃ o, o ∈ obs ∧ target e = To o)
      (emitted (forEach (λ o, replayState ext o l) obs w)).
Proof.
  induction obs as [|x obs IH].
  - cbn. split_and!; try done. intros o Ho. by apply elem_of_nil in Ho.
  - cbn [forEach]. unfold mbind, M_bind.
    destruct (replayState_run x l w) as (Hc & Hf & Hb & Hp & Ht).
    destruct (replayState ext x l w) as [c w' evs].
    cbn [completion final emitted] in Hc, Hf, Hb, Hp, Ht. subst c w'.
    rewrite completion_after, final_after, emitted_after.
    destruct IH as (IHc & IHf & IHin & IHt).
    split_and!; [exact IHc|exact IHf| |].
    + intros o [->|Ho]%elem_of_cons.
      * split; apply elem_of_app; by left.
      * destruct (IHin o Ho). split; apply elem_of_app; by right.
    + apply Forall_app. split.
      * eapply Forall_impl; [exact Ht|]. intros e He. exists x. split; [by left|done].
      * eapply Forall_impl; [exact IHt|]. intros e (o & Ho & He).
        exists o. split; [by right|done].
Qed.

(** X22.  [admin.play_obs] changes nothing in the store and addresses
    the listed observers only, one by one: each of them is sent the
    banned and the picked list the lobby holds at that moment, and a
    connection that hears none of the observers' own rooms receives
    nothing. *)
Theorem admin_play_obs_addresses_observers (w : World) (id : string) (l : Lobby) :
  lobbies w !! id = Some l →
  let o := admin_play_obs ext id w in
  completion o = Normal tt
  ∧ final o = w
  ∧ (∀ obs, obs ∈ observers l →
       bannedReplay obs l ∈ emitted o ∧ pickedReplay obs l ∈ emitted o)
  ∧ (∀ e, e ∈ emitted o → ∃ obs, obs ∈ observers l ∧ target e = To obs)
  ∧ (∀ c, (∀ obs, obs ∈ observers l → receives w c (To obs) = false) →
       ∀ e, e ∈ emitted o → receives w c (target e) = false).
Proof.
  intros Hl o. subst o. unfold admin_play_obs. mrun. rewrite Hl. mrun.
  rewrite completion_after, final_after, emitted_after. cbn [app].
  destruct (forEach_replayState l (observers l) w) as (Hc & Hf & Hin & Ht).
  split; [exact Hc|]. split; [exact Hf|]. split; [exact Hin|].
  rewrite Forall_forall in Ht. split; [exact Ht|].
  intros c Hc' e He. destruct (Ht e He) as (obs & Hobs & ->). by apply Hc'.
Qed.

(** X23.  An OBS view that has sent [joinObsView] receives what
    [admin.setObsLobby] sends: the id of the lobby and then the banned and
    the picked list the lobby holds at that moment.  Everything goes to
    the "obs_views" room and no state is changed. *)
Theorem obs_view_receives_replay (w : World) (sid id : string) (l : Lobby) :
  lobbies w !! id = Some l →
  let w1 := final (joinObsView sid w) in
  let o := admin_setObsLobby ext id w1 in
  lobbies w1 = lobbies w
  ∧ completion o = Normal tt
  ∧ final o = w1
  ∧ head (emitted o) = Some {| target := To "obs_views"; event := "admin.setObsLobby";
                               payload := PStr id |}
  ∧ bannedReplay "obs_views" l ∈ emitted o
  ∧ pickedReplay "obs_views" l ∈ emitted o
  ∧ (∀ e, e ∈ emitted o → target e = To "obs_views" ∧ receives w1 sid (target e) = true).
Proof.
  intros Hl w1 o. subst o w1. unfold joinObsView, admin_setObsLobby, modifySocket, modify.
  cbn [final]. mrun. cbn [lobbies set_sockets]. rewrite Hl. mrun.
  set (w1 := set_sockets _ w).
  rewrite completion_after, final_after, emitted_after. cbn [app head].
  destruct (replayState_run "obs_views" l w1) as (Hc & Hf & Hb & Hp & Ht).
  destruct (replayState ext "obs_views" l w1) as [c w' evs].
  cbn [completion final emitted] in *. subst c w'.
  split; [done|]. split; [done|]. split; [done|]. split; [done|].
  split; [by right|]. split; [by right|].
  assert (receives w1 sid (To "obs_views") = true) as Hrecv.
  { unfold receives. apply bool_decide_eq_true. right. subst w1.
    rewrite getSocket_insert. cbn. set_solver. }
  rewrite Forall_forall in Ht.
  intros e [->|He]%elem_of_cons; [done|]. rewrite (Ht e He). done.
Qed.

End Obs.

Lemma admin_play_obs_addresses_observers_witness :
  ∃ l : Lobby,
    lobbies watchedWorld !! "L" = Some l
    ∧ observers l = ["o"; "p"]
    ∧ bannedMaps l = [FpsBanned "m1" "A"]
    ∧ bannedReplay "p" l ∈ emitted (admin_play_obs specExternals "L" watchedWorld)
    ∧ final (admin_play_obs specExternals "L" watchedWorld) = watchedWorld.
Proof.
  let stored := eval vm_compute in (lobbies watchedWorld !! "L") in
  match stored with
  | Some ?stored0 => pose (l := stored0)
  end.
  destruct (admin_play_obs_addresses_observers specExternals watchedWorld "L" l)
    as (_ & Hfinal & Hin & _).
  - vm_compute. reflexivity.
  - exists l. split; [vm_compute; reflexivity|]. split; [reflexivity|].
    split; [reflexivity|]. split; [|exact Hfinal].
    destruct (Hin "p") as [Hb _]; [|exact Hb].
    apply (bool_decide_unpack _). vm_compute. exact I.
Defined.

Lemma obs_view_receives_replay_witness :
  ∃ l : Lobby,
    lobbies watchedWorld !! "L" = Some l
    ∧ bannedMaps l = [FpsBanned "m1" "A"]
    ∧ bannedReplay "obs_views" l
      ∈ emitted (admin_setObsLobby specExternals "L" (final (joinObsView "o" watchedWorld)))
    ∧ receives (final (joinObsView "o" watchedWorld)) "o" (To "obs_views") = true.
Proof.
  let stored := eval vm_compute in (lobbies watchedWorld !! "L") in
  match stored with
  | Some ?stored0 => pose (l := stored0)
  end.
  destruct (obs_view_receives_replay specExternals watchedWorld "o" "L" l)
    as (_ & _ & _ & _ & Hb & _ & Hall).
  - vm_compute. reflexivity.
  - exists l. split; [vm_compute; reflexivity|]. split; [reflexivity|].
    split; [exact Hb|]. destruct (Hall _ Hb) as [_ Hrecv]. exact Hrecv.
Defined.

(** ** The queries *)

(** X24.  The two queries change nothing and answer the sender alone
    with one event: [getLobbyGameCategory] with the category of the game
    of the lobby, or [lobbyNotFound] for an unknown id;
    [obs.getCurrentPickedMode] with the picked mode of a Splatoon lobby
    and with [null] in every other case, an unknown id and an FPS lobby
    included. *)
Theorem queries_read_only (w : World) (sid id : string) :
  final (getLobbyGameCategory sid id w) = w
  ∧ final (obs_getCurrentPickedMode sid id w) = w
  ∧ emitted (getLobbyGameCategory sid id w)
    = [match lobbies w !! id with
       | Some l => {| target := To sid; event := "lobbyGameCategory";
                      payload := PStr (categoryName
                                         (getGameCategory (gameName (rules l)))) |}
       | None => {| target := To sid; event := "lobbyNotFound"; payload := PNone |}
       end]
  ∧ (∃ p, emitted (obs_getCurrentPickedMode sid id w)
          = [{| target := To sid; event := "currentPickedMode"; payload := p |}]
          ∧ (p ≠ PNone →
             ∃ l m, lobbies w !! id = Some l
                    ∧ getGameCategory (gameName (rules l)) = splatoon
                    ∧ pickedMode l = Some m ∧ p = PMode m))
  ∧ (∀ c, receives w c (To sid) = false →
       Forall (λ e, receives w c (target e) = false)
         (emitted (getLobbyGameCategory sid id w)
          ++ emitted (obs_getCurrentPickedMode sid id w))).
Proof.
  unfold getLobbyGameCategory, obs_getCurrentPickedMode. mrun.
  destruct (lobbies w !! id) as [l|]; mrun.
  - destruct (bool_decide (getGameCategory (gameName (rules l)) = splatoon)) eqn:Hcat;
      [destruct (pickedMode l) as [m|] eqn:Hmode|]; mrun;
      (split; [done|]; split; [done|]; split; [done|]; split;
       [eexists; split; [done|]|by intros c Hc; repeat constructor]).
    + intros _. exists l, m. by apply bool_decide_eq_true in Hcat.
    + done.
    + done.
  - split; [done|]. split; [done|]. split; [done|]. split.
    + eexists. split; [done|]. done.
    + intros c Hc. by repeat constructor.
Qed.

Lemma forEach_emit (f : string → Emit) (xs : list string) (w : World) :
  forEach (λ x, emit (target (f x)) (event (f x)) (payload (f x))) xs w
  = {| completion := Normal tt; final := w; emitted := f <$> xs |}.
Proof.
  induction xs as [|x xs IH]; [done|].
  cbn [forEach]. mrun. rewrite IH. mrun. rewrite fmap_cons. by destruct (f x).
Qed.

(** X25.  [admin.clear_obs] changes nothing and sends one
    [backend.clear_obs] to each listed observer, in the order of the
    list, and nothing else. *)
Theorem admin_clear_obs_addresses_observers (w : World) (id : string) (l : Lobby) :
  lobbies w !! id = Some l →
  admin_clear_obs id w
  = {| completion := Normal tt; final := w;
       emitted := (λ obs, {| target := To obs; event := "backend.clear_obs";
                             payload := PNone |}) <$> observers l |}.
Proof.
  intros Hl. unfold admin_clear_obs. mrun. rewrite Hl. mrun.
  rewrite (forEach_emit (λ obs, {| target := To obs; event := "backend.clear_obs";
                                   payload := PNone |})).
  done.
Qed.

Lemma admin_clear_obs_addresses_observers_witness :
  ∃ l : Lobby,
    lobbies watchedWorld !! "L" = Some l
    ∧ members l = ["a"]
    ∧ emitted (admin_clear_obs "L" watchedWorld)
      = [{| target := To "o"; event := "backend.clear_obs"; payload := PNone |};
         {| target := To "p"; event := "backend.clear_obs"; payload := PNone |}].
Proof.
  let stored := eval vm_compute in (lobbies watchedWorld !! "L") in
  match stored with
  | Some ?stored0 => pose (l := stored0)
  end.
  exists l. split; [vm_compute; reflexivity|]. split; [reflexivity|].
  rewrite (admin_clear_obs_addresses_observers watchedWorld "L" l);
    [reflexivity|vm_compute; reflexivity].
Defined.

(** ** The start of a pick *)

(** X26.  [lobby.startPick] never touches the store: it keeps the chosen
    map with the sender's socket (an index outside the pool gives an
    undefined map and is not refused) and opens the side choice: in BO1
    at the sender, in the longer formats at the other team, and whoever
    does not choose is told to wait.  No capability is switched on. *)
Theorem lobby_startPick_routing (w : World) (sid : string) (data : StartPickData)
    (l : Lobby) (maps : list string) :
  lobbies w !! sp_lobbyId data = Some l →
  mapNames (rules l) = Some maps →
  let o := lobby_startPick sid data w in
  let other := otherSocketId (sp_teamName data) l in
  let chooser := if bool_decide (gameType (rules l) = bo1) then sid else other in
  let waiting := if bool_decide (gameType (rules l) = bo1) then other else sid in
  completion o = Normal tt
  ∧ lobbies (final o) = lobbies w
  ∧ data_pickedMap (getSocket sid (final o))
    = Some (jsIndex maps (sp_selectedMapIndex data), sp_teamName data)
  ∧ emitted o = [{| target := To chooser; event := "backend.startPick";
                    payload := PNum (sp_selectedMapIndex data) |};
                 capEvent waiting "canWorkUpdated" false;
                 capEvent waiting "canPick" false]
  ∧ capAfter w waiting "canPick" (emitted o) = Some false
  ∧ (∀ c cap, capAfter w c cap (emitted o) ≠ Some true).
Proof.
  intros Hl Hmaps o other chooser waiting. subst o other chooser waiting.
  unfold lobby_startPick, otherSocketId. mrun. rewrite Hl. mrun. rewrite Hmaps. mrun.
  generalize (entryId (findOther (Some (sp_teamName data)) (teamNames l))).
  intros other.
  generalize (if bool_decide (gameType (rules l) = bo1) then other else sid).
  generalize (if bool_decide (gameType (rules l) = bo1) then sid else other).
  intros chooser waiting.
  split; [done|]. split; [done|]. split; [by rewrite getSocket_insert|].
  split; [done|]. split.
  - unfold capAfter. cbn. unfold capValue. cbn. rewrite receives_self. cbn.
    by destruct (receives w waiting (To waiting) && bool_decide ("canWorkUpdated" = "canPick")).
  - intros c cap. unfold capAfter. cbn. unfold capValue. cbn.
    destruct (receives w c (To waiting) && bool_decide ("canWorkUpdated" = cap));
      destruct (receives w c (To waiting) && bool_decide ("canPick" = cap)); cbn; done.
Qed.

Lemma lobby_startPick_routing_witness :
  ∃ l : Lobby,
    lobbies bo3FirstPick !! "L" = Some l
    ∧ gameType (rules l) = bo3
    ∧ data_pickedMap (getSocket "b" (final (lobby_startPick "b" (startPickOf "B" 9)
                                              bo3FirstPick)))
      = Some (None, "B")
    ∧ emitted (lobby_startPick "b" (startPickOf "B" 3) bo3FirstPick)
      = [{| target := To "a"; event := "backend.startPick"; payload := PNum 3 |};
         capEvent "b" "canWorkUpdated" false;
         capEvent "b" "canPick" false].
Proof.
  let stored := eval vm_compute in (lobbies bo3FirstPick !! "L") in
  match stored with
  | Some ?stored0 => pose (l := stored0)
  end.
  exists l. split; [vm_compute; reflexivity|]. split; [reflexivity|]. split.
  - destruct (lobby_startPick_routing bo3FirstPick "b" (startPickOf "B" 9) l
                ["m1"; "m2"; "m3"; "m4"; "m5"; "m6"; "m7"])
      as (_ & _ & Hkept & _); [vm_compute; reflexivity|reflexivity|].
    rewrite Hkept. reflexivity.
  - destruct (lobby_startPick_routing bo3FirstPick "b" (startPickOf "B" 3) l
                ["m1"; "m2"; "m3"; "m4"; "m5"; "m6"; "m7"])
      as (_ & _ & _ & Hsent & _); [vm_compute; reflexivity|reflexivity|].
    rewrite Hsent. reflexivity.
Defined.

(** ** Team names *)

Lemma JsMap_get_set (k v : string) (m : list (string * string)) :
  JsMap.get k (JsMap.set k v m) = Some v.
Proof.
  unfold JsMap.get. induction m as [|[k' v'] m IH]; cbn.
  - by rewrite bool_decide_eq_true_2.
  - destruct (decide (k' = k)) as [->|Hne]; cbn.
    + by rewrite bool_decide_eq_true_2.
    + by rewrite bool_decide_eq_false_2.
Qed.

Lemma JsMap_get_set_ne (k k' v : string) (m : list (string * string)) :
  k' ≠ k → JsMap.get k' (JsMap.set k v m) = JsMap.get k' m.
Proof.
  intros Hne. unfold JsMap.get. induction m as [|[k0 v0] m IH]; cbn.
  - by rewrite bool_decide_eq_false_2.
  - destruct (decide (k0 = k)) as [->|Hk0]; cbn.
    + rewrite !bool_decide_eq_false_2 by congruence. done.
    + destruct (bool_decide (k0 = k')); [done|exact IH].
Qed.

Lemma JsMap_set_size (k v : string) (m : list (string * string)) :
  JsMap.size (JsMap.set k v m)
  = if decide (k ∈ JsMap.keys m) then JsMap.size m else JsMap.size m + 1.
Proof.
  unfold JsMap.size.
  assert (length (JsMap.set k v m) = length (JsMap.keys (JsMap.set k v m))) as ->
    by (unfold JsMap.keys; by rewrite length_fmap).
  rewrite JsMap_set_keys. unfold JsMap.keys.
  destruct (decide (k ∈ m.*1)).
  - by rewrite length_fmap.
  - rewrite length_app, length_fmap. cbn. lia.
Qed.

Lemma after_nil {A} (o : Outcome A) : after [] o = o.
Proof. by destruct o. Qed.

Section TeamNames.
Context (ext : Externals).

(** X27.  [lobby.teamName] binds the sanitized name to the sender's
    connection and leaves the names of the other connections as they
    are; the sender need not be a member of the lobby.  In an admin lobby
    that is all: the room is told the new names and the game is not
    started, however many names there are. *)
Theorem lobby_teamName_admin_lobby (w : World) (sid : string) (data : TeamNameData)
    (l : Lobby) :
  lobbies w !! tn_lobbyId data = Some l →
  admin (rules l) = true →
  let l' := named ext sid data l in
  JsMap.get sid (teamNames l') = Some (sanitizeInput ext (tn_teamName data))
  ∧ (∀ k, k ≠ sid → JsMap.get k (teamNames l') = JsMap.get k (teamNames l))
  ∧ members l' = members l
  ∧ lobby_teamName ext sid data w
    = {| completion := Normal tt;
         final := set_lobbies (<[tn_lobbyId data := l']> (lobbies w)) w;
         emitted := [teamNamesUpdated (tn_lobbyId data) l'] |}.
Proof.
  intros Hl Hadmin l'. subst l'. unfold named. mrun.
  split; [apply JsMap_get_set|]. split; [intros k Hk; by apply JsMap_get_set_ne|].
  split; [done|].
  unfold lobby_teamName. mrun. rewrite Hl. mrun. rewrite Hadmin. mrun. done.
Qed.

(** X28.  In a lobby without admin that has two team names, a connection
    that already has one of them and sends [lobby.teamName] again keeps
    the count at two, so [startGame] runs once more, whatever the step of
    the ceremony; a third connection raises the count to three and only
    the new names are announced. *)
Theorem lobby_teamName_rename_restarts (w : World) (sid : string) (data : TeamNameData)
    (l : Lobby) :
  lobbies w !! tn_lobbyId data = Some l →
  admin (rules l) = false →
  JsMap.size (teamNames l) = 2 →
  let id := tn_lobbyId data in
  let l' := named ext sid data l in
  let w' := set_lobbies (<[id := l']> (lobbies w)) w in
  (sid ∈ JsMap.keys (teamNames l) →
     JsMap.keys (teamNames l') = JsMap.keys (teamNames l)
     ∧ lobby_teamName ext sid data w
       = after [teamNamesUpdated id l'] (startGame ext id w'))
  ∧ (sid ∉ JsMap.keys (teamNames l) →
     JsMap.size (teamNames l') = 3
     ∧ lobby_teamName ext sid data w
       = {| completion := Normal tt; final := w';
            emitted := [teamNamesUpdated id l'] |}).
Proof.
  intros Hl Hadmin Hsize id l' w'. subst id l' w'. unfold named. mrun.
  pose proof (JsMap_set_size sid (sanitizeInput ext (tn_teamName data)) (teamNames l))
    as Hset.
  pose proof (JsMap_set_keys sid (sanitizeInput ext (tn_teamName data)) (teamNames l))
    as Hkeys.
  split; intros Hin.
  - rewrite decide_True in Hset by exact Hin.
    rewrite decide_True in Hkeys by exact Hin. split; [exact Hkeys|].
    unfold lobby_teamName. mrun. rewrite Hl. mrun. rewrite Hadmin, Hset, Hsize.
    change (negb false && (2 =? 2)) with true. cbn [when].
    by rewrite !after_nil.
  - rewrite decide_False in Hset by exact Hin. split; [lia|].
    unfold lobby_teamName. mrun. rewrite Hl. mrun. rewrite Hadmin, Hset, Hsize.
    change (negb false && (2 + 1 =? 2)) with false. mrun. done.
Qed.

End TeamNames.

Lemma lobby_teamName_admin_lobby_witness :
  ∃ l : Lobby,
    lobbies crowdedWorld !! "L" = Some l
    ∧ admin (rules l) = true
    ∧ teamNames l = [("a", "A"); ("b", "B"); ("c", "C")]
    ∧ emitted (lobby_teamName specExternals "b" {| tn_lobbyId := "L"; tn_teamName := "Bees" |}
                 crowdedWorld)
      = [{| target := To "L"; event := "teamNamesUpdated";
            payload := PEntries [("a", "A"); ("b", "Bees"); ("c", "C")] |}].
Proof.
  let stored := eval vm_compute in (lobbies crowdedWorld !! "L") in
  match stored with
  | Some ?stored0 => pose (l := stored0)
  end.
  exists l. split; [vm_compute; reflexivity|]. split; [reflexivity|].
  split; [reflexivity|].
  destruct (lobby_teamName_admin_lobby specExternals crowdedWorld "b"
              {| tn_lobbyId := "L"; tn_teamName := "Bees" |} l)
    as (_ & _ & _ & Hrun); [vm_compute; reflexivity|reflexivity|].
  rewrite Hrun. reflexivity.
Defined.

Lemma lobby_teamName_rename_restarts_witness :
  ∃ l : Lobby,
    lobbies bo3FirstPick !! "L" = Some l
    ∧ admin (rules l) = false
    ∧ teamNames l = [("a", "A"); ("b", "B")]
    ∧ gameStep l = 3
    ∧ lobby_teamName specExternals "a" {| tn_lobbyId := "L"; tn_teamName := "Ants" |}
        bo3FirstPick
      = after [teamNamesUpdated "L"
                 (named specExternals "a" {| tn_lobbyId := "L"; tn_teamName := "Ants" |} l)]
          (startGame specExternals "L"
             (set_lobbies
                (<["L" := named specExternals "a"
                            {| tn_lobbyId := "L"; tn_teamName := "Ants" |} l]>
                   (lobbies bo3FirstPick))
                bo3FirstPick)).
Proof.
  let stored := eval vm_compute in (lobbies bo3FirstPick !! "L") in
  match stored with
  | Some ?stored0 => pose (l := stored0)
  end.
  exists l. split; [vm_compute; reflexivity|]. split; [reflexivity|].
  split; [reflexivity|]. split; [reflexivity|].
  destruct (lobby_teamName_rename_restarts specExternals bo3FirstPick "a"
              {| tn_lobbyId := "L"; tn_teamName := "Ants" |} l)
    as [Hrename _]; [vm_compute; reflexivity|reflexivity|reflexivity|].
  destruct Hrename as [_ Hrun]; [|exact Hrun].
  apply (bool_decide_unpack _). vm_compute. exact I.
Defined.

(** ** The start of a Splatoon game *)

Section Start.
Context (ext : Externals).

(** X29.  [admin.start] on a Splatoon lobby, after the start function of
    the Splatoon module has run: the room is told that all five controls
    are off and is sent the modes last.  With the coin flip on, or
    without any team name, nothing is switched on and no timer is set.
    With the coin flip off, the connection of the first team name is told
    it may act, and its [canModeBan] is not sent at once but left with a
    timer of 100 ms. *)
Theorem startGame_splatoon_controls (w : World) (id : string) (l l1 : Lobby) :
  lobbies w !! id = Some l →
  getGameCategory (gameName (rules l)) = splatoon →
  completion (splatoon_startGame ext id w) = Normal tt →
  lobbies (final (splatoon_startGame ext id w)) !! id = Some l1 →
  let o := admin_start ext id w in
  let w1 := final (splatoon_startGame ext id w) in
  let first := from_option fst "" (head (teamNames l1)) in
  ∃ tail,
    emitted o = emitted (splatoon_startGame ext id w) ++ tail
    ∧ completion o = Normal tt
    ∧ lobbies (final o) = lobbies w1
    ∧ last tail = Some {| target := To id; event := "modesUpdated";
                          payload := PModes (bannedModes l1) (activeModes (rules l1))
                                       (modesSize (rules l1)) |}
    ∧ (∀ cap, cap ∈ controls → capEvent id cap false ∈ tail)
    ∧ (coinFlip (rules l1) = true ∨ first = "" →
         timers (final o) = timers w1
         ∧ ∀ c cap, capAfter w1 c cap tail ≠ Some true)
    ∧ (coinFlip (rules l1) = false → first ≠ "" →
         timers (final o) = timers w1 ++ [(100%nat, capEvent first "canModeBan" true)]
         ∧ capAfter w1 first "canWorkUpdated" tail = Some true
         ∧ ∀ c, capAfter w1 c "canModeBan" tail ≠ Some true).
Proof.
  intros Hl Hcat Hc Hl1 o w1 first. subst o w1 first.
  unfold admin_start, startGame, reread. mrun. rewrite Hl. rewrite Hcat.
  destruct (decide (splatoon = splatoon)) as [_|]; [|done]. mrun.
  destruct (splatoon_startGame ext id w) as [c w1 pre].
  cbn [completion final emitted] in Hc, Hl1 |- *. subst c. mrun.
  rewrite Hl1. cbn [from_option Datatypes.id]. mrun.
  assert (∀ cap, cap ∈ controls →
            cap = "canWorkUpdated" ∨ cap = "canBan" ∨ cap = "canPick"
            ∨ cap = "canModeBan" ∨ cap = "canModePick") as Hcontrols.
  { intros cap Hin. unfold controls in Hin. set_solver. }
  destruct (coinFlip (rules l1)) eqn:Hflip; mrun.
  - eexists. split; [reflexivity|]. split; [done|]. split; [done|]. split; [done|].
    split.
    { intros cap [->|[->|[->|[->| ->]]]]%Hcontrols; unfold capEvent; set_solver. }
    split; [|by intros [=]]. intros _. split; [done|].
    intros c cap. unfold capAfter. cbn. unfold capValue. cbn.
    destruct (receives w1 c (To id)); cbn;
      repeat (case_bool_decide; cbn); done.
  - destruct (bool_decide (from_option fst "" (head (teamNames l1)) = "")) eqn:Hfirst;
      mrun.
    + apply bool_decide_eq_true in Hfirst.
      eexists. split; [reflexivity|]. split; [done|]. split; [done|]. split; [done|].
      split.
      { intros cap [->|[->|[->|[->| ->]]]]%Hcontrols; unfold capEvent; set_solver. }
      split; [|by intros _ ?]. intros _. split; [done|].
      intros c cap. unfold capAfter. cbn. unfold capValue. cbn.
      destruct (receives w1 c (To id)); cbn;
        repeat (case_bool_decide; cbn); done.
    + apply bool_decide_eq_false in Hfirst.
      eexists. split; [reflexivity|]. split; [done|]. split; [done|]. split; [done|].
      split.
      { intros cap [->|[->|[->|[->| ->]]]]%Hcontrols; unfold capEvent; set_solver. }
      split; [by intros [[=]|?]|]. intros _ _. split; [done|]. split.
      * unfold capAfter. cbn. unfold capValue. cbn. rewrite receives_self. cbn.
        destruct (receives w1 _ (To id)); cbn; done.
      * intros c. unfold capAfter. cbn. unfold capValue. cbn.
        destruct (receives w1 c (To id)); destruct (receives w1 c (To _)); cbn; done.
Qed.

End Start.

Lemma startGame_splatoon_controls_witness :
  ∃ l1 : Lobby,
    lobbies (final (specSplatoonStartGame "S" splatoonModePhase)) !! "S" = Some l1
    ∧ coinFlip (rules l1) = false
    ∧ teamNames l1 = [("a", "A"); ("b", "B")]
    ∧ timers (final (admin_start specExternals "S" splatoonModePhase))
      = timers (final (specSplatoonStartGame "S" splatoonModePhase))
        ++ [(100%nat, capEvent "a" "canModeBan" true)].
Proof.
  let stored := eval vm_compute in (lobbies splatoonModePhase !! "S") in
  match stored with
  | Some ?stored0 => pose (l := stored0)
  end.
  let stored := eval vm_compute in
      (lobbies (final (specSplatoonStartGame "S" splatoonModePhase)) !! "S") in
  match stored with
  | Some ?stored0 => pose (l1 := stored0)
  end.
  destruct (startGame_splatoon_controls specExternals splatoonModePhase "S" l l1)
    as (tail & _ & _ & _ & _ & _ & _ & Hon).
  - vm_compute. reflexivity.
  - reflexivity.
  - vm_compute. reflexivity.
  - vm_compute. reflexivity.
  - exists l1. split; [vm_compute; reflexivity|]. split; [reflexivity|].
    split; [reflexivity|].
    destruct Hon as [Htimer _]; [reflexivity|done|]. exact Htimer.
Defined.
